(** * Semester timetable builder: scheduling and room-assignment engine

    A shallow embedding of the scheduling logic of the timetable builder
    (components/timetable-grid.tsx, components/schedule-builder-modal.tsx,
    components/room-assignment-engine.tsx and the teaching-assignment
    manager), followed by the properties of that logic.

    Conventions of the embedding.
    - Identifiers, days and messages are [string]s; JavaScript [===] on
      strings is [String.eqb].
    - Periods, capacities, head counts, weekly hour figures, minute counts
      and clock readings are non-negative integers ([N]); priorities and
      scores are integers ([Z]).
    - Hours are exact rationals ([Q]).  The source computes them in IEEE
      doubles; with the 45 minute period used by both components every
      partial sum is a multiple of 1/4 and is represented exactly.
    - Optional fields that no code path writes ([alternativeRooms],
      [distance]) are left out of the records.
    - React state is passed explicitly: every handler takes the state it
      reads and returns the state it sets.
    - [new Date()] and [Date.now()] are inputs of the handlers. *)

From Stdlib Require Import QArith Qround Ascii.
From stdpp Require Import gmap strings list pretty sorting.
Close Scope Q_scope.

(* ================================================================== *)
(** * JavaScript library functions used by the components *)
(* ================================================================== *)

(** [Array.prototype.includes] on an array of strings. *)
Definition includes (l : list string) (x : string) : bool :=
  existsb (String.eqb x) l.

(** [Array.prototype.sort(cmp)].  The sort is stable (ECMAScript 2019), so
    for a comparator that is a total preorder its result is the one computed
    by a stable insertion sort: [x] is placed before the first [y] with
    [cmp x y <= 0]. *)
Fixpoint insertBy {A} (cmp : A → A → Z) (x : A) (l : list A) : list A :=
  match l with
  | [] => [x]
  | y :: ys => if (cmp x y <=? 0)%Z then x :: y :: ys else y :: insertBy cmp x ys
  end.

Definition sortBy {A} (cmp : A → A → Z) (l : list A) : list A :=
  foldr (insertBy cmp) [] l.

(** [x > y] on numbers, read on exact rationals. *)
Definition Qgtb (x y : Q) : bool := negb (Qle_bool x y).

(** [Math.round]: the nearest integer, halves rounded up.  On doubles the
    result can differ from this one only when the exact argument lies within
    rounding error of a half-integer. *)
Definition Math_round (x : Q) : Z := Qfloor (x + (1 # 2))%Q.

(** [x.toFixed(1)] for a non-negative [x]. *)
Definition toFixed1 (x : Q) : string :=
  let n := Z.to_N (Qfloor (x * 10 + (1 # 2))%Q) in
  pretty (n `div` 10)%N +:+ "." +:+ pretty (n `mod` 10)%N.

(** A [Map<string, V>]: iteration follows insertion order, and [set] on a
    present key keeps the key where it is. *)
Module JsMap.
Definition t (V : Type) : Type := list (string * V).

Fixpoint get {V} (m : t V) (k : string) : option V :=
  match m with
  | [] => None
  | (k', v) :: r => if String.eqb k' k then Some v else get r k
  end.

Fixpoint set {V} (m : t V) (k : string) (v : V) : t V :=
  match m with
  | [] => [(k, v)]
  | (k', v') :: r =>
      if String.eqb k' k then (k', v) :: r else (k', v') :: set r k v
  end.
End JsMap.

(* ================================================================== *)
(** * Data model (types/timetable.ts, types/classroom.ts,
      types/room-assignment.ts, types/teacher-assignments.ts) *)
(* ================================================================== *)

Record Subject := {
  sub_id : string; sub_name : string; sub_code : string; sub_color : string }.

Record GradeSubjectAllocation := {
  gsa_id : string; gsa_gradeId : string; gsa_subjectId : string;
  gsa_weeklyHours : N; gsa_semesterWeeks : N; gsa_totalHours : N }.

Record ClassSection := {
  cs_id : string; cs_name : string; cs_gradeId : string; cs_studentCount : N }.

Record Teacher := {
  t_id : string; t_name : string; t_email : string; t_subjects : list string;
  t_weeklyHourLimit : N; t_currentWeeklyHours : N }.

Record Room := {
  r_id : string; r_name : string; r_capacity : N; r_type : string }.

Record TimeSlot := {
  ts_id : string; ts_day : string; ts_period : N;
  ts_startTime : string; ts_endTime : string }.

Record TimetableEntry := {
  te_id : string; te_classId : string; te_teacherId : string;
  te_subjectId : string; te_roomId : option string; te_timeSlotId : string;
  te_day : string; te_period : N }.

Record ClassSubjectTeacher := {
  cst_id : string; cst_classId : string; cst_subjectId : string;
  cst_teacherId : string; cst_isActive : bool;
  cst_createdAt : string; cst_updatedAt : string }.

Inductive ConflictType :=
  teacher_double_booking | room_clash | teacher_overload | subject_hours_exceeded.

Inductive Severity := sev_warning | sev_error.

Record Conflict := {
  c_type : ConflictType; c_message : string; c_severity : Severity;
  c_affectedEntries : list string }.

Record Classroom := {
  cr_id : string; cr_name : string; cr_code : string; cr_roomTypeId : string;
  cr_capacity : N; cr_floor : string; cr_building : string;
  cr_features : list string; cr_equipment : list string; cr_isActive : bool;
  cr_notes : string; cr_createdAt : string; cr_updatedAt : string }.

Record SubjectRoomType := {
  srt_id : string; srt_subjectId : string; srt_roomTypeId : string;
  srt_priority : Z; srt_isRequired : bool;
  srt_createdAt : string; srt_updatedAt : string }.

Inductive ConflictStatus := cs_none | cs_warning | cs_error.

Record RoomAssignment := {
  ra_id : string; ra_timetableEntryId : string; ra_roomId : string;
  ra_isAutoAssigned : bool; ra_assignedAt : string; ra_assignedBy : string;
  ra_conflictStatus : ConflictStatus }.

Record RoomSuggestion := {
  rs_roomId : string; rs_roomName : string; rs_suitabilityScore : Z;
  rs_reasons : list string; rs_warnings : list string }.

(* ================================================================== *)
(** * Room assignment engine (components/room-assignment-engine.tsx) *)
(* ================================================================== *)

Module RoomEngine.

(** The collections the component only reads: the imported [subjects] and
    [classSections], and its [classrooms] and [subjectRoomTypes] state,
    which have no setter. *)
Record Catalog := {
  subjects : list Subject;
  classSections : list ClassSection;
  classrooms : list Classroom;
  subjectRoomTypes : list SubjectRoomType }.

(** The three locals of the scoring closure: [score], [reasons],
    [warnings]. *)
Record Scoring := {
  score : Z; reasons : list string; warnings : list string }.

Definition scoring0 : Scoring := {| score := 0; reasons := []; warnings := [] |}.

Definition addScore (d : Z) (s : Scoring) : Scoring :=
  {| score := score s + d; reasons := reasons s; warnings := warnings s |}.

Definition pushReason (r : string) (s : Scoring) : Scoring :=
  {| score := score s; reasons := reasons s ++ [r]; warnings := warnings s |}.

Definition pushWarning (w : string) (s : Scoring) : Scoring :=
  {| score := score s; reasons := reasons s; warnings := warnings s ++ [w] |}.

(** [timetableEntries.find((te) => te.id === id)]. *)
Definition findEntry (timetableEntries : list TimetableEntry) (id : string)
  : option TimetableEntry :=
  List.find (λ te, String.eqb (te_id te) id) timetableEntries.

(** Does assignment [ra] belong to an entry at the given day and period? *)
Definition assignedAt (timetableEntries : list TimetableEntry)
    (day : string) (period : N) (ra : RoomAssignment) : bool :=
  match findEntry timetableEntries (ra_timetableEntryId ra) with
  | Some assignedEntry =>
      String.eqb (te_day assignedEntry) day && (te_period assignedEntry =? period)%N
  | None => false
  end.

Definition occupiedRooms (roomAssignments : list RoomAssignment)
    (timetableEntries : list TimetableEntry) (entry : TimetableEntry)
  : list string :=
  map ra_roomId
    (List.filter (assignedAt timetableEntries (te_day entry) (te_period entry))
       roomAssignments).

Definition availableRooms (cat : Catalog) (occupied : list string)
  : list Classroom :=
  List.filter (λ room, cr_isActive room && negb (includes occupied (cr_id room)))
    (classrooms cat).

Definition subjectRoomPreferences (cat : Catalog) (entry : TimetableEntry)
  : list SubjectRoomType :=
  sortBy (λ a b, srt_priority a - srt_priority b)%Z
    (List.filter (λ srt, String.eqb (srt_subjectId srt) (te_subjectId entry))
       (subjectRoomTypes cat)).

(** "Check room type preference". *)
Definition typeRule (prefs : list SubjectRoomType) (room : Classroom)
    (s : Scoring) : Scoring :=
  match List.find (λ srt, String.eqb (srt_roomTypeId srt) (cr_roomTypeId room)) prefs with
  | Some roomTypePreference =>
      let priorityScore := (4 - srt_priority roomTypePreference)%Z in
      let s := addScore (priorityScore * 30) s in
      let s := pushReason
                 ((if (srt_priority roomTypePreference =? 1)%Z
                   then "Preferred" else "Suitable") +:+ " room type") s in
      if srt_isRequired roomTypePreference
      then pushReason "Required room type" (addScore 20 s)
      else s
  | None =>
      if (0 <? length prefs)%nat
      then pushWarning "Not a preferred room type for this subject" (addScore (-20) s)
      else s
  end.

(** [classSection.studentCount / room.capacity].  With a capacity of 0 the
    branch that divides is reached only for 0 students; JavaScript then
    yields NaN, which fails both comparisons below just as 0 does.  For
    capacities below 10^15 the comparisons of the double quotient with the
    literals 0.8 and 0.5 agree with the exact ones. *)
Definition capacityRatio (room : Classroom) (classSection : ClassSection) : Q :=
  Z.of_N (cs_studentCount classSection) # Z.to_pos (Z.of_N (cr_capacity room)).

(** "Check capacity". *)
Definition capacityRule (room : Classroom) (classSection : ClassSection)
    (s : Scoring) : Scoring :=
  if (cs_studentCount classSection <=? cr_capacity room)%N then
    if Qgtb (capacityRatio room classSection) (8 # 10) then
      pushReason "Good capacity utilization" (addScore 15 s)
    else if Qgtb (capacityRatio room classSection) (5 # 10) then
      pushReason "Adequate capacity" (addScore 10 s)
    else
      pushWarning "Room may be too large" (addScore 5 s)
  else
    pushWarning
      ("Insufficient capacity (" +:+ pretty (cr_capacity room) +:+ " < "
         +:+ pretty (cs_studentCount classSection) +:+ ")")
      (addScore (-50) s).

Definition requiredFeatures : list string := ["Projector"; "Whiteboard"].

(** "Check features match". *)
Definition featureRule (room : Classroom) (s : Scoring) : Scoring :=
  if forallb (includes (cr_features room)) requiredFeatures
  then pushReason "Has required features" (addScore 10 s)
  else pushWarning "Missing some required features" s.

(** The body of [availableRooms.map((room) => ...)]. *)
Definition scoreRoom (prefs : list SubjectRoomType) (classSection : ClassSection)
    (room : Classroom) : RoomSuggestion :=
  let s := featureRule room
             (capacityRule room classSection (typeRule prefs room scoring0)) in
  {| rs_roomId := cr_id room;
     rs_roomName := cr_name room;
     rs_suitabilityScore := Z.max 0 (score s);
     rs_reasons := reasons s;
     rs_warnings := warnings s |}.

Definition generateRoomSuggestions (cat : Catalog)
    (roomAssignments : list RoomAssignment)
    (timetableEntries : list TimetableEntry) (entry : TimetableEntry)
  : list RoomSuggestion :=
  match List.find (λ s, String.eqb (sub_id s) (te_subjectId entry)) (subjects cat),
        List.find (λ c, String.eqb (cs_id c) (te_classId entry)) (classSections cat) with
  | Some subject, Some classSection =>
      let prefs := subjectRoomPreferences cat entry in
      let occupied := occupiedRooms roomAssignments timetableEntries entry in
      let suggestions := map (scoreRoom prefs classSection) (availableRooms cat occupied) in
      sortBy (λ a b, rs_suitabilityScore b - rs_suitabilityScore a)%Z suggestions
  | _, _ => []
  end.

(** One iteration of [timetableEntries.forEach] in [autoAssignRooms].
    [clock k] is the reading of [new Date().toISOString()] taken for the
    assignment pushed at index [k] of [newAssignments]. *)
Definition autoAssignStep (cat : Catalog) (clock : nat → string)
    (roomAssignments : list RoomAssignment)
    (timetableEntries : list TimetableEntry)
    (newAssignments : list RoomAssignment) (entry : TimetableEntry)
  : list RoomAssignment :=
  if existsb (λ ra, String.eqb (ra_timetableEntryId ra) (te_id entry)) roomAssignments
  then newAssignments
  else
    match generateRoomSuggestions cat roomAssignments timetableEntries entry with
    | bestSuggestion :: _ =>
        if (0 <? rs_suitabilityScore bestSuggestion)%Z then
          newAssignments ++
            [ {| ra_id := "auto-" +:+ te_id entry;
                 ra_timetableEntryId := te_id entry;
                 ra_roomId := rs_roomId bestSuggestion;
                 ra_isAutoAssigned := true;
                 ra_assignedAt := clock (length newAssignments);
                 ra_assignedBy := "system";
                 ra_conflictStatus :=
                   if (0 <? length (rs_warnings bestSuggestion))%nat
                   then cs_warning else cs_none |} ]
        else newAssignments
    | [] => newAssignments
    end.

Definition autoAssignNew (cat : Catalog) (clock : nat → string)
    (roomAssignments : list RoomAssignment)
    (timetableEntries : list TimetableEntry) : list RoomAssignment :=
  fold_left (autoAssignStep cat clock roomAssignments timetableEntries)
    timetableEntries [].

(** [autoAssignRooms]: the value passed to [setRoomAssignments]. *)
Definition autoAssignRooms (cat : Catalog) (clock : nat → string)
    (roomAssignments : list RoomAssignment)
    (timetableEntries : list TimetableEntry) : list RoomAssignment :=
  roomAssignments ++ autoAssignNew cat clock roomAssignments timetableEntries.

(** Outcome of [saveManualAssignment]. *)
Inductive ManualResult :=
| ManualIgnored                 (* no entry or no room selected: plain return *)
| ManualRoomOccupied            (* alert "This room is already occupied at this time!" *)
| ManualSaved (updatedAssignments : list RoomAssignment).

Definition saveManualAssignment (now : string)
    (roomAssignments : list RoomAssignment)
    (timetableEntries : list TimetableEntry)
    (selectedEntry : option TimetableEntry) (manualRoomSelection : string)
  : ManualResult :=
  match selectedEntry with
  | None => ManualIgnored
  | Some selectedEntry =>
      if String.eqb manualRoomSelection "" then ManualIgnored
      else
        match List.find
                (λ ra, match findEntry timetableEntries (ra_timetableEntryId ra) with
                       | Some entry =>
                           String.eqb (ra_roomId ra) manualRoomSelection
                           && String.eqb (te_day entry) (te_day selectedEntry)
                           && (te_period entry =? te_period selectedEntry)%N
                       | None => false
                       end)
                roomAssignments with
        | Some conflictingAssignment => ManualRoomOccupied
        | None =>
            ManualSaved
              (List.filter
                 (λ ra, negb (String.eqb (ra_timetableEntryId ra) (te_id selectedEntry)))
                 roomAssignments
               ++ [ {| ra_id := "manual-" +:+ te_id selectedEntry;
                       ra_timetableEntryId := te_id selectedEntry;
                       ra_roomId := manualRoomSelection;
                       ra_isAutoAssigned := false;
                       ra_assignedAt := now;
                       ra_assignedBy := "user";
                       ra_conflictStatus := cs_none |} ])
        end
  end.

End RoomEngine.

(* ================================================================== *)
(** * Timetable grid (components/timetable-grid.tsx) *)
(* ================================================================== *)

Inductive ViewMode := class_mode | teacher_mode.

(** One value of the [subjectProgress] record. *)
Record Progress := {
  p_scheduled : Q; p_total : N; p_percentage : Z }.

(** Outcome of a click on a grid cell. *)
Inductive SlotClickResult :=
| ClickIgnored          (* no subject or no entity selected: plain return *)
| ClickFullyScheduled   (* alert "This subject is fully scheduled. ..." *)
| ClickNoTeacher        (* alert "No teacher assigned for this subject ..." *)
| ClickAdded (updatedEntries : list TimetableEntry) (conflicts : list Conflict).

Module Grid.

Definition PERIODS : list N := [1; 2; 3; 4; 5]%N.
Definition DAYS : list string :=
  ["Monday"; "Tuesday"; "Wednesday"; "Thursday"; "Friday"].

(** The collections imported from lib/timetable-data. *)
Record Registry := {
  classSections : list ClassSection;
  teachers : list Teacher;
  subjects : list Subject;
  rooms : list Room }.

Definition findClass (reg : Registry) (id : string) : option ClassSection :=
  List.find (λ c, String.eqb (cs_id c) id) (classSections reg).

Definition findTeacher (reg : Registry) (id : string) : option Teacher :=
  List.find (λ t, String.eqb (t_id t) id) (teachers reg).

Definition findAllocation (allocations : list GradeSubjectAllocation)
    (gradeId subjectId : string) : option GradeSubjectAllocation :=
  List.find (λ a, String.eqb (gsa_gradeId a) gradeId
                  && String.eqb (gsa_subjectId a) subjectId) allocations.

Definition availableSubjects (reg : Registry)
    (allocations : list GradeSubjectAllocation)
    (viewMode : ViewMode) (selectedEntity : string) : list Subject :=
  if String.eqb selectedEntity "" then []
  else match viewMode with
       | class_mode =>
           List.filter
             (λ subject,
                match findClass reg selectedEntity with
                | Some classSection =>
                    existsb (λ a, String.eqb (gsa_gradeId a) (cs_gradeId classSection)
                                  && String.eqb (gsa_subjectId a) (sub_id subject))
                      allocations
                | None => false
                end)
             (subjects reg)
       | teacher_mode =>
           List.filter
             (λ subject,
                match findTeacher reg selectedEntity with
                | Some teacher => includes (t_subjects teacher) (sub_id subject)
                | None => false
                end)
             (subjects reg)
       end.

(** "Calculate total required hours for this subject". *)
Definition totalHours (reg : Registry)
    (allocations : list GradeSubjectAllocation)
    (assignments : list ClassSubjectTeacher)
    (viewMode : ViewMode) (selectedEntity : string) (subject : Subject) : N :=
  match viewMode with
  | class_mode =>
      match findClass reg selectedEntity with
      | Some classSection =>
          match findAllocation allocations (cs_gradeId classSection) (sub_id subject) with
          | Some allocation => gsa_weeklyHours allocation
          | None => 0
          end
      | None => 0
      end
  | teacher_mode =>
      fold_left
        (λ totalHours assignment,
           match findClass reg (cst_classId assignment) with
           | Some classSection =>
               totalHours +
               match findAllocation allocations (cs_gradeId classSection) (sub_id subject) with
               | Some allocation => gsa_weeklyHours allocation
               | None => 0
               end
           | None => totalHours
           end)
        (List.filter
           (λ a, String.eqb (cst_teacherId a) selectedEntity
                 && String.eqb (cst_subjectId a) (sub_id subject)
                 && cst_isActive a)
           assignments)
        0
  end%N.

Definition scheduledEntries (timetableEntries : list TimetableEntry)
    (viewMode : ViewMode) (selectedEntity : string) (subject : Subject)
  : list TimetableEntry :=
  List.filter
    (λ entry,
       match viewMode with
       | class_mode =>
           String.eqb (te_classId entry) selectedEntity
           && String.eqb (te_subjectId entry) (sub_id subject)
       | teacher_mode =>
           String.eqb (te_teacherId entry) selectedEntity
           && String.eqb (te_subjectId entry) (sub_id subject)
       end)
    timetableEntries.

(** [periodDuration / 60]. *)
Definition periodHours (periodDuration : N) : Q := Z.of_N periodDuration # 60.

Definition percentageOf (scheduledHours : Q) (totalHours : N) : Z :=
  if (0 <? totalHours)%N
  then Math_round ((scheduledHours / inject_Z (Z.of_N totalHours)) * 100)%Q
  else 0%Z.

Definition progressOf (reg : Registry)
    (allocations : list GradeSubjectAllocation)
    (assignments : list ClassSubjectTeacher)
    (timetableEntries : list TimetableEntry) (periodDuration : N)
    (viewMode : ViewMode) (selectedEntity : string) (subject : Subject)
  : Progress :=
  let totalHours := totalHours reg allocations assignments viewMode selectedEntity subject in
  let scheduledHours :=
    (inject_Z (Z.of_nat (length (scheduledEntries timetableEntries viewMode
                                   selectedEntity subject)))
     * periodHours periodDuration)%Q in
  {| p_scheduled := scheduledHours;
     p_total := totalHours;
     p_percentage := percentageOf scheduledHours totalHours |}.

(** The [subjectProgress] memo: a record keyed by subject id. *)
Definition subjectProgress (reg : Registry)
    (allocations : list GradeSubjectAllocation)
    (assignments : list ClassSubjectTeacher)
    (timetableEntries : list TimetableEntry) (periodDuration : N)
    (viewMode : ViewMode) (selectedEntity : string) : gmap string Progress :=
  if String.eqb selectedEntity "" then ∅
  else
    fold_left
      (λ progress subject,
         <[sub_id subject :=
             progressOf reg allocations assignments timetableEntries periodDuration
               viewMode selectedEntity subject]> progress)
      (availableSubjects reg allocations viewMode selectedEntity)
      ∅.

(** [timetableEntries.some(...)] inside [validSlots]. *)
Definition isOccupied (timetableEntries : list TimetableEntry)
    (viewMode : ViewMode) (selectedEntity : string) (day : string) (period : N)
  : bool :=
  existsb
    (λ entry,
       match viewMode with
       | class_mode =>
           String.eqb (te_classId entry) selectedEntity
           && String.eqb (te_day entry) day && (te_period entry =? period)%N
       | teacher_mode =>
           String.eqb (te_teacherId entry) selectedEntity
           && String.eqb (te_day entry) day && (te_period entry =? period)%N
       end)
    timetableEntries.

(** The [validSlots] memo.  [selectedSubject] is [string | null]; the
    test [!selectedSubject] also rejects the empty string. *)
Definition validSlots (subjectProgress : gmap string Progress)
    (timetableEntries : list TimetableEntry)
    (viewMode : ViewMode) (selectedEntity : string)
    (selectedSubject : option string) : list (string * N) :=
  match selectedSubject with
  | None => []
  | Some selectedSubject =>
      if String.eqb selectedSubject "" then []
      else
        match subjectProgress !! selectedSubject with
        | None => []
        | Some progress =>
            if (100 <=? p_percentage progress)%Z then []
            else
              flat_map
                (λ day,
                   flat_map
                     (λ period,
                        if isOccupied timetableEntries viewMode selectedEntity day period
                        then [] else [(day, period)])
                     PERIODS)
                DAYS
        end
  end.

(** [`${entry.day}-${entry.period}`]. *)
Definition slotKey (day : string) (period : N) : string :=
  day +:+ "-" +:+ pretty period.

Definition teacherName (reg : Registry) (teacherId : string) : string :=
  match findTeacher reg teacherId with
  | Some t => t_name t
  | None => "undefined"
  end.

Definition doubleBookingConflict (reg : Registry) (entry : TimetableEntry) : Conflict :=
  {| c_type := teacher_double_booking;
     c_message := "Teacher " +:+ teacherName reg (te_teacherId entry)
                  +:+ " is double-booked on " +:+ te_day entry
                  +:+ " period " +:+ pretty (te_period entry);
     c_severity := sev_error;
     c_affectedEntries := [te_id entry] |}.

(** One iteration of the "Check teacher double booking" loop: the state is
    the [teacherSlots] map and the conflicts pushed so far. *)
Definition doubleBookingStep (reg : Registry)
    (st : gmap string (gset string) * list Conflict) (entry : TimetableEntry)
  : gmap string (gset string) * list Conflict :=
  let teacherSlots :=
    match st.1 !! te_teacherId entry with
    | Some _ => st.1
    | None => <[te_teacherId entry := ∅]> st.1
    end in
  let slots := default ∅ (teacherSlots !! te_teacherId entry) in
  let slotKey := slotKey (te_day entry) (te_period entry) in
  let newConflicts :=
    if bool_decide (slotKey ∈ slots)
    then st.2 ++ [doubleBookingConflict reg entry]
    else st.2 in
  (<[te_teacherId entry := slots ∪ {[slotKey]}]> teacherSlots, newConflicts).

Definition doubleBookingConflicts (reg : Registry) (entries : list TimetableEntry)
  : list Conflict :=
  (fold_left (doubleBookingStep reg) entries (∅, [])).2.

(** The "Check teacher weekly hour limits" accumulation. *)
Definition teacherHours (periodDuration : N) (entries : list TimetableEntry)
  : JsMap.t Q :=
  fold_left
    (λ teacherHours entry,
       let hours := periodHours periodDuration in
       JsMap.set teacherHours (te_teacherId entry)
         (default 0%Q (JsMap.get teacherHours (te_teacherId entry)) + hours)%Q)
    entries [].

Definition overloadConflict (entries : list TimetableEntry)
    (teacher : Teacher) (teacherId : string) (hours : Q) : Conflict :=
  {| c_type := teacher_overload;
     c_message := t_name teacher +:+ " exceeds weekly limit: " +:+ toFixed1 hours
                  +:+ "/" +:+ pretty (t_weeklyHourLimit teacher) +:+ " hours";
     c_severity := sev_warning;
     c_affectedEntries :=
       map te_id (List.filter (λ e, String.eqb (te_teacherId e) teacherId) entries) |}.

(** The body of [teacherHours.forEach((hours, teacherId) => ...)]. *)
Definition overloadFor (reg : Registry) (entries : list TimetableEntry)
    (kv : string * Q) : list Conflict :=
  match findTeacher reg kv.1 with
  | Some teacher =>
      if Qgtb kv.2 (inject_Z (Z.of_N (t_weeklyHourLimit teacher)))
      then [overloadConflict entries teacher kv.1 kv.2]
      else []
  | None => []
  end.

Definition overloadConflicts (reg : Registry) (periodDuration : N)
    (entries : list TimetableEntry) : list Conflict :=
  flat_map (overloadFor reg entries) (teacherHours periodDuration entries).

Definition roomName (reg : Registry) (roomId : string) : string :=
  match List.find (λ r, String.eqb (r_id r) roomId) (rooms reg) with
  | Some r => r_name r
  | None => "undefined"
  end.

(** One iteration of the "Check room conflicts" loop. *)
Definition roomClashStep (reg : Registry)
    (st : gmap string (gset string) * list Conflict) (entry : TimetableEntry)
  : gmap string (gset string) * list Conflict :=
  match te_roomId entry with
  | None => st
  | Some roomId =>
      if String.eqb roomId "" then st
      else
        let roomSlots :=
          match st.1 !! roomId with
          | Some _ => st.1
          | None => <[roomId := ∅]> st.1
          end in
        let slots := default ∅ (roomSlots !! roomId) in
        let slotKey := slotKey (te_day entry) (te_period entry) in
        let newConflicts :=
          if bool_decide (slotKey ∈ slots)
          then st.2 ++
               [ {| c_type := room_clash;
                    c_message := "Room " +:+ roomName reg roomId
                                 +:+ " is double-booked on " +:+ te_day entry
                                 +:+ " period " +:+ pretty (te_period entry);
                    c_severity := sev_error;
                    c_affectedEntries := [te_id entry] |} ]
          else st.2 in
        (<[roomId := slots ∪ {[slotKey]}]> roomSlots, newConflicts)
  end.

Definition roomClashConflicts (reg : Registry) (entries : list TimetableEntry)
  : list Conflict :=
  (fold_left (roomClashStep reg) entries (∅, [])).2.

(** [validateConstraints]: the three checks push to one array in turn. *)
Definition validateConstraints (reg : Registry) (periodDuration : N)
    (entries : list TimetableEntry) : list Conflict :=
  doubleBookingConflicts reg entries
  ++ overloadConflicts reg periodDuration entries
  ++ roomClashConflicts reg entries.

(** "Find the assigned teacher for this class-subject combination". *)
Definition resolveTeacher (assignments : list ClassSubjectTeacher)
    (viewMode : ViewMode) (selectedEntity selectedSubject : string) : string :=
  match viewMode with
  | class_mode =>
      match List.find
              (λ a, String.eqb (cst_classId a) selectedEntity
                    && String.eqb (cst_subjectId a) selectedSubject
                    && cst_isActive a)
              assignments with
      | Some assignment => cst_teacherId assignment
      | None => ""
      end
  | teacher_mode => selectedEntity
  end.

(** The object literal [newEntry]; [now] is the reading of [Date.now()]. *)
Definition newEntry (timeSlots : list TimeSlot) (now : N)
    (viewMode : ViewMode) (selectedEntity selectedSubject teacherId : string)
    (day : string) (period : N) : TimetableEntry :=
  {| te_id := pretty now;
     te_classId := match viewMode with class_mode => selectedEntity | teacher_mode => "" end;
     te_teacherId := teacherId;
     te_subjectId := selectedSubject;
     te_roomId := None;
     te_timeSlotId :=
       match List.find (λ ts, String.eqb (ts_day ts) day && (ts_period ts =? period)%N)
               timeSlots with
       | Some ts => ts_id ts
       | None => ""
       end;
     te_day := day;
     te_period := period |}.

(** The test [!selectedSubject] on a [string | null]. *)
Definition selected (selectedSubject : option string) : option string :=
  match selectedSubject with
  | Some s => if String.eqb s "" then None else Some s
  | None => None
  end.

Definition handleSlotClick (reg : Registry) (periodDuration : N)
    (subjectProgress : gmap string Progress)
    (assignments : list ClassSubjectTeacher) (timeSlots : list TimeSlot)
    (timetableEntries : list TimetableEntry) (now : N)
    (viewMode : ViewMode) (selectedEntity : string)
    (selectedSubject : option string) (day : string) (period : N)
  : SlotClickResult :=
  match selected selectedSubject with
  | None => ClickIgnored
  | Some selectedSubject =>
      if String.eqb selectedEntity "" then ClickIgnored
      else if match subjectProgress !! selectedSubject with
              | Some progress => (100 <=? p_percentage progress)%Z
              | None => false
              end
      then ClickFullyScheduled
      else
        let teacherId := resolveTeacher assignments viewMode selectedEntity selectedSubject in
        if String.eqb teacherId "" then ClickNoTeacher
        else
          let updatedEntries :=
            timetableEntries ++
            [newEntry timeSlots now viewMode selectedEntity selectedSubject teacherId
               day period] in
          ClickAdded updatedEntries (validateConstraints reg periodDuration updatedEntries)
  end.

(** [handleAddEntry], the [onAddEntry] callback given to the modal. *)
Definition handleAddEntry (reg : Registry) (periodDuration : N)
    (timetableEntries : list TimetableEntry) (newEntry : TimetableEntry)
  : SlotClickResult :=
  let updatedEntries := timetableEntries ++ [newEntry] in
  ClickAdded updatedEntries (validateConstraints reg periodDuration updatedEntries).

Definition removeEntry (timetableEntries : list TimetableEntry) (entryId : string)
  : list TimetableEntry :=
  List.filter (λ e, negb (String.eqb (te_id e) entryId)) timetableEntries.

End Grid.

(* ================================================================== *)
(** * Schedule builder modal (components/schedule-builder-modal.tsx) *)
(* ================================================================== *)

Module Modal.

Definition PERIOD_DURATION : N := 45.

(** The modal's [subjectProgress] has no early return on an empty entity;
    its [availableSubjects] is then empty. *)
Definition subjectProgress (reg : Grid.Registry)
    (allocations : list GradeSubjectAllocation)
    (assignments : list ClassSubjectTeacher)
    (timetableEntries : list TimetableEntry)
    (viewMode : ViewMode) (selectedEntity : string) : gmap string Progress :=
  fold_left
    (λ progress subject,
       <[sub_id subject :=
           Grid.progressOf reg allocations assignments timetableEntries PERIOD_DURATION
             viewMode selectedEntity subject]> progress)
    (Grid.availableSubjects reg allocations viewMode selectedEntity)
    ∅.

(** The modal's [validSlots] has the same text as the grid's. *)
Definition validSlots := Grid.validSlots.

(** The modal's click handler has no progress test and hands the new
    entry to [onAddEntry], which the grid binds to [handleAddEntry]. *)
Definition handleSlotClick (reg : Grid.Registry) (periodDuration : N)
    (assignments : list ClassSubjectTeacher) (timeSlots : list TimeSlot)
    (timetableEntries : list TimetableEntry) (now : N)
    (viewMode : ViewMode) (selectedEntity : string)
    (selectedSubject : option string) (day : string) (period : N)
  : SlotClickResult :=
  match Grid.selected selectedSubject with
  | None => ClickIgnored
  | Some selectedSubject =>
      if String.eqb selectedEntity "" then ClickIgnored
      else
        let teacherId :=
          Grid.resolveTeacher assignments viewMode selectedEntity selectedSubject in
        if String.eqb teacherId "" then ClickNoTeacher
        else
          Grid.handleAddEntry reg periodDuration timetableEntries
            (Grid.newEntry timeSlots now viewMode selectedEntity selectedSubject
               teacherId day period)
  end.

End Modal.

(* ================================================================== *)
(** * Teaching assignment manager (TeacherAssignmentManager) *)
(* ================================================================== *)

Module TeacherAssignments.

Inductive Toast :=
| toast_error (msg : string)
| toast_success (msg : string).

(** [addAssignment]: the three selections are strings, empty when nothing
    is selected; [nowMs] is [Date.now()] and [nowIso] is
    [new Date().toISOString()].  The result is the [assignments] state
    after the call and the toast shown. *)
Definition addAssignment (nowMs : N) (nowIso : string)
    (selectedClass selectedSubject selectedTeacher : string)
    (assignments : list ClassSubjectTeacher)
  : list ClassSubjectTeacher * Toast :=
  if String.eqb selectedClass "" || String.eqb selectedSubject ""
     || String.eqb selectedTeacher ""
  then (assignments, toast_error "Please select class, subject, and teacher")
  else
    match List.find
            (λ a, String.eqb (cst_classId a) selectedClass
                  && String.eqb (cst_subjectId a) selectedSubject
                  && cst_isActive a)
            assignments with
    | Some existingAssignment =>
        (map (λ a, if String.eqb (cst_id a) (cst_id existingAssignment)
                   then {| cst_id := cst_id a; cst_classId := cst_classId a;
                           cst_subjectId := cst_subjectId a;
                           cst_teacherId := selectedTeacher;
                           cst_isActive := cst_isActive a;
                           cst_createdAt := cst_createdAt a;
                           cst_updatedAt := nowIso |}
                   else a)
           assignments,
         toast_success "Assignment updated successfully")
    | None =>
        (assignments ++
           [ {| cst_id := pretty nowMs; cst_classId := selectedClass;
                cst_subjectId := selectedSubject; cst_teacherId := selectedTeacher;
                cst_isActive := true;
                cst_createdAt := nowIso; cst_updatedAt := nowIso |} ],
         toast_success "Assignment added successfully")
    end.

Definition removeAssignment (nowIso : string) (assignmentId : string)
    (assignments : list ClassSubjectTeacher) : list ClassSubjectTeacher :=
  map (λ a, if String.eqb (cst_id a) assignmentId
            then {| cst_id := cst_id a; cst_classId := cst_classId a;
                    cst_subjectId := cst_subjectId a;
                    cst_teacherId := cst_teacherId a;
                    cst_isActive := false;
                    cst_createdAt := cst_createdAt a;
                    cst_updatedAt := nowIso |}
            else a)
    assignments.

(** A user action on the table. *)
Inductive Op :=
| op_add (nowMs : N) (nowIso : string) (cls subject teacher : string)
| op_remove (nowIso : string) (assignmentId : string).

Definition step (assignments : list ClassSubjectTeacher) (op : Op)
  : list ClassSubjectTeacher :=
  match op with
  | op_add nowMs nowIso c s t => (addAssignment nowMs nowIso c s t assignments).1
  | op_remove nowIso id => removeAssignment nowIso id assignments
  end.

Definition run (ops : list Op) (assignments : list ClassSubjectTeacher)
  : list ClassSubjectTeacher :=
  fold_left step ops assignments.

Definition mkRow (id cls subject teacher : string) : ClassSubjectTeacher :=
  {| cst_id := id; cst_classId := cls; cst_subjectId := subject;
     cst_teacherId := teacher; cst_isActive := true;
     cst_createdAt := "2024-01-01T00:00:00Z";
     cst_updatedAt := "2024-01-01T00:00:00Z" |}.

(** lib/teacher-assignment-data.ts: the initial [assignments] state. *)
Definition defaultClassSubjectTeachers : list ClassSubjectTeacher :=
  [ mkRow "1" "1" "1" "1"; mkRow "2" "1" "2" "2"; mkRow "3" "1" "3" "1";
    mkRow "4" "1" "4" "3"; mkRow "5" "1" "5" "5"; mkRow "6" "2" "1" "1";
    mkRow "7" "2" "2" "2"; mkRow "8" "2" "8" "4" ].

End TeacherAssignments.

(* ================================================================== *)
(** * Auxiliary notions used to state the properties *)
(* ================================================================== *)

(** A string without the character [-]. *)
Fixpoint dashFree (s : string) : bool :=
  match s with
  | EmptyString => true
  | String c r => negb (Ascii.eqb c "-"%char) && dashFree r
  end.

(** What [autoAssignRooms] pushes for [entry]: an assignment to the head of
    the entry's suggestion list, provided the entry had no assignment and
    the head's score is positive. *)
Definition createdFor (cat : RoomEngine.Catalog)
    (roomAssignments : list RoomAssignment)
    (timetableEntries : list TimetableEntry)
    (ra : RoomAssignment) (entry : TimetableEntry) : Prop :=
  existsb (λ old, String.eqb (ra_timetableEntryId old) (te_id entry)) roomAssignments
    = false
  ∧ ∃ best rest,
      RoomEngine.generateRoomSuggestions cat roomAssignments timetableEntries entry
      = best :: rest
      ∧ (0 < rs_suitabilityScore best)%Z
      ∧ ra_id ra = "auto-" +:+ te_id entry
      ∧ ra_timetableEntryId ra = te_id entry
      ∧ ra_roomId ra = rs_roomId best
      ∧ ra_isAutoAssigned ra = true
      ∧ ra_assignedBy ra = "system"
      ∧ ra_conflictStatus ra
        = match rs_warnings best with [] => cs_none | _ :: _ => cs_warning end.

(** ** The scoring rules as worded in the specification *)

(** Room-type points: [(4 - priority) * 30], plus 20 when the row is marked
    required, for the subject's preference row of the room's type (the one
    of least priority number, should the table hold several); -20 when the
    subject has rows but none of the room's type; 0 when it has none. *)
Definition typePoints (rows : list SubjectRoomType) (subjectId : string)
    (room : Classroom) (pts : Z) : Prop :=
  let ofSubject (p : SubjectRoomType) := In p rows ∧ srt_subjectId p = subjectId in
  (∃ p, ofSubject p ∧ srt_roomTypeId p = cr_roomTypeId room
        ∧ (∀ q, ofSubject q → srt_roomTypeId q = cr_roomTypeId room →
                (srt_priority p ≤ srt_priority q)%Z)
        ∧ pts = ((4 - srt_priority p) * 30 + (if srt_isRequired p then 20 else 0))%Z)
  ∨ ((∃ p, ofSubject p)
     ∧ (∀ q, ofSubject q → srt_roomTypeId q ≠ cr_roomTypeId room)
     ∧ pts = (-20)%Z)
  ∨ ((∀ q, ¬ ofSubject q) ∧ pts = 0%Z).

(** Capacity points; [studentCount / capacity > 0.8] is
    [4 * capacity < 5 * studentCount] and [> 0.5] is
    [capacity < 2 * studentCount]. *)
Definition capacityPoints (capacity studentCount : N) : Z :=
  if decide (capacity < studentCount)%N then -50
  else if decide (4 * capacity < 5 * studentCount)%N then 15
  else if decide (capacity < 2 * studentCount)%N then 10
  else 5.

Definition featurePoints (features : list string) : Z :=
  if decide ("Projector" ∈ features ∧ "Whiteboard" ∈ features) then 10 else 0.

(** The score change made by one rule. *)
Definition contribution (rule : RoomEngine.Scoring → RoomEngine.Scoring)
    (s : RoomEngine.Scoring) : Z :=
  (RoomEngine.score (rule s) - RoomEngine.score s)%Z.

(** ** Manual room assignment *)

(** Some assignment holds [roomId] at the slot of [entry]; the assignment
    counts when its entry is found in the timetable. *)
Definition occupies (roomAssignments : list RoomAssignment)
    (timetableEntries : list TimetableEntry)
    (entry : TimetableEntry) (roomId : string) : Prop :=
  ∃ ra holder,
    In ra roomAssignments
    ∧ RoomEngine.findEntry timetableEntries (ra_timetableEntryId ra) = Some holder
    ∧ ra_roomId ra = roomId
    ∧ te_day holder = te_day entry ∧ te_period holder = te_period entry.

(** The same, for an assignment of an entry other than [entry]. *)
Definition otherOccupies (roomAssignments : list RoomAssignment)
    (timetableEntries : list TimetableEntry)
    (entry : TimetableEntry) (roomId : string) : Prop :=
  ∃ ra holder,
    In ra roomAssignments
    ∧ RoomEngine.findEntry timetableEntries (ra_timetableEntryId ra) = Some holder
    ∧ te_id holder ≠ te_id entry
    ∧ ra_roomId ra = roomId
    ∧ te_day holder = te_day entry ∧ te_period holder = te_period entry.

(** The assignments of one entry. *)
Definition assignmentsOf (entryId : string) (roomAssignments : list RoomAssignment)
  : list RoomAssignment :=
  List.filter (λ ra, String.eqb (ra_timetableEntryId ra) entryId) roomAssignments.

(** ** Constraint validation *)

(** Entry [e] belongs to the teacher and sits in the slot. *)
Definition atSlot (teacherId day : string) (period : N) (e : TimetableEntry) : bool :=
  String.eqb (te_teacherId e) teacherId && String.eqb (te_day e) day
  && (te_period e =? period)%N.

(** The entries that repeat a (teacher, day, period) already met, either in
    [seen] or earlier in the list. *)
Fixpoint repeats (seen entries : list TimetableEntry) : list TimetableEntry :=
  match entries with
  | [] => []
  | e :: rest =>
      (if existsb (atSlot (te_teacherId e) (te_day e) (te_period e)) seen
       then [e] else [])
      ++ repeats (seen ++ [e]) rest
  end.

(** The [teacherSlots] map holds, for each teacher, the slot keys of the
    entries met so far. *)
Definition slotsRecord (m : gmap string (gset string))
    (seen : list TimetableEntry) : Prop :=
  ∀ t k, k ∈ default ∅ (m !! t)
         ↔ ∃ e, In e seen ∧ te_teacherId e = t
                ∧ Grid.slotKey (te_day e) (te_period e) = k.

Definition isDoubleBooking (c : Conflict) : bool :=
  match c_type c with teacher_double_booking => true | _ => false end.

Definition isOverload (c : Conflict) : bool :=
  match c_type c with teacher_overload => true | _ => false end.

(** The entries of one teacher, and the hours they amount to. *)
Definition entriesOf (teacherId : string) (entries : list TimetableEntry)
  : list TimetableEntry :=
  List.filter (λ e, String.eqb (te_teacherId e) teacherId) entries.

(** A teacher's scheduled hours: the number of the teacher's entries times
    the period length, [periodDuration] minutes, in hours. *)
Definition scheduledHoursOf (periodDuration : N) (teacherId : string)
    (entries : list TimetableEntry) : Q :=
  (inject_Z (Z.of_nat (length (entriesOf teacherId entries)))
   * (Z.of_N periodDuration # 60))%Q.

(** The [teacherHours] map has one key per teacher met so far, holding
    that teacher's hours. *)
Definition hoursRecord (periodDuration : N) (m : JsMap.t Q)
    (seen : list TimetableEntry) : Prop :=
  NoDup m.*1
  ∧ (∀ t, t ∈ m.*1 ↔ entriesOf t seen ≠ [])
  ∧ Forall (λ kv, (kv.2 == scheduledHoursOf periodDuration kv.1 seen)%Q) m.

(** The test made on one key of [teacherHours]. *)
Definition exceedsLimit (reg : Grid.Registry) (kv : string * Q) : bool :=
  match Grid.findTeacher reg kv.1 with
  | Some teacher => Qgtb kv.2 (inject_Z (Z.of_N (t_weeklyHourLimit teacher)))
  | None => false
  end.

(** ** Valid slots and slot clicks *)

(** The cells of the day by period grid, day by day, in which the entity
    has no entry. *)
Definition freeSlots (timetableEntries : list TimetableEntry)
    (viewMode : ViewMode) (selectedEntity : string) : list (string * N) :=
  List.filter
    (λ slot, negb (Grid.isOccupied timetableEntries viewMode selectedEntity slot.1 slot.2))
    (list_prod Grid.DAYS Grid.PERIODS).

(** Entry [e] is an entry of the entity in the mode's sense. *)
Definition entryOf (viewMode : ViewMode) (selectedEntity : string)
    (e : TimetableEntry) : Prop :=
  match viewMode with
  | class_mode => te_classId e = selectedEntity
  | teacher_mode => te_teacherId e = selectedEntity
  end.

(** Row [a] actively binds a teacher to the class and subject. *)
Definition activeBinding (classId subjectId : string) (a : ClassSubjectTeacher) : Prop :=
  cst_classId a = classId ∧ cst_subjectId a = subjectId ∧ cst_isActive a = true.

Definition noActiveBinding (assignments : list ClassSubjectTeacher)
    (classId subjectId : string) : Prop :=
  ∀ a, In a assignments → ¬ activeBinding classId subjectId a.

(** The subject has a progress record that shows 100 percent or more. *)
Definition fullyScheduled (subjectProgress : gmap string Progress)
    (subjectId : string) : Prop :=
  ∃ progress, subjectProgress !! subjectId = Some progress
              ∧ (100 ≤ p_percentage progress)%Z.

(** ** Teaching assignments *)

(** The active rows of a (class, subject) pair. *)
Definition activeRows (classId subjectId : string)
    (assignments : list ClassSubjectTeacher) : list ClassSubjectTeacher :=
  List.filter
    (λ a, String.eqb (cst_classId a) classId && String.eqb (cst_subjectId a) subjectId
          && cst_isActive a)
    assignments.

Definition atMostOneActive (assignments : list ClassSubjectTeacher) : Prop :=
  ∀ classId subjectId, length (activeRows classId subjectId assignments) ≤ 1.

(** ** The sentences of the specification that the code does not satisfy

    Each definition below is the reading of one sentence, to be compared
    with the code at a sample input. *)


(** The valid slots are empty when the percentage is at least 100 and are
    the free cells of the grid otherwise. *)
Definition validSlotsAsWorded (subjectProgress : gmap string Progress)
    (timetableEntries : list TimetableEntry)
    (viewMode : ViewMode) (selectedEntity selectedSubject : string) : Prop :=
  let valid :=
    Grid.validSlots subjectProgress timetableEntries viewMode selectedEntity
      (Some selectedSubject) in
  (fullyScheduled subjectProgress selectedSubject → valid = [])
  ∧ (¬ fullyScheduled subjectProgress selectedSubject →
     valid = freeSlots timetableEntries viewMode selectedEntity).

(** A teacher can be resolved: in class mode an active row exists for the
    class and subject, in teacher mode the teacher is the entity. *)
Definition teacherResolvable (assignments : list ClassSubjectTeacher)
    (viewMode : ViewMode) (selectedEntity selectedSubject : string) : Prop :=
  match viewMode with
  | class_mode => ∃ a, In a assignments ∧ activeBinding selectedEntity selectedSubject a
  | teacher_mode => True
  end.

(** The entry that a successful click adds carries a resolved class: its
    class id names a class of the registry. *)
Definition classCarriedAsWorded (reg : Grid.Registry) (e : TimetableEntry) : Prop :=
  ∃ c, In c (Grid.classSections reg) ∧ cs_id c = te_classId e.

(** The manual assignment is refused exactly when another entry's
    assignment holds the room in the slot. *)
Definition roomOccupiedAsWorded (result : RoomEngine.ManualResult)
    (roomAssignments : list RoomAssignment) (timetableEntries : list TimetableEntry)
    (entry : TimetableEntry) (roomId : string) : Prop :=
  result = RoomEngine.ManualRoomOccupied
  ↔ otherOccupies roomAssignments timetableEntries entry roomId.

(** After a reassignment the previous row is retained, inactive, and a new
    active row records the new teacher. *)
Definition reassignedAsWorded (after : list ClassSubjectTeacher)
    (classId subjectId oldTeacher newTeacher : string) : Prop :=
  (∃ old, In old after ∧ cst_classId old = classId ∧ cst_subjectId old = subjectId
          ∧ cst_teacherId old = oldTeacher ∧ cst_isActive old = false)
  ∧ (∃ new, In new after ∧ cst_classId new = classId ∧ cst_subjectId new = subjectId
            ∧ cst_teacherId new = newTeacher ∧ cst_isActive new = true).

(** ** Sample data *)

Module Examples.

Definition mkClassroom (id name roomTypeId : string) (capacity : N)
    (features : list string) (isActive : bool) : Classroom :=
  {| cr_id := id; cr_name := name; cr_code := id; cr_roomTypeId := roomTypeId;
     cr_capacity := capacity; cr_floor := "1"; cr_building := "Main";
     cr_features := features; cr_equipment := []; cr_isActive := isActive;
     cr_notes := ""; cr_createdAt := ""; cr_updatedAt := "" |}.

Definition mkEntry (id classId teacherId subjectId day : string) (period : N)
  : TimetableEntry :=
  {| te_id := id; te_classId := classId; te_teacherId := teacherId;
     te_subjectId := subjectId; te_roomId := None; te_timeSlotId := "";
     te_day := day; te_period := period |}.


Definition mathematics : Subject :=
  {| sub_id := "1"; sub_name := "Mathematics"; sub_code := "MATH";
     sub_color := "#3b82f6" |}.

Definition grade9A : ClassSection :=
  {| cs_id := "1"; cs_name := "Grade 9A"; cs_gradeId := "9"; cs_studentCount := 30 |}.

Definition room101 : Classroom :=
  mkClassroom "R1" "Room 101" "classroom" 35 ["Projector"; "Whiteboard"] true.
Definition room102 : Classroom :=
  mkClassroom "R2" "Room 102" "classroom" 32 ["Projector"] true.
Definition room103 : Classroom :=
  mkClassroom "R3" "Room 103" "classroom" 40 [] true.

(** Three active rooms, one class of 30, no room-type preferences. *)
Definition threeRooms : RoomEngine.Catalog :=
  {| RoomEngine.subjects := [mathematics];
     RoomEngine.classSections := [grade9A];
     RoomEngine.classrooms := [room101; room102; room103];
     RoomEngine.subjectRoomTypes := [] |}.

(** Five lessons of class 9A, all on Monday in period 1. *)
Definition fiveAtOnce : list TimetableEntry :=
  [ mkEntry "e1" "1" "1" "1" "Monday" 1; mkEntry "e2" "1" "2" "1" "Monday" 1;
    mkEntry "e3" "1" "3" "1" "Monday" 1; mkEntry "e4" "1" "4" "1" "Monday" 1;
    mkEntry "e5" "1" "5" "1" "Monday" 1 ].

Definition mondayFirst : TimetableEntry := mkEntry "e1" "1" "1" "1" "Monday" 1.

(** [mondayFirst] already sits in room R1. *)
Definition inRoom101 : RoomAssignment :=
  {| ra_id := "manual-e1"; ra_timetableEntryId := "e1"; ra_roomId := "R1";
     ra_isAutoAssigned := false; ra_assignedAt := "2024-01-01T00:00:00.000Z";
     ra_assignedBy := "user"; ra_conflictStatus := cs_none |}.

Definition mkTeacher (id name : string) (subjects : list string) (limit : N)
  : Teacher :=
  {| t_id := id; t_name := name; t_email := ""; t_subjects := subjects;
     t_weeklyHourLimit := limit; t_currentWeeklyHours := 0 |}.

(** Part of lib/timetable-data.ts. *)
Definition school : Grid.Registry :=
  {| Grid.classSections :=
       [ grade9A;
         {| cs_id := "2"; cs_name := "Grade 9B"; cs_gradeId := "9";
            cs_studentCount := 28 |} ];
     Grid.teachers :=
       [ mkTeacher "1" "Dr. Sarah Johnson" ["1"; "3"] 25;
         mkTeacher "2" "Mr. David Chen" ["2"] 30;
         mkTeacher "4" "Prof. Michael Brown" ["8"] 20 ];
     Grid.subjects :=
       [ mathematics;
         {| sub_id := "2"; sub_name := "English"; sub_code := "ENG";
            sub_color := "#10b981" |};
         {| sub_id := "8"; sub_name := "Computer Science"; sub_code := "CS";
            sub_color := "#84cc16" |} ];
     Grid.rooms := [] |}.

(** Two lessons of teacher 1 on Monday in period 3. *)
Definition doubleBooked : list TimetableEntry :=
  [ mkEntry "a" "1" "1" "1" "Monday" 3; mkEntry "b" "2" "1" "1" "Monday" 3 ].

(** Thirty lessons of teacher 4 (limit 20 hours), ids "0" to "29". *)
Definition thirtyLessons : list TimetableEntry :=
  map (λ i : nat, mkEntry (pretty i) "2" "4" "8"
                    (nth (i `div` 6) Grid.DAYS "Friday")
                    (N.of_nat (i `mod` 6) + 1))
    (seq 0 30).

(** Grade 9 is allotted one weekly hour of mathematics and nothing else. *)
Definition oneHourOfMaths : list GradeSubjectAllocation :=
  [ {| gsa_id := "1"; gsa_gradeId := "9"; gsa_subjectId := "1";
       gsa_weeklyHours := 1; gsa_semesterWeeks := 18; gsa_totalHours := 18 |} ].

(** Two mathematics lessons of class 1: 1.5 hours against 1 required. *)
Definition twoMathsLessons : list TimetableEntry :=
  [ mkEntry "m1" "1" "1" "1" "Monday" 1; mkEntry "m2" "1" "1" "1" "Monday" 2 ].

Definition mondayThird : list TimeSlot :=
  [ {| ts_id := "3"; ts_day := "Monday"; ts_period := 3;
       ts_startTime := "09:40"; ts_endTime := "10:25" |} ].

Definition clock0 : nat → string := λ _, "2024-01-01T00:00:00.000Z".

End Examples.


(* ================================================================== *)
(** * Further functions of the timetable grid and the modal *)
(* ================================================================== *)

(** The test of the Publish button:
    [conflicts.some((c) => c.severity === "error")]. *)
Definition publishDisabled (conflicts : list Conflict) : bool :=
  existsb (λ c, match c_severity c with sev_error => true | sev_warning => false end)
    conflicts.

(** [getEntryForSlot], of the grid and of the modal. *)
Definition getEntryForSlot (timetableEntries : list TimetableEntry)
    (viewMode : ViewMode) (selectedEntity : string) (day : string) (period : N)
  : option TimetableEntry :=
  List.find
    (λ entry,
       match viewMode with
       | class_mode =>
           String.eqb (te_classId entry) selectedEntity
           && String.eqb (te_day entry) day && (te_period entry =? period)%N
       | teacher_mode =>
           String.eqb (te_teacherId entry) selectedEntity
           && String.eqb (te_day entry) day && (te_period entry =? period)%N
       end)
    timetableEntries.

(** [isSlotValid], of the grid and of the modal. *)
Definition isSlotValid (validSlots : list (string * N)) (day : string) (period : N)
  : bool :=
  existsb (λ slot, String.eqb slot.1 day && (slot.2 =? period)%N) validSlots.

(** [handleRemoveEntryFromModal] and [removeEntry]: the entries and the
    conflicts they set. *)
Definition handleRemoveEntry (reg : Grid.Registry) (periodDuration : N)
    (timetableEntries : list TimetableEntry) (entryId : string)
  : list TimetableEntry * list Conflict :=
  let updatedEntries := Grid.removeEntry timetableEntries entryId in
  (updatedEntries, Grid.validateConstraints reg periodDuration updatedEntries).

(** [s.padStart(2, "0")]. *)
Definition padStart2 (s : string) : string :=
  match String.length s with
  | 0 => "00"
  | 1 => "0" +:+ s
  | _ => s
  end.

(** [formatTime], of the grid and of the modal; [hours] is read as an exact
    rational, which it is for the multiples of a quarter of an hour that the
    progress panel passes. *)
Definition formatTime (hours : Q) : string :=
  let wholeHours := Qfloor hours in
  let minutes := Math_round ((hours - inject_Z wholeHours) * 60)%Q in
  if (minutes =? 0)%Z then pretty wholeHours +:+ ":00"
  else pretty wholeHours +:+ ":" +:+ padStart2 (pretty minutes).

(** One character of the class [[a-f\d]] under the flag [i], with its value
    in base 16. *)
Definition hexDigit (c : ascii) : option N :=
  let n := N_of_ascii c in
  if (48 <=? n)%N && (n <=? 57)%N then Some (n - 48)%N
  else if (97 <=? n)%N && (n <=? 102)%N then Some (n - 87)%N
  else if (65 <=? n)%N && (n <=? 70)%N then Some (n - 55)%N
  else None.

(** [Number.parseInt(pair, 16)] on a group of two characters of that class. *)
Definition parseHexPair (a b : ascii) : option N :=
  match hexDigit a, hexDigit b with
  | Some h, Some l => Some (16 * h + l)%N
  | _, _ => None
  end.

(** [hexToRgb]: the pattern is an optional [#] followed by exactly three
    groups of two hexadecimal characters. *)
Definition hexToRgb (hex : string) : option (N * N * N) :=
  let body := match hex with
              | String "#" rest => rest
              | _ => hex
              end in
  match body with
  | String a (String b (String c (String d (String e (String f EmptyString))))) =>
      match parseHexPair a b, parseHexPair c d, parseHexPair e f with
      | Some r, Some g, Some bl => Some (r, g, bl)
      | _, _, _ => None
      end
  | _ => None
  end.

(** ** Notions used to state the properties of the grid *)

(** The room of an entry, as the test [if (entry.roomId)] sees it. *)
Definition roomOf (e : TimetableEntry) : option string :=
  match te_roomId e with
  | Some r => if String.eqb r "" then None else Some r
  | None => None
  end.

(** Entry [e] sits in the room at the slot. *)
Definition atRoomSlot (roomId day : string) (period : N) (e : TimetableEntry) : bool :=
  match roomOf e with
  | Some r => String.eqb r roomId && String.eqb (te_day e) day && (te_period e =? period)%N
  | None => false
  end.

(** The entries that repeat a (room, day, period) already met. *)
Fixpoint roomRepeats (seen entries : list TimetableEntry) : list TimetableEntry :=
  match entries with
  | [] => []
  | e :: rest =>
      match roomOf e with
      | Some r =>
          if existsb (atRoomSlot r (te_day e) (te_period e)) seen then [e] else []
      | None => []
      end
      ++ roomRepeats (seen ++ [e]) rest
  end.

(** The conflict pushed by the room check for [entry]. *)
Definition roomClashConflict (reg : Grid.Registry) (entry : TimetableEntry) : Conflict :=
  {| c_type := room_clash;
     c_message := "Room " +:+ Grid.roomName reg (default "" (te_roomId entry))
                  +:+ " is double-booked on " +:+ te_day entry
                  +:+ " period " +:+ pretty (te_period entry);
     c_severity := sev_error;
     c_affectedEntries := [te_id entry] |}.

Definition isRoomClash (c : Conflict) : bool :=
  match c_type c with room_clash => true | _ => false end.

(** The [roomSlots] map holds, for each room, the slot keys of the entries
    with a room met so far. *)
Definition roomSlotsRecord (m : gmap string (gset string))
    (seen : list TimetableEntry) : Prop :=
  ∀ r k, k ∈ default ∅ (m !! r)
         ↔ ∃ e, In e seen ∧ roomOf e = Some r
                ∧ Grid.slotKey (te_day e) (te_period e) = k.

(** Two digits in base 16, for a number below 256. *)
Definition hexChar (n : N) : ascii :=
  ascii_of_N (if (n <? 10)%N then n + 48 else n + 87).

Definition hexPair (n : N) : string :=
  String (hexChar (n `div` 16)) (String (hexChar (n `mod` 16)) EmptyString).


(* ================================================================== *)
(** * Further functions of the room assignment engine *)
(* ================================================================== *)

Inductive ResolutionType := move_to_room | swap_rooms | change_time | split_class.

Inductive Impact := impact_low | impact_medium | impact_high.

Record RoomConflictResolution := {
  rcr_type : ResolutionType; rcr_description : string;
  rcr_roomId : option string; rcr_alternativeTimeSlot : option string;
  rcr_impact : Impact }.

Record RoomConflict := {
  rc_id : string; rc_roomId : string; rc_timeSlotId : string;
  rc_conflictingEntries : list string; rc_severity : Severity;
  rc_message : string; rc_suggestedResolutions : list RoomConflictResolution }.

(** [s.split(c)] for a one-character separator. *)
Fixpoint split_on (c : ascii) (s : string) : list string :=
  match s with
  | EmptyString => [EmptyString]
  | String x rest =>
      if Ascii.eqb x c then EmptyString :: split_on c rest
      else match split_on c rest with
           | piece :: pieces => String x piece :: pieces
           | [] => [String x EmptyString]
           end
  end.

(** [`${assignment.roomId}-${entry.day}-${entry.period}`]. *)
Definition conflictKey (roomId day : string) (period : N) : string :=
  roomId +:+ "-" +:+ day +:+ "-" +:+ pretty period.

(** One iteration of [assignments.forEach] in [detectConflicts]: the state
    is the [conflictMap]; [push] on the array held by the map is a [set] of
    the longer array at the same key. *)
Definition conflictMapStep (timetableEntries : list TimetableEntry)
    (conflictMap : JsMap.t (list string)) (assignment : RoomAssignment)
  : JsMap.t (list string) :=
  match RoomEngine.findEntry timetableEntries (ra_timetableEntryId assignment) with
  | None => conflictMap
  | Some entry =>
      let key := conflictKey (ra_roomId assignment) (te_day entry) (te_period entry) in
      let conflictMap :=
        match JsMap.get conflictMap key with
        | Some _ => conflictMap
        | None => JsMap.set conflictMap key []
        end in
      JsMap.set conflictMap key
        (default [] (JsMap.get conflictMap key) ++ [ra_timetableEntryId assignment])
  end.

Definition standardResolutions : list RoomConflictResolution :=
  [ {| rcr_type := move_to_room;
       rcr_description := "Move one class to an alternative room";
       rcr_roomId := None; rcr_alternativeTimeSlot := None;
       rcr_impact := impact_low |};
    {| rcr_type := change_time;
       rcr_description := "Reschedule one of the classes";
       rcr_roomId := None; rcr_alternativeTimeSlot := None;
       rcr_impact := impact_medium |} ].

(** The body of [conflictMap.forEach((entryIds, key) => ...)].  The key
    always holds two separators, so the three pieces read off the split
    exist. *)
Definition roomConflictFor (cat : RoomEngine.Catalog) (kv : string * list string)
  : list RoomConflict :=
  if (1 <? length kv.2)%nat then
    let pieces := split_on "-" kv.1 in
    let roomId := nth 0 pieces "undefined" in
    let day := nth 1 pieces "undefined" in
    let period := nth 2 pieces "undefined" in
    let room := List.find (λ r, String.eqb (cr_id r) roomId) (RoomEngine.classrooms cat) in
    [ {| rc_id := "conflict-" +:+ kv.1;
         rc_roomId := roomId;
         rc_timeSlotId := day +:+ "-" +:+ period;
         rc_conflictingEntries := kv.2;
         rc_severity := sev_error;
         rc_message :=
           match room with
           | Some r => if String.eqb (cr_name r) "" then "Room" else cr_name r
           | None => "Room"
           end +:+ " is double-booked on " +:+ day +:+ " period " +:+ period;
         rc_suggestedResolutions := standardResolutions |} ]
  else [].

(** [detectConflicts]: the value passed to [setConflicts]. *)
Definition detectConflicts (cat : RoomEngine.Catalog)
    (timetableEntries : list TimetableEntry) (assignments : list RoomAssignment)
  : list RoomConflict :=
  flat_map (roomConflictFor cat)
    (fold_left (conflictMapStep timetableEntries) assignments []).

(** ** Notions used to state the properties of the room engine *)

(** The key under which [detectConflicts] files an assignment, if its entry
    is found. *)
Definition keyOf (timetableEntries : list TimetableEntry) (ra : RoomAssignment)
  : option string :=
  match RoomEngine.findEntry timetableEntries (ra_timetableEntryId ra) with
  | Some entry => Some (conflictKey (ra_roomId ra) (te_day entry) (te_period entry))
  | None => None
  end.

(** The entry ids of the assignments filed under a key. *)
Definition idsWithKey (timetableEntries : list TimetableEntry) (key : string)
    (assignments : list RoomAssignment) : list string :=
  map ra_timetableEntryId
    (List.filter (λ ra, bool_decide (keyOf timetableEntries ra = Some key)) assignments).

(** The entry ids of the assignments that hold a room in a slot. *)
Definition holders (timetableEntries : list TimetableEntry)
    (roomId day : string) (period : N) (assignments : list RoomAssignment)
  : list string :=
  map ra_timetableEntryId
    (List.filter
       (λ ra, String.eqb (ra_roomId ra) roomId
              && RoomEngine.assignedAt timetableEntries day period ra)
       assignments).

(** The [conflictMap] has one key per key met so far, holding the entry ids
    filed under it, in order. *)
Definition groupsRecord (timetableEntries : list TimetableEntry)
    (m : JsMap.t (list string)) (seen : list RoomAssignment) : Prop :=
  NoDup m.*1
  ∧ (∀ k, k ∈ m.*1 ↔ idsWithKey timetableEntries k seen ≠ [])
  ∧ Forall (λ kv, kv.2 = idsWithKey timetableEntries kv.1 seen) m.

(** [autoAssignRooms] pushes an assignment for this entry. *)
Definition wouldAssign (cat : RoomEngine.Catalog)
    (roomAssignments : list RoomAssignment)
    (timetableEntries : list TimetableEntry) (entry : TimetableEntry) : bool :=
  negb (existsb (λ ra, String.eqb (ra_timetableEntryId ra) (te_id entry)) roomAssignments)
  && match RoomEngine.generateRoomSuggestions cat roomAssignments timetableEntries entry with
     | bestSuggestion :: _ => (0 <? rs_suitabilityScore bestSuggestion)%Z
     | [] => false
     end.

(* ================================================================== *)
(** * Teacher assignment manager: workloads and validation

    The component reads [classSections], [teachers] and [subjects] from
    lib/timetable-data.ts, the registry of the timetable grid; weekly hours
    and hour limits are whole numbers, as in that data. *)
(* ================================================================== *)

Inductive AssignmentConflictType :=
  teacher_subject_mismatch | teacher_overcommitted | class_subject_duplicate
| teacher_unavailable.

Inductive AssignmentSeverity := as_error | as_warning | as_info.

Record TeacherAssignmentConflict := {
  tac_type : AssignmentConflictType; tac_message : string;
  tac_severity : AssignmentSeverity; tac_affectedAssignments : list string;
  tac_suggestions : list string }.

(** The value of [Math.round((totalWeeklyHours / weeklyHourLimit) * 100)]:
    a division by a limit of zero gives [Infinity], or [NaN] for [0 / 0]. *)
Inductive JsNumber := js_finite (z : Z) | js_infinity | js_nan.

Record SubjectLoad := { sl_count : N; sl_hours : N }.

Record SubjectWorkload := {
  sw_subjectId : string; sw_subjectName : string; sw_classCount : N;
  sw_estimatedWeeklyHours : N }.

Record TeacherWorkload := {
  tw_teacherId : string; tw_teacherName : string; tw_totalClasses : nat;
  tw_totalWeeklyHours : N; tw_weeklyHourLimit : N;
  tw_utilizationPercentage : JsNumber; tw_subjects : list SubjectWorkload }.

Module Manager.

Definition findSubject (reg : Grid.Registry) (id : string) : option Subject :=
  List.find (λ s, String.eqb (sub_id s) id) (Grid.subjects reg).

(** The quotient is taken exactly; the double the code computes rounds to
    the same integer unless the exact percentage lies within rounding error
    of a half. *)
Definition utilization (totalWeeklyHours weeklyHourLimit : N) : JsNumber :=
  if (weeklyHourLimit =? 0)%N then
    if (totalWeeklyHours =? 0)%N then js_nan else js_infinity
  else
    js_finite
      (Math_round (inject_Z (Z.of_N totalWeeklyHours)
                   / inject_Z (Z.of_N weeklyHourLimit) * 100)%Q).

(** One iteration of [teacherAssignments.forEach]: the state is the
    [subjectWorkloads] map and [totalWeeklyHours]. *)
Definition workloadStep (reg : Grid.Registry)
    (allocations : list GradeSubjectAllocation)
    (st : JsMap.t SubjectLoad * N) (assignment : ClassSubjectTeacher)
  : JsMap.t SubjectLoad * N :=
  match Grid.findClass reg (cst_classId assignment) with
  | Some classSection =>
      match Grid.findAllocation allocations (cs_gradeId classSection)
              (cst_subjectId assignment) with
      | Some allocation =>
          let current :=
            default {| sl_count := 0; sl_hours := 0 |}
              (JsMap.get st.1 (cst_subjectId assignment)) in
          (JsMap.set st.1 (cst_subjectId assignment)
             {| sl_count := sl_count current + 1;
                sl_hours := sl_hours current + gsa_weeklyHours allocation |},
           (st.2 + gsa_weeklyHours allocation)%N)
      | None => st
      end
  | None => st
  end.

Definition teacherAssignmentsOf (assignments : list ClassSubjectTeacher)
    (teacher : Teacher) : list ClassSubjectTeacher :=
  List.filter (λ a, String.eqb (cst_teacherId a) (t_id teacher) && cst_isActive a)
    assignments.

Definition teacherWorkload (reg : Grid.Registry)
    (allocations : list GradeSubjectAllocation)
    (assignments : list ClassSubjectTeacher) (teacher : Teacher) : TeacherWorkload :=
  let teacherAssignments := teacherAssignmentsOf assignments teacher in
  let st := fold_left (workloadStep reg allocations) teacherAssignments ([], 0%N) in
  let subjectWorkloads := st.1 in
  let totalWeeklyHours := st.2 in
  {| tw_teacherId := t_id teacher;
     tw_teacherName := t_name teacher;
     tw_totalClasses := length teacherAssignments;
     tw_totalWeeklyHours := totalWeeklyHours;
     tw_weeklyHourLimit := t_weeklyHourLimit teacher;
     tw_utilizationPercentage := utilization totalWeeklyHours (t_weeklyHourLimit teacher);
     tw_subjects :=
       map (λ kv : string * SubjectLoad,
              {| sw_subjectId := kv.1;
                 sw_subjectName :=
                   match findSubject reg kv.1 with
                   | Some s => if String.eqb (sub_name s) "" then "Unknown" else sub_name s
                   | None => "Unknown"
                   end;
                 sw_classCount := sl_count kv.2;
                 sw_estimatedWeeklyHours := sl_hours kv.2 |})
         subjectWorkloads |}.

(** The [teacherWorkloads] memo. *)
Definition teacherWorkloads (reg : Grid.Registry)
    (allocations : list GradeSubjectAllocation)
    (assignments : list ClassSubjectTeacher) : list TeacherWorkload :=
  map (teacherWorkload reg allocations assignments) (Grid.teachers reg).

(** [`${subject?.name}`]. *)
Definition subjectNameOf (reg : Grid.Registry) (subjectId : string) : string :=
  match findSubject reg subjectId with
  | Some s => sub_name s
  | None => "undefined"
  end.

Definition mismatchFor (reg : Grid.Registry) (assignment : ClassSubjectTeacher)
  : list TeacherAssignmentConflict :=
  match Grid.findTeacher reg (cst_teacherId assignment) with
  | Some teacher =>
      if negb (includes (t_subjects teacher) (cst_subjectId assignment)) then
        let subject := subjectNameOf reg (cst_subjectId assignment) in
        [ {| tac_type := teacher_subject_mismatch;
             tac_message := t_name teacher +:+ " is not qualified to teach " +:+ subject;
             tac_severity := as_error;
             tac_affectedAssignments := [cst_id assignment];
             tac_suggestions :=
               [ "Assign a qualified teacher for " +:+ subject;
                 "Add " +:+ subject +:+ " to " +:+ t_name teacher
                 +:+ "'s qualifications" ] |} ]
      else []
  | None => []
  end.

Definition over100 (x : JsNumber) : bool :=
  match x with
  | js_finite z => (100 <? z)%Z
  | js_infinity => true
  | js_nan => false
  end.

Definition showJsNumber (x : JsNumber) : string :=
  match x with
  | js_finite z => pretty z
  | js_infinity => "Infinity"
  | js_nan => "NaN"
  end.

Definition overcommittedFor (currentAssignments : list ClassSubjectTeacher)
    (workload : TeacherWorkload) : list TeacherAssignmentConflict :=
  if over100 (tw_utilizationPercentage workload) then
    [ {| tac_type := teacher_overcommitted;
         tac_message :=
           tw_teacherName workload +:+ " is overcommitted: "
           +:+ pretty (tw_totalWeeklyHours workload) +:+ "/"
           +:+ pretty (tw_weeklyHourLimit workload) +:+ " hours ("
           +:+ showJsNumber (tw_utilizationPercentage workload) +:+ "%)";
         tac_severity := as_warning;
         tac_affectedAssignments :=
           map cst_id
             (List.filter (λ a, String.eqb (cst_teacherId a) (tw_teacherId workload))
                currentAssignments);
         tac_suggestions :=
           [ "Redistribute some classes to other teachers";
             "Increase teacher's weekly hour limit";
             "Hire additional qualified teachers" ] |} ]
  else [].

(** [validateAssignments]: [teacherWorkloads] is the memo captured by the
    callback, computed from the [assignments] state of the render. *)
Definition validateAssignments (reg : Grid.Registry)
    (teacherWorkloads : list TeacherWorkload)
    (currentAssignments : list ClassSubjectTeacher)
  : list TeacherAssignmentConflict :=
  flat_map (mismatchFor reg) currentAssignments
  ++ flat_map (overcommittedFor currentAssignments) teacherWorkloads.

(** The value that [removeAssignment] passes to [setConflicts]: the updated
    rows validated against the workloads of the rows before the update. *)
Definition removeAssignmentConflicts (reg : Grid.Registry)
    (allocations : list GradeSubjectAllocation) (nowIso assignmentId : string)
    (assignments : list ClassSubjectTeacher) : list TeacherAssignmentConflict :=
  validateAssignments reg (teacherWorkloads reg allocations assignments)
    (TeacherAssignments.removeAssignment nowIso assignmentId assignments).

Definition getAvailableSubjects (reg : Grid.Registry)
    (allocations : list GradeSubjectAllocation)
    (assignments : list ClassSubjectTeacher) (selectedClass : string) : list Subject :=
  if String.eqb selectedClass "" then []
  else
    match Grid.findClass reg selectedClass with
    | None => []
    | Some classSection =>
        let gradeSubjects :=
          List.filter
            (λ subject,
               existsb (λ a, String.eqb (gsa_gradeId a) (cs_gradeId classSection)
                             && String.eqb (gsa_subjectId a) (sub_id subject))
                 allocations)
            (Grid.subjects reg) in
        let alreadyAssignedSubjects :=
          map cst_subjectId
            (List.filter (λ a, String.eqb (cst_classId a) selectedClass && cst_isActive a)
               assignments) in
        List.filter (λ subject, negb (includes alreadyAssignedSubjects (sub_id subject)))
          gradeSubjects
    end.

Definition getQualifiedTeachers (reg : Grid.Registry) (selectedSubject : string)
  : list Teacher :=
  if String.eqb selectedSubject "" then []
  else List.filter (λ teacher, includes (t_subjects teacher) selectedSubject)
         (Grid.teachers reg).

End Manager.

(** ** Notions used to state the properties of the manager *)

(** The weekly hours that a row contributes to its teacher's workload. *)
Definition hoursOfRow (reg : Grid.Registry) (allocations : list GradeSubjectAllocation)
    (a : ClassSubjectTeacher) : N :=
  match Grid.findClass reg (cst_classId a) with
  | Some classSection =>
      match Grid.findAllocation allocations (cs_gradeId classSection) (cst_subjectId a) with
      | Some allocation => gsa_weeklyHours allocation
      | None => 0
      end
  | None => 0
  end.

Definition sumN (l : list N) : N := fold_right N.add 0%N l.

(** The weekly hours of a teacher's active rows. *)
Definition plannedHours (reg : Grid.Registry) (allocations : list GradeSubjectAllocation)
    (assignments : list ClassSubjectTeacher) (teacher : Teacher) : N :=
  sumN (map (hoursOfRow reg allocations) (Manager.teacherAssignmentsOf assignments teacher)).

Definition isOvercommitted (c : TeacherAssignmentConflict) : bool :=
  match tac_type c with teacher_overcommitted => true | _ => false end.

Definition isMismatch (c : TeacherAssignmentConflict) : bool :=
  match tac_type c with teacher_subject_mismatch => true | _ => false end.

(** The rows that count towards a subject in a workload. *)
Definition countedRows (reg : Grid.Registry) (allocations : list GradeSubjectAllocation)
    (subjectId : string) (rows : list ClassSubjectTeacher) : list ClassSubjectTeacher :=
  List.filter
    (λ a, String.eqb (cst_subjectId a) subjectId
          && match Grid.findClass reg (cst_classId a) with
             | Some classSection =>
                 bool_decide
                   (is_Some (Grid.findAllocation allocations (cs_gradeId classSection)
                               (cst_subjectId a)))
             | None => false
             end)
    rows.

(** The [subjectWorkloads] map holds, per subject met, the number and the
    hours of the rows counted so far, and [totalWeeklyHours] their sum. *)
Definition loadsRecord (reg : Grid.Registry) (allocations : list GradeSubjectAllocation)
    (st : JsMap.t SubjectLoad * N) (seen : list ClassSubjectTeacher) : Prop :=
  NoDup st.1.*1
  ∧ (∀ k, k ∈ st.1.*1 ↔ countedRows reg allocations k seen ≠ [])
  ∧ Forall (λ kv, sl_count kv.2 = N.of_nat (length (countedRows reg allocations kv.1 seen))
                  ∧ sl_hours kv.2
                    = sumN (map (hoursOfRow reg allocations)
                              (countedRows reg allocations kv.1 seen))) st.1
  ∧ st.2 = sumN (map (hoursOfRow reg allocations) seen).

Module ManagerExamples.

(** Grade 9 is allotted 13 weekly hours of mathematics. *)
Definition heavyMaths : list GradeSubjectAllocation :=
  [ {| gsa_id := "1"; gsa_gradeId := "9"; gsa_subjectId := "1";
       gsa_weeklyHours := 13; gsa_semesterWeeks := 18; gsa_totalHours := 234 |} ].

End ManagerExamples.

(* ================================================================== *)
(** * The cells of the timetable grid *)
(* ================================================================== *)

(** The [onClick] of a cell of the grid:
    [isValid] is [selectedSubject && isSlotValid(day, period)], and the
    handler runs only for a valid cell. *)
Definition onCellClick (reg : Grid.Registry) (periodDuration : N)
    (subjectProgress : gmap string Progress)
    (assignments : list ClassSubjectTeacher) (timeSlots : list TimeSlot)
    (timetableEntries : list TimetableEntry) (now : N)
    (viewMode : ViewMode) (selectedEntity : string)
    (selectedSubject : option string) (day : string) (period : N)
  : SlotClickResult :=
  let isValid :=
    match Grid.selected selectedSubject with
    | Some _ =>
        isSlotValid
          (Grid.validSlots subjectProgress timetableEntries viewMode selectedEntity
             selectedSubject) day period
    | None => false
    end in
  if isValid then
    Grid.handleSlotClick reg periodDuration subjectProgress assignments timeSlots
      timetableEntries now viewMode selectedEntity selectedSubject day period
  else ClickIgnored.

(** The entries of the entity in a cell. *)
Definition inCell (viewMode : ViewMode) (selectedEntity day : string) (period : N)
    (entry : TimetableEntry) : bool :=
  match viewMode with
  | class_mode =>
      String.eqb (te_classId entry) selectedEntity
      && String.eqb (te_day entry) day && (te_period entry =? period)%N
  | teacher_mode =>
      String.eqb (te_teacherId entry) selectedEntity
      && String.eqb (te_day entry) day && (te_period entry =? period)%N
  end.

(* ================================================================== *)
(** * Lookups and occupancy, stated without the functions of the code *)
(* ================================================================== *)

(** [x] is the first element of [l] with property [P]: what
    [l.find(...)] returns for a test that decides [P]. *)
Definition firstSuch {A} (P : A → Prop) (l : list A) (x : A) : Prop :=
  ∃ before after, l = before ++ x :: after ∧ P x ∧ Forall (λ y, ¬ P y) before.

(** The teacher registered under an id. *)
Definition registeredTeacher (reg : Grid.Registry) (id : string) (teacher : Teacher)
  : Prop :=
  firstSuch (λ t, t_id t = id) (Grid.teachers reg) teacher.

(** The timetable entry of an id. *)
Definition entryWithId (timetableEntries : list TimetableEntry) (id : string)
    (e : TimetableEntry) : Prop :=
  firstSuch (λ e, te_id e = id) timetableEntries e.

(** Some assignment puts the timetable entry of its id, scheduled at the
    day and period, in the room. *)
Definition heldAt (roomAssignments : list RoomAssignment)
    (timetableEntries : list TimetableEntry) (day : string) (period : N)
    (roomId : string) : Prop :=
  ∃ ra holder,
    In ra roomAssignments ∧ ra_roomId ra = roomId
    ∧ entryWithId timetableEntries (ra_timetableEntryId ra) holder
    ∧ te_day holder = day ∧ te_period holder = period.

(** Every active room that no assignment holds at the entry's slot has a
    suggestion. *)
Definition scoredAsWorded (cat : RoomEngine.Catalog)
    (roomAssignments : list RoomAssignment)
    (timetableEntries : list TimetableEntry) (entry : TimetableEntry) : Prop :=
  ∀ room,
    In room (RoomEngine.classrooms cat) → cr_isActive room = true →
    ¬ heldAt roomAssignments timetableEntries (te_day entry) (te_period entry)
        (cr_id room) →
    ∃ s, In s (RoomEngine.generateRoomSuggestions cat roomAssignments timetableEntries
                 entry)
         ∧ rs_roomId s = cr_id room.

(** The teacher that a click resolves: in class mode the teacher of the
    first active row of the class and subject, and none (the empty id)
    when there is no such row; in teacher mode the entity. *)
Definition resolvesTo (assignments : list ClassSubjectTeacher)
    (viewMode : ViewMode) (selectedEntity selectedSubject teacherId : string) : Prop :=
  match viewMode with
  | class_mode =>
      (∃ a, firstSuch (activeBinding selectedEntity selectedSubject) assignments a
            ∧ teacherId = cst_teacherId a)
      ∨ (noActiveBinding assignments selectedEntity selectedSubject ∧ teacherId = "")
  | teacher_mode => teacherId = selectedEntity
  end.

(** Row [a'] is row [a] handed to [teacherId] at time [nowIso]. *)
Definition reassigned (teacherId nowIso : string) (a a' : ClassSubjectTeacher) : Prop :=
  cst_id a' = cst_id a ∧ cst_classId a' = cst_classId a
  ∧ cst_subjectId a' = cst_subjectId a ∧ cst_teacherId a' = teacherId
  ∧ cst_isActive a' = cst_isActive a ∧ cst_createdAt a' = cst_createdAt a
  ∧ cst_updatedAt a' = nowIso.

(** Row [a'] is row [a] deactivated at time [nowIso]. *)
Definition deactivated (nowIso : string) (a a' : ClassSubjectTeacher) : Prop :=
  cst_id a' = cst_id a ∧ cst_classId a' = cst_classId a
  ∧ cst_subjectId a' = cst_subjectId a ∧ cst_teacherId a' = cst_teacherId a
  ∧ cst_isActive a' = false ∧ cst_createdAt a' = cst_createdAt a
  ∧ cst_updatedAt a' = nowIso.

(* ================================================================== *)
(** * Properties of the JavaScript library layer *)
(* ================================================================== *)

Section sorting.
Context {A : Type} (key : A → Z) (cmp : A → A → Z).
Hypothesis cmp_key : ∀ a b, (cmp a b ≤ 0 ↔ key a ≤ key b)%Z.

Lemma insertBy_perm x l : insertBy cmp x l ≡ₚ x :: l.
Proof.
  induction l as [|y ys IH]; simpl; [done|].
  case_match; [done|]. rewrite IH. apply Permutation_swap.
Qed.

Lemma sortBy_perm l : sortBy cmp l ≡ₚ l.
Proof.
  induction l as [|x l IH]; simpl; [done|].
  rewrite insertBy_perm. by rewrite IH.
Qed.

Lemma insertBy_sorted x l :
  StronglySorted (λ a b, key a ≤ key b)%Z l →
  StronglySorted (λ a b, key a ≤ key b)%Z (insertBy cmp x l).
Proof.
  induction 1 as [|y ys Hs IH Hy]; simpl.
  - repeat constructor.
  - destruct (Z.leb_spec (cmp x y) 0) as [Hle|Hgt].
    + apply cmp_key in Hle. constructor; [by constructor|].
      constructor; [done|]. eapply Forall_impl; [exact Hy|].
      intros z Hz; simpl in *; lia.
    + constructor; [done|].
      rewrite insertBy_perm. constructor; [|done].
      assert (¬ (key x ≤ key y)%Z) by (rewrite <- cmp_key; lia). lia.
Qed.

Lemma sortBy_sorted l : StronglySorted (λ a b, key a ≤ key b)%Z (sortBy cmp l).
Proof.
  induction l as [|x l IH]; simpl; [constructor|]. by apply insertBy_sorted.
Qed.

(** Stability: elements with equal keys keep their relative order. *)
Lemma insertBy_stable v x l :
  List.filter (λ a, key a =? v)%Z (insertBy cmp x l)
  = List.filter (λ a, key a =? v)%Z (x :: l).
Proof.
  induction l as [|y ys IH]; simpl; [done|].
  destruct (Z.leb_spec (cmp x y) 0) as [Hle|Hgt]; [done|].
  assert (key x ≠ key y)%Z.
  { intros Heq. assert (key x ≤ key y)%Z as Hk by lia.
    apply cmp_key in Hk. lia. }
  simpl in *. rewrite IH.
  destruct (Z.eqb_spec (key x) v), (Z.eqb_spec (key y) v); congruence.
Qed.

Lemma sortBy_stable v l :
  List.filter (λ a, key a =? v)%Z (sortBy cmp l)
  = List.filter (λ a, key a =? v)%Z l.
Proof.
  induction l as [|x l IH]; simpl; [done|].
  rewrite insertBy_stable. simpl. by rewrite IH.
Qed.

Lemma sortBy_In x l : In x (sortBy cmp l) ↔ In x l.
Proof. rewrite <- !list_elem_of_In. by rewrite sortBy_perm. Qed.

(** The head of the sorted list carries the least key. *)
Lemma sortBy_head x l' l :
  sortBy cmp l = x :: l' → ∀ y, In y l → (key x ≤ key y)%Z.
Proof.
  intros Hs y Hy. apply sortBy_In in Hy. rewrite Hs in Hy.
  pose proof (sortBy_sorted l) as Hsorted. rewrite Hs in Hsorted.
  apply StronglySorted_inv in Hsorted as [_ Hall].
  destruct Hy as [->|Hy]; [lia|].
  rewrite Forall_forall in Hall. apply Hall. by apply list_elem_of_In.
Qed.
End sorting.

Lemma sortBy_nil_inv {A} (cmp : A → A → Z) l : sortBy cmp l = [] → l = [].
Proof.
  destruct l as [|x l]; [done|]. simpl. intros H.
  destruct (sortBy cmp l); simpl in H; [done|]. by case_match.
Qed.

Lemma sortBy_length {A} (cmp : A → A → Z) l : length (sortBy cmp l) = length l.
Proof.
  induction l as [|x l IH]; simpl; [done|]. rewrite <- IH.
  generalize (sortBy cmp l). intros s.
  induction s as [|y s IHs]; simpl; [done|]. case_match; simpl; [done|]. by rewrite IHs.
Qed.

(** ** Slot keys *)

Lemma dashFree_pretty_N_go x s : dashFree s = true → dashFree (pretty_N_go x s) = true.
Proof.
  revert s. induction (N.lt_wf_0 x) as [x _ IH]; intros s Hs.
  assert (x = 0 ∨ 0 < x)%N as [->|?] by lia.
  - by rewrite pretty_N_go_0.
  - rewrite pretty_N_go_step by done. apply IH.
    { by apply N.div_lt. }
    simpl. rewrite Hs. unfold pretty_N_char. by repeat case_match.
Qed.

Lemma dashFree_pretty (n : N) : dashFree (pretty n) = true.
Proof.
  unfold pretty, pretty_N. case_decide; [done|]. by apply dashFree_pretty_N_go.
Qed.

Lemma dashFree_app_dash s t : dashFree (s +:+ String "-" t) = false.
Proof.
  induction s as [|c s IH]; simpl; [done|]. rewrite IH. apply andb_false_r.
Qed.

Lemma dash_split_inj s1 s2 t1 t2 :
  dashFree t1 = true → dashFree t2 = true →
  s1 +:+ String "-" t1 = s2 +:+ String "-" t2 → s1 = s2 ∧ t1 = t2.
Proof.
  intros Ht1 Ht2. revert s2.
  induction s1 as [|c s1 IH]; intros [|d s2]; simpl; intros Heq.
  - by simplify_eq.
  - injection Heq as _ Heq. rewrite Heq, dashFree_app_dash in Ht1. done.
  - injection Heq as _ Heq. rewrite <- Heq, dashFree_app_dash in Ht2. done.
  - injection Heq as -> Heq. destruct (IH s2 Heq) as [-> ->]; done.
Qed.

Lemma slotKey_inj d1 p1 d2 p2 :
  Grid.slotKey d1 p1 = Grid.slotKey d2 p2 ↔ d1 = d2 ∧ p1 = p2.
Proof.
  split; [|by intros [-> ->]].
  unfold Grid.slotKey. intros H.
  change (d1 +:+ String "-" (pretty p1) = d2 +:+ String "-" (pretty p2)) in H.
  apply dash_split_inj in H as [-> H]; auto using dashFree_pretty.
  split; [done|]. by apply (inj pretty).
Qed.

(* ================================================================== *)
(** * [find] returns the first match *)
(* ================================================================== *)

Lemma find_firstSuch {A} (f : A → bool) (P : A → Prop) l x :
  (∀ y, f y = true ↔ P y) → List.find f l = Some x ↔ firstSuch P l x.
Proof.
  intros HfP. induction l as [|a l IH]; simpl.
  - split; [done|]. intros (before & after & Heq & _). by destruct before.
  - destruct (f a) eqn:Hfa.
    + split.
      * intros [= ->]. exists [], l. split; [done|]. split; [by apply HfP|constructor].
      * intros ([|b before] & after & Heq & Hx & Hbefore); simpl in Heq.
        { by injection Heq as ->. }
        injection Heq as -> _. apply Forall_cons in Hbefore as [Hb _].
        exfalso. by apply Hb, HfP.
    + rewrite IH. split.
      * intros (before & after & -> & Hx & Hbefore). exists (a :: before), after.
        split; [done|]. split; [done|]. constructor; [|done].
        intros Ha. apply HfP in Ha. congruence.
      * intros ([|b before] & after & Heq & Hx & Hbefore); simpl in Heq.
        { injection Heq as -> _. apply HfP in Hx. congruence. }
        injection Heq as -> ->. apply Forall_cons in Hbefore as [_ Hbefore].
        by exists before, after.
Qed.

Lemma find_None_firstSuch {A} (f : A → bool) (P : A → Prop) l :
  (∀ y, f y = true ↔ P y) → List.find f l = None ↔ ∀ x, ¬ firstSuch P l x.
Proof.
  intros HfP. split.
  - intros Hnone x Hx. apply (find_firstSuch f P l x HfP) in Hx. congruence.
  - intros Hno. destruct (List.find f l) as [x|] eqn:Hfind; [|done].
    exfalso. apply (Hno x). by apply (find_firstSuch f P l x HfP).
Qed.

Lemma firstSuch_In {A} (P : A → Prop) l x : firstSuch P l x → In x l ∧ P x.
Proof.
  intros (before & after & -> & Hx & _). split; [|done].
  apply in_app_iff. right. by left.
Qed.

Lemma findTeacher_registered reg id teacher :
  Grid.findTeacher reg id = Some teacher ↔ registeredTeacher reg id teacher.
Proof.
  unfold Grid.findTeacher, registeredTeacher. apply find_firstSuch.
  intros t. apply String.eqb_eq.
Qed.

Lemma findEntry_entryWithId timetableEntries id e :
  RoomEngine.findEntry timetableEntries id = Some e ↔ entryWithId timetableEntries id e.
Proof.
  unfold RoomEngine.findEntry, entryWithId. apply find_firstSuch.
  intros t. apply String.eqb_eq.
Qed.

(* ================================================================== *)
(** * Room assignment engine: automatic assignment *)
(* ================================================================== *)

Section auto_assign.
Import RoomEngine.
Context (cat : Catalog) (clock : nat → string).
Context (roomAssignments : list RoomAssignment).
Context (timetableEntries : list TimetableEntry).

Lemma autoAssignStep_spec acc entry :
  autoAssignStep cat clock roomAssignments timetableEntries acc entry = acc
  ∨ ∃ ra, autoAssignStep cat clock roomAssignments timetableEntries acc entry = acc ++ [ra]
          ∧ createdFor cat roomAssignments timetableEntries ra entry.
Proof.
  unfold autoAssignStep.
  destruct (existsb _ roomAssignments) eqn:Hex; [by left|].
  destruct (generateRoomSuggestions _ _ _ entry) as [|best rest] eqn:Hg; [by left|].
  destruct (Z.ltb_spec 0 (rs_suitabilityScore best)); [|by left].
  right. eexists. split; [done|]. split; [done|].
  exists best, rest. simpl. repeat split; try done.
  by destruct (rs_warnings best).
Qed.

Lemma autoAssign_fold_spec l acc :
  ∃ new,
    fold_left (autoAssignStep cat clock roomAssignments timetableEntries) l acc
    = acc ++ new
    ∧ Forall (λ ra, ∃ entry, In entry l ∧ createdFor cat roomAssignments timetableEntries ra entry) new.
Proof.
  revert acc. induction l as [|entry l IH]; intros acc; simpl.
  - exists []. by rewrite app_nil_r.
  - destruct (autoAssignStep_spec acc entry) as [->|(ra & -> & Hra)].
    + destruct (IH acc) as (new & -> & Hnew). exists new. split; [done|].
      eapply Forall_impl; [exact Hnew|].
      intros ra (e & He & Hc). exists e. split; [by right|done].
    + destruct (IH (acc ++ [ra])) as (new & -> & Hnew).
      exists (ra :: new). split; [by rewrite <- app_assoc|].
      constructor; [exists entry; split; [by left|done]|].
      eapply Forall_impl; [exact Hnew|].
      intros ra' (e & He & Hc). exists e. split; [by right|done].
Qed.

Lemma autoAssignNew_spec :
  Forall (λ ra, ∃ entry, In entry timetableEntries ∧ createdFor cat roomAssignments timetableEntries ra entry)
    (autoAssignNew cat clock roomAssignments timetableEntries).
Proof.
  unfold autoAssignNew.
  destruct (autoAssign_fold_spec timetableEntries []) as (new & -> & Hnew). done.
Qed.

(** C10.  [autoAssignRooms] keeps every assignment it is given, unchanged
    and in place, and only appends: each appended assignment is an
    automatic one for an entry of the timetable that had no assignment
    before the call. *)
Theorem autoAssignRooms_frame :
  ∃ newAssignments,
    autoAssignRooms cat clock roomAssignments timetableEntries
    = roomAssignments ++ newAssignments
    ∧ (∀ i ra, roomAssignments !! i = Some ra →
         autoAssignRooms cat clock roomAssignments timetableEntries !! i = Some ra)
    ∧ Forall
        (λ ra, ra_isAutoAssigned ra = true
               ∧ (∃ entry, In entry timetableEntries
                           ∧ ra_timetableEntryId ra = te_id entry)
               ∧ ∀ old, In old roomAssignments →
                        ra_timetableEntryId old ≠ ra_timetableEntryId ra)
        newAssignments.
Proof.
  exists (autoAssignNew cat clock roomAssignments timetableEntries).
  split; [done|]. split.
  - intros i ra Hi. unfold autoAssignRooms. by apply lookup_app_l_Some.
  - eapply Forall_impl; [apply autoAssignNew_spec|].
    intros ra (entry & Hin & Hskip & best & rest & _ & _ & _ & Hid & _ & Hauto & _).
    split; [done|]. split; [by exists entry|].
    intros old Hold Heq.
    assert (existsb (λ old, String.eqb (ra_timetableEntryId old) (te_id entry))
              roomAssignments = true) as Hex; [|congruence].
    apply existsb_exists. exists old. split; [done|].
    apply String.eqb_eq. congruence.
Qed.
End auto_assign.

(** The suggestions for an entry depend on the entry only through its
    subject, class, day and period: two lessons of one class and subject in
    the same slot are offered the same list, whatever was pushed for the
    first of them. *)
Lemma generateRoomSuggestions_same_slot cat roomAssignments timetableEntries e1 e2 :
  te_subjectId e1 = te_subjectId e2 → te_classId e1 = te_classId e2 →
  te_day e1 = te_day e2 → te_period e1 = te_period e2 →
  RoomEngine.generateRoomSuggestions cat roomAssignments timetableEntries e1
  = RoomEngine.generateRoomSuggestions cat roomAssignments timetableEntries e2.
Proof.
  intros Hs Hc Hd Hp.
  unfold RoomEngine.generateRoomSuggestions, RoomEngine.subjectRoomPreferences,
    RoomEngine.occupiedRooms.
  by rewrite Hs, Hc, Hd, Hp.
Qed.

(** C1.  Five lessons in one slot and three active rooms: the loop reads
    the occupied rooms from the assignments it was given and never from the
    ones it has just pushed, so all five lessons receive the same
    top-scored room. *)
Theorem autoAssignRooms_exhaustion :
  map (λ ra, (ra_timetableEntryId ra, ra_roomId ra))
    (RoomEngine.autoAssignRooms Examples.threeRooms Examples.clock0 []
       Examples.fiveAtOnce)
  = [("e1", "R1"); ("e2", "R1"); ("e3", "R1"); ("e4", "R1"); ("e5", "R1")].
Proof. vm_compute. reflexivity. Qed.

(* ================================================================== *)
(** * Room assignment engine: suitability scores *)
(* ================================================================== *)

Lemma includes_In l x : includes l x = true ↔ In x l.
Proof.
  unfold includes. rewrite existsb_exists. split.
  - intros (y & Hy & Heq). apply String.eqb_eq in Heq. by subst.
  - intros H. exists x. split; [done|]. apply String.eqb_refl.
Qed.

Lemma find_sorted_least {A} (key : A → Z) (f : A → bool) l p :
  StronglySorted (λ a b, key a ≤ key b)%Z l →
  List.find f l = Some p →
  ∀ q, In q l → f q = true → (key p ≤ key q)%Z.
Proof.
  induction 1 as [|y ys Hs IH Hy]; simpl; [done|].
  destruct (f y) eqn:Hfy.
  - intros [= ->] q [->|Hq] _; [lia|].
    rewrite Forall_forall in Hy. apply Hy. by apply list_elem_of_In.
  - intros Hfind q [->|Hq] Hfq; [congruence|]. by apply IH.
Qed.

Lemma Qgtb_ratio (s c : N) (a b : positive) :
  (s ≤ c)%N →
  Qgtb (Z.of_N s # Z.to_pos (Z.of_N c)) (Z.pos a # b) = true
  ↔ (Z.pos a * Z.of_N c < Z.pos b * Z.of_N s)%Z.
Proof.
  intros Hsc. unfold Qgtb. rewrite negb_true_iff, <- not_true_iff_false, Qle_bool_iff.
  unfold Qle. simpl.
  destruct (decide (c = 0%N)) as [->|Hc].
  - assert (s = 0%N) as -> by lia. simpl. lia.
  - rewrite Z2Pos.id by lia. nia.
Qed.

Section scoring.
Import RoomEngine.
Context (cat : Catalog).

Lemma subjectRoomPreferences_In entry p :
  In p (subjectRoomPreferences cat entry)
  ↔ In p (subjectRoomTypes cat) ∧ srt_subjectId p = te_subjectId entry.
Proof.
  unfold subjectRoomPreferences.
  rewrite sortBy_In.
  rewrite filter_In. by rewrite String.eqb_eq.
Qed.

Lemma typeRule_points entry room s :
  typePoints (subjectRoomTypes cat) (te_subjectId entry) room
    (contribution (typeRule (subjectRoomPreferences cat entry) room) s).
Proof.
  unfold typePoints, contribution, typeRule.
  destruct (List.find _ (subjectRoomPreferences cat entry)) as [p|] eqn:Hfind.
  - left. exists p.
    pose proof (find_some _ _ Hfind) as [Hin Hty].
    apply String.eqb_eq in Hty. apply subjectRoomPreferences_In in Hin.
    split; [done|]. split; [done|]. split.
    + intros q Hq Hqty.
      eapply (find_sorted_least srt_priority); [|exact Hfind| |].
      { apply sortBy_sorted. intros; lia. }
      * by apply subjectRoomPreferences_In.
      * apply String.eqb_eq. done.
    + destruct (srt_isRequired p); simpl; lia.
  - right. pose proof (find_none _ _ Hfind) as Hnone.
    destruct (subjectRoomPreferences cat entry) as [|p0 prefs] eqn:Hprefs; simpl.
    + right. split; [|lia]. intros q Hq.
      apply subjectRoomPreferences_In in Hq. by rewrite Hprefs in Hq.
    + left. split; [|split; [|lia]].
      * exists p0. apply subjectRoomPreferences_In. rewrite Hprefs. by left.
      * intros q Hq Hqty. apply subjectRoomPreferences_In in Hq.
        rewrite Hprefs in Hq. apply Hnone in Hq.
        apply String.eqb_neq in Hq. done.
Qed.

Lemma capacityRule_points room classSection s :
  contribution (capacityRule room classSection) s
  = capacityPoints (cr_capacity room) (cs_studentCount classSection).
Proof.
  unfold contribution, capacityRule, capacityPoints, capacityRatio.
  destruct (N.leb_spec (cs_studentCount classSection) (cr_capacity room)) as [Hle|Hlt].
  - rewrite decide_False by lia.
    destruct (Qgtb _ (8 # 10)) eqn:H8.
    { apply Qgtb_ratio in H8; [|done]. rewrite decide_True by lia. simpl; lia. }
    apply not_true_iff_false in H8. rewrite Qgtb_ratio in H8 by done.
    rewrite decide_False by lia.
    destruct (Qgtb _ (5 # 10)) eqn:H5.
    { apply Qgtb_ratio in H5; [|done]. rewrite decide_True by lia. simpl; lia. }
    apply not_true_iff_false in H5. rewrite Qgtb_ratio in H5 by done.
    rewrite decide_False by lia. simpl; lia.
  - rewrite decide_True by lia. simpl; lia.
Qed.

Lemma featureRule_points room s :
  contribution (featureRule room) s = featurePoints (cr_features room).
Proof.
  unfold contribution, featureRule, featurePoints, requiredFeatures. simpl.
  rewrite andb_true_r.
  destruct (includes (cr_features room) "Projector") eqn:Hp;
    destruct (includes (cr_features room) "Whiteboard") eqn:Hw; simpl;
    try apply includes_In in Hp; try apply includes_In in Hw;
    try (apply not_true_iff_false in Hp; rewrite includes_In in Hp);
    try (apply not_true_iff_false in Hw; rewrite includes_In in Hw);
    rewrite <- ?list_elem_of_In in *; case_decide; try lia; tauto.
Qed.

Lemma scoreRoom_score entry classSection room :
  ∃ t, typePoints (subjectRoomTypes cat) (te_subjectId entry) room t
       ∧ rs_suitabilityScore (scoreRoom (subjectRoomPreferences cat entry) classSection room)
         = Z.max 0 (t + capacityPoints (cr_capacity room) (cs_studentCount classSection)
                      + featurePoints (cr_features room)).
Proof.
  exists (contribution (typeRule (subjectRoomPreferences cat entry) room) scoring0).
  split; [apply typeRule_points|].
  unfold scoreRoom. simpl. f_equal.
  pose proof (capacityRule_points room classSection
                (typeRule (subjectRoomPreferences cat entry) room scoring0)) as Hc.
  pose proof (featureRule_points room
                (capacityRule room classSection
                   (typeRule (subjectRoomPreferences cat entry) room scoring0))) as Hf.
  unfold contribution in *. simpl. lia.
Qed.

Lemma occupiedRooms_heldAt roomAssignments timetableEntries entry roomId :
  In roomId (occupiedRooms roomAssignments timetableEntries entry)
  ↔ heldAt roomAssignments timetableEntries (te_day entry) (te_period entry) roomId.
Proof.
  unfold occupiedRooms, heldAt. rewrite in_map_iff. split.
  - intros (ra & Hroom & Hin). apply filter_In in Hin as [Hin Hat].
    unfold assignedAt in Hat.
    destruct (findEntry timetableEntries (ra_timetableEntryId ra)) as [holder|] eqn:Hfind;
      [|done].
    apply andb_true_iff in Hat as [Hd Hp]. apply String.eqb_eq in Hd.
    apply N.eqb_eq in Hp. exists ra, holder.
    by rewrite <- findEntry_entryWithId.
  - intros (ra & holder & Hin & Hroom & Hfind & Hd & Hp). exists ra. split; [done|].
    apply filter_In. split; [done|]. unfold assignedAt.
    apply findEntry_entryWithId in Hfind. rewrite Hfind, Hd, Hp.
    by rewrite String.eqb_refl, N.eqb_refl.
Qed.

(** C4, as stated, fails.  A lesson created in the teacher view carries an
    empty class id; for it the three rooms, all active and free, get no
    suggestion at all. *)
Lemma generateRoomSuggestions_unknown_class :
  generateRoomSuggestions Examples.threeRooms []
    [Examples.mkEntry "t1" "" "1" "1" "Monday" 1]
    (Examples.mkEntry "t1" "" "1" "1" "Monday" 1) = []
  ∧ ¬ scoredAsWorded Examples.threeRooms []
        [Examples.mkEntry "t1" "" "1" "1" "Monday" 1]
        (Examples.mkEntry "t1" "" "1" "1" "Monday" 1).
Proof.
  split; [by vm_compute|]. intros Hall.
  destruct (Hall Examples.room101) as (s & Hin & _).
  - by left.
  - done.
  - by intros (ra & holder & [] & _).
  - vm_compute in Hin. done.
Qed.

(** C4, amended.  [generateRoomSuggestions] returns nothing for an entry
    whose subject or whose class is not registered.  For an entry whose
    subject and class are registered it returns one suggestion per
    candidate room: the rooms of the catalog that are active and that no
    assignment holds at the entry's day and period, rooms that are too
    small included; each suggestion carries the room's id and the sum of
    the room-type, capacity and feature points clamped below at 0; the
    list is in descending score order and suggestions of equal score keep
    the order of the rooms. *)
Theorem generateRoomSuggestions_scores roomAssignments timetableEntries entry :
  let out := generateRoomSuggestions cat roomAssignments timetableEntries entry in
  ((∀ subject, ¬ firstSuch (λ s, sub_id s = te_subjectId entry) (subjects cat) subject)
   → out = [])
  ∧ ((∀ c, ¬ firstSuch (λ c, cs_id c = te_classId entry) (classSections cat) c)
     → out = [])
  ∧ ∀ subject classSection,
      firstSuch (λ s, sub_id s = te_subjectId entry) (subjects cat) subject →
      firstSuch (λ c, cs_id c = te_classId entry) (classSections cat) classSection →
      ∃ (keep : Classroom → bool) (suggest : Classroom → RoomSuggestion),
        (∀ room,
           keep room = true
           ↔ cr_isActive room = true
             ∧ ¬ heldAt roomAssignments timetableEntries (te_day entry)
                   (te_period entry) (cr_id room))
        ∧ out ≡ₚ map suggest (List.filter keep (classrooms cat))
        ∧ StronglySorted (λ a b, rs_suitabilityScore b ≤ rs_suitabilityScore a)%Z out
        ∧ (∀ v, List.filter (λ a, rs_suitabilityScore a =? v)%Z out
                = List.filter (λ a, rs_suitabilityScore a =? v)%Z
                    (map suggest (List.filter keep (classrooms cat))))
        ∧ ∀ room, In room (List.filter keep (classrooms cat)) →
            rs_roomId (suggest room) = cr_id room
            ∧ (0 ≤ rs_suitabilityScore (suggest room))%Z
            ∧ ∃ t, typePoints (subjectRoomTypes cat) (te_subjectId entry) room t
                   ∧ rs_suitabilityScore (suggest room)
                     = Z.max 0 (t + capacityPoints (cr_capacity room)
                                      (cs_studentCount classSection)
                                  + featurePoints (cr_features room)).
Proof.
  intros out.
  assert (∀ s : Subject,
            String.eqb (sub_id s) (te_subjectId entry) = true
            ↔ sub_id s = te_subjectId entry) as HfS by (intros; apply String.eqb_eq).
  assert (∀ c : ClassSection,
            String.eqb (cs_id c) (te_classId entry) = true
            ↔ cs_id c = te_classId entry) as HfC by (intros; apply String.eqb_eq).
  split; [|split].
  { intros Hno. apply (find_None_firstSuch _ _ _ HfS) in Hno.
    unfold out, generateRoomSuggestions. by rewrite Hno. }
  { intros Hno. apply (find_None_firstSuch _ _ _ HfC) in Hno.
    unfold out, generateRoomSuggestions. rewrite Hno.
    by destruct (List.find _ (subjects cat)). }
  intros subject classSection Hsub Hcls.
  apply (find_firstSuch _ _ _ _ HfS) in Hsub.
  apply (find_firstSuch _ _ _ _ HfC) in Hcls.
  set (keep := λ room : Classroom,
         cr_isActive room
         && negb (includes (occupiedRooms roomAssignments timetableEntries entry)
                    (cr_id room))).
  set (candidates := List.filter keep (classrooms cat)).
  exists keep, (scoreRoom (subjectRoomPreferences cat entry) classSection).
  assert (out = sortBy (λ a b, rs_suitabilityScore b - rs_suitabilityScore a)%Z
                  (map (scoreRoom (subjectRoomPreferences cat entry) classSection)
                     candidates)) as ->.
  { unfold out, generateRoomSuggestions. by rewrite Hsub, Hcls. }
  pose (key := λ a : RoomSuggestion, (- rs_suitabilityScore a)%Z).
  assert (∀ a b, (rs_suitabilityScore b - rs_suitabilityScore a ≤ 0 ↔ key a ≤ key b)%Z)
    as Hkey by (unfold key; intros; lia).
  split.
  { intros room. unfold keep.
    rewrite andb_true_iff, negb_true_iff, <- not_true_iff_false, includes_In.
    by rewrite occupiedRooms_heldAt. }
  split; [by apply sortBy_perm|]. split; [|split].
  - pose proof (sortBy_sorted key _ Hkey
      (map (scoreRoom (subjectRoomPreferences cat entry) classSection) candidates)) as Hs.
    revert Hs. generalize (sortBy (λ a b, rs_suitabilityScore b - rs_suitabilityScore a)%Z
      (map (scoreRoom (subjectRoomPreferences cat entry) classSection) candidates)).
    induction 1 as [|y ys Hs IH Hy]; constructor; [done|].
    eapply Forall_impl; [exact Hy|]. unfold key. intros; simpl in *; lia.
  - intros v.
    pose proof (sortBy_stable key _ Hkey (- v)%Z
      (map (scoreRoom (subjectRoomPreferences cat entry) classSection) candidates)) as Hst.
    erewrite (filter_ext (λ a, rs_suitabilityScore a =? v)%Z (λ a, key a =? - v)%Z).
    + rewrite Hst. apply filter_ext. intros a. unfold key.
      destruct (Z.eqb_spec (- rs_suitabilityScore a) (- v)),
               (Z.eqb_spec (rs_suitabilityScore a) v); lia || done.
    + intros a. unfold key.
      destruct (Z.eqb_spec (- rs_suitabilityScore a) (- v)),
               (Z.eqb_spec (rs_suitabilityScore a) v); lia || done.
  - intros room _. split; [done|]. split; [simpl; lia|]. apply scoreRoom_score.
Qed.
End scoring.

Lemma generateRoomSuggestions_scores_witness :
  StronglySorted (λ a b, rs_suitabilityScore b ≤ rs_suitabilityScore a)%Z
    (RoomEngine.generateRoomSuggestions Examples.threeRooms []
       Examples.fiveAtOnce (Examples.mkEntry "e1" "1" "1" "1" "Monday" 1)).
Proof.
  destruct (generateRoomSuggestions_scores Examples.threeRooms [] Examples.fiveAtOnce
              (Examples.mkEntry "e1" "1" "1" "1" "Monday" 1))
    as (_ & _ & Hfound).
  destruct (Hfound Examples.mathematics Examples.grade9A)
    as (keep & suggest & _ & _ & Hsorted & _).
  - exists [], []. split; [reflexivity|]. split; [reflexivity|constructor].
  - exists [], []. split; [reflexivity|]. split; [reflexivity|constructor].
  - exact Hsorted.
Defined.

(* ================================================================== *)
(** * Room assignment engine: reasons and warnings *)
(* ================================================================== *)


Section explanations.
Import RoomEngine.

End explanations.


(* ================================================================== *)
(** * Room assignment engine: manual assignment *)
(* ================================================================== *)

(** C8, as stated, fails.  Saving room R1 again for a lesson that already
    sits in R1 is refused as occupied, although no other lesson holds R1 in
    that slot. *)
Lemma saveManualAssignment_own_room :
  RoomEngine.saveManualAssignment "2024-01-02T00:00:00.000Z"
    [Examples.inRoom101] [Examples.mondayFirst] (Some Examples.mondayFirst) "R1"
  = RoomEngine.ManualRoomOccupied
  ∧ ¬ otherOccupies [Examples.inRoom101] [Examples.mondayFirst]
        Examples.mondayFirst "R1"
  ∧ ¬ roomOccupiedAsWorded
        (RoomEngine.saveManualAssignment "2024-01-02T00:00:00.000Z"
           [Examples.inRoom101] [Examples.mondayFirst] (Some Examples.mondayFirst) "R1")
        [Examples.inRoom101] [Examples.mondayFirst] Examples.mondayFirst "R1".
Proof.
  assert (¬ otherOccupies [Examples.inRoom101] [Examples.mondayFirst]
            Examples.mondayFirst "R1") as Hno.
  { intros (ra & holder & Hin & Hfind & Hne & _).
    destruct Hin as [<-|[]]. vm_compute in Hfind. injection Hfind as <-.
    by apply Hne. }
  split; [by vm_compute|]. split; [done|].
  intros [Hocc _]. apply Hno, Hocc. by vm_compute.
Qed.

Section manual.
Import RoomEngine.
Context (now : string) (roomAssignments : list RoomAssignment).
Context (timetableEntries : list TimetableEntry).

Lemma find_occupies entry roomId :
  is_Some
    (List.find
       (λ ra, match findEntry timetableEntries (ra_timetableEntryId ra) with
              | Some holder =>
                  String.eqb (ra_roomId ra) roomId
                  && String.eqb (te_day holder) (te_day entry)
                  && (te_period holder =? te_period entry)%N
              | None => false
              end)
       roomAssignments)
  ↔ occupies roomAssignments timetableEntries entry roomId.
Proof.
  split.
  - intros [ra Hfind]. apply find_some in Hfind as [Hin Hra].
    destruct (findEntry _ _) as [holder|] eqn:Hh; [|done].
    apply andb_true_iff in Hra as [Hra Hp]. apply andb_true_iff in Hra as [Hr Hd].
    exists ra, holder. rewrite String.eqb_eq in Hr, Hd. apply N.eqb_eq in Hp. done.
  - intros (ra & holder & Hin & Hh & Hr & Hd & Hp).
    destruct (List.find _ roomAssignments) eqn:Hfind; [done|].
    exfalso. eapply find_none in Hfind; [|exact Hin]. simpl in Hfind.
    rewrite Hh, Hr, Hd, Hp in Hfind.
    by rewrite !String.eqb_refl, N.eqb_refl in Hfind.
Qed.

(** C8, amended.  With a room selected, [saveManualAssignment] refuses
    with "room occupied" exactly when some assignment, the entry's own
    current one included, holds the room at the entry's day and period,
    and then sets no state.  Otherwise it drops the entry's prior
    assignments, keeps all others in order, and appends one assignment
    for the entry with that room, marked manual, by "user", without
    conflict; the entry ends with exactly that one assignment. *)
Theorem saveManualAssignment_spec entry roomId :
  roomId ≠ "" →
  (saveManualAssignment now roomAssignments timetableEntries (Some entry) roomId
     = ManualRoomOccupied
   ↔ occupies roomAssignments timetableEntries entry roomId)
  ∧ (¬ occupies roomAssignments timetableEntries entry roomId →
     ∃ new,
       saveManualAssignment now roomAssignments timetableEntries (Some entry) roomId
       = ManualSaved
           (List.filter (λ ra, negb (String.eqb (ra_timetableEntryId ra) (te_id entry)))
              roomAssignments ++ [new])
       ∧ ra_timetableEntryId new = te_id entry
       ∧ ra_roomId new = roomId
       ∧ ra_isAutoAssigned new = false
       ∧ ra_assignedBy new = "user"
       ∧ ra_conflictStatus new = cs_none
       ∧ assignmentsOf (te_id entry)
           (List.filter (λ ra, negb (String.eqb (ra_timetableEntryId ra) (te_id entry)))
              roomAssignments ++ [new])
         = [new]).
Proof.
  intros Hroom. apply String.eqb_neq in Hroom.
  pose proof (find_occupies entry roomId) as Hocc.
  unfold saveManualAssignment. rewrite Hroom.
  destruct (List.find _ roomAssignments) as [c|] eqn:Hfind.
  - split; [split; [intros _; apply Hocc; by eexists|done]|].
    intros Hno. exfalso. apply Hno, Hocc. by eexists.
  - split.
    { split; [done|]. intros H. apply Hocc in H as [? [=]]. }
    intros _. eexists. split; [done|]. simpl. repeat split.
    unfold assignmentsOf. rewrite List.filter_app. simpl.
    rewrite String.eqb_refl.
    replace (List.filter _ (List.filter _ roomAssignments)) with (@nil RoomAssignment);
      [done|].
    symmetry. clear. induction roomAssignments as [|ra l IH]; simpl; [done|].
    destruct (String.eqb_spec (ra_timetableEntryId ra) (te_id entry)) as [Heq|Hne];
      simpl; [done|].
    apply String.eqb_neq in Hne. by rewrite Hne.
Qed.
End manual.

Lemma saveManualAssignment_spec_witness :
  RoomEngine.saveManualAssignment "2024-01-02T00:00:00.000Z"
    [Examples.inRoom101] [Examples.mondayFirst] (Some Examples.mondayFirst) "R1"
  = RoomEngine.ManualRoomOccupied
  ↔ occupies [Examples.inRoom101] [Examples.mondayFirst] Examples.mondayFirst "R1".
Proof.
  apply (saveManualAssignment_spec "2024-01-02T00:00:00.000Z"
           [Examples.inRoom101] [Examples.mondayFirst] Examples.mondayFirst "R1").
  discriminate.
Defined.

(* ================================================================== *)
(** * Constraint validation: teacher double booking *)
(* ================================================================== *)

Lemma atSlot_spec t d p e :
  atSlot t d p e = true ↔ te_teacherId e = t ∧ te_day e = d ∧ te_period e = p.
Proof.
  unfold atSlot. rewrite !andb_true_iff, !String.eqb_eq, N.eqb_eq. tauto.
Qed.

Lemma atSlot_self e : atSlot (te_teacherId e) (te_day e) (te_period e) e = true.
Proof. by apply atSlot_spec. Qed.

Section double_booking.
Context (reg : Grid.Registry).

Lemma slotsRecord_seen m seen e :
  slotsRecord m seen →
  Grid.slotKey (te_day e) (te_period e) ∈ default ∅ (m !! te_teacherId e)
  ↔ existsb (atSlot (te_teacherId e) (te_day e) (te_period e)) seen = true.
Proof.
  intros Hrec. rewrite (Hrec _ _), existsb_exists. split.
  - intros (e' & Hin & Ht & Hk). exists e'. split; [done|].
    apply slotKey_inj in Hk as [Hd Hp]. by apply atSlot_spec.
  - intros (e' & Hin & Hat). apply atSlot_spec in Hat as (Ht & Hd & Hp).
    exists e'. by rewrite Hd, Hp.
Qed.

Lemma doubleBookingStep_record m acc seen e :
  slotsRecord m seen →
  slotsRecord (Grid.doubleBookingStep reg (m, acc) e).1 (seen ++ [e]).
Proof.
  intros Hrec t k. unfold Grid.doubleBookingStep. simpl.
  set (m' := match m !! te_teacherId e with
             | Some _ => m
             | None => <[te_teacherId e:=∅]> m
             end).
  assert (∀ t', default ∅ (m' !! t') = default ∅ (m !! t')) as Hm'.
  { intros t'. unfold m'. destruct (m !! te_teacherId e) eqn:Hl; [done|].
    destruct (decide (te_teacherId e = t')) as [<-|Hne].
    - by rewrite lookup_insert_eq, Hl.
    - by rewrite lookup_insert_ne. }
  destruct (decide (te_teacherId e = t)) as [<-|Hne].
  - rewrite lookup_insert_eq. simpl. rewrite elem_of_union, elem_of_singleton, Hm'.
    rewrite (Hrec _ _). split.
    + intros [(e' & Hin & Ht & Hk)| ->].
      * exists e'. rewrite in_app_iff. auto.
      * exists e. rewrite in_app_iff. simpl. auto.
    + intros (e' & Hin & Ht & Hk). apply in_app_iff in Hin as [Hin|[<-|[]]].
      * left. by exists e'.
      * by right.
  - rewrite lookup_insert_ne by done. rewrite Hm', (Hrec _ _). split.
    + intros (e' & Hin & Ht & Hk). exists e'. rewrite in_app_iff. auto.
    + intros (e' & Hin & Ht & Hk). apply in_app_iff in Hin as [Hin|[<-|[]]].
      * by exists e'.
      * done.
Qed.

Lemma doubleBooking_fold entries m acc seen :
  slotsRecord m seen →
  (fold_left (Grid.doubleBookingStep reg) entries (m, acc)).2
  = acc ++ map (Grid.doubleBookingConflict reg) (repeats seen entries).
Proof.
  revert m acc seen.
  induction entries as [|e entries IH]; intros m acc seen Hrec; simpl.
  { by rewrite app_nil_r. }
  pose proof (doubleBookingStep_record m acc seen e Hrec) as Hrec'.
  destruct (Grid.doubleBookingStep reg (m, acc) e) as [m' acc'] eqn:Hstep.
  rewrite (IH m' acc' (seen ++ [e]) Hrec').
  assert (acc' = acc ++ map (Grid.doubleBookingConflict reg)
                         (if existsb (atSlot (te_teacherId e) (te_day e) (te_period e)) seen
                          then [e] else [])) as ->.
  { apply (f_equal snd) in Hstep. simpl in Hstep. rewrite <- Hstep.
    set (m0 := match m !! te_teacherId e with
               | Some _ => m
               | None => <[te_teacherId e:=∅]> m
               end).
    assert (default ∅ (m0 !! te_teacherId e) = default ∅ (m !! te_teacherId e)) as ->.
    { unfold m0. destruct (m !! te_teacherId e) eqn:Hl; [by rewrite ?Hl|].
      by rewrite lookup_insert_eq. }
    pose proof (slotsRecord_seen m seen e Hrec) as Hseen.
    destruct (existsb _ seen).
    - rewrite bool_decide_eq_true_2; [done|]. by apply Hseen.
    - rewrite bool_decide_eq_false_2; [by rewrite app_nil_r|].
      intros Hin. apply Hseen in Hin. done. }
  by rewrite map_app, app_assoc.
Qed.

Lemma doubleBookingConflicts_repeats entries :
  Grid.doubleBookingConflicts reg entries
  = map (Grid.doubleBookingConflict reg) (repeats [] entries).
Proof.
  unfold Grid.doubleBookingConflicts.
  rewrite (doubleBooking_fold entries ∅ [] []); [done|].
  intros t k. rewrite lookup_empty. simpl. split; [set_solver|].
  intros (e & [] & _).
Qed.
End double_booking.

Lemma repeats_sublist seen entries : sublist (repeats seen entries) entries.
Proof.
  revert seen. induction entries as [|e entries IH]; intros seen; simpl; [done|].
  destruct (existsb _ seen); simpl.
  - by apply sublist_skip.
  - by apply sublist_cons.
Qed.

(** At every slot the repeating entries are the entries of the slot beyond
    the first one met. *)
Lemma repeats_atSlot t d p seen entries :
  List.filter (atSlot t d p) (repeats seen entries)
  = if existsb (atSlot t d p) seen
    then List.filter (atSlot t d p) entries
    else tail (List.filter (atSlot t d p) entries).
Proof.
  revert seen. induction entries as [|e entries IH]; intros seen; simpl.
  { by destruct (existsb _ seen). }
  rewrite List.filter_app, IH, existsb_app. simpl. rewrite orb_false_r.
  destruct (atSlot t d p e) eqn:He.
  - apply atSlot_spec in He as (<- & <- & <-).
    destruct (existsb _ seen); simpl; [|done].
    by rewrite atSlot_self.
  - rewrite orb_false_r.
    assert (List.filter (atSlot t d p)
              (if existsb (atSlot (te_teacherId e) (te_day e) (te_period e)) seen
               then [e] else []) = []) as ->; [|done].
    destruct (existsb _ seen); simpl; [|done]. by rewrite He.
Qed.

Lemma filter_type_other (f : Conflict → bool) (l : list Conflict) :
  Forall (λ c, f c = false) l → List.filter f l = [].
Proof.
  induction 1 as [|c l Hc _ IH]; simpl; [done|]. by rewrite Hc.
Qed.

Lemma overloadConflicts_type reg pd entries :
  Forall (λ c, c_type c = teacher_overload) (Grid.overloadConflicts reg pd entries).
Proof.
  unfold Grid.overloadConflicts. apply Forall_forall. intros c Hc.
  apply list_elem_of_In, in_flat_map in Hc as (kv & _ & Hc).
  unfold Grid.overloadFor in Hc. repeat case_match; simpl in Hc; try done.
  by destruct Hc as [<-|[]].
Qed.

Lemma roomClash_fold_type reg entries st :
  Forall (λ c, c_type c = room_clash) st.2 →
  Forall (λ c, c_type c = room_clash) (fold_left (Grid.roomClashStep reg) entries st).2.
Proof.
  revert st. induction entries as [|e entries IH]; intros st Hst; simpl; [done|].
  apply IH. unfold Grid.roomClashStep. destruct st as [m acc]; simpl in *.
  repeat case_match; simpl; try done.
  all: apply Forall_app; split; [done|]; by repeat constructor.
Qed.

Lemma roomClashConflicts_type reg entries :
  Forall (λ c, c_type c = room_clash) (Grid.roomClashConflicts reg entries).
Proof. apply roomClash_fold_type. constructor. Qed.

Lemma doubleBookings_of_validate reg pd entries :
  List.filter isDoubleBooking (Grid.validateConstraints reg pd entries)
  = map (Grid.doubleBookingConflict reg) (repeats [] entries).
Proof.
  unfold Grid.validateConstraints. rewrite !List.filter_app.
  rewrite (filter_type_other _ (Grid.overloadConflicts _ _ _)),
          (filter_type_other _ (Grid.roomClashConflicts _ _)).
  - rewrite !app_nil_r, doubleBookingConflicts_repeats.
    generalize (repeats [] entries). intros l.
    induction l as [|e l IH]; simpl; [done|]. by rewrite IH.
  - eapply Forall_impl; [apply roomClashConflicts_type|].
    intros c Hc. unfold isDoubleBooking. by rewrite Hc.
  - eapply Forall_impl; [apply overloadConflicts_type|].
    intros c Hc. unfold isDoubleBooking. by rewrite Hc.
Qed.

(** C2.  The double-booking conflicts of [validateConstraints] are, in
    order, one conflict per repeating entry; each is an error that lists
    just that entry's id; and at a slot where a teacher has [m > 1] entries
    the repeating entries are the [m - 1] entries after the first. *)
Theorem validateConstraints_double_booking reg periodDuration entries
    teacherId day period m :
  length (List.filter (atSlot teacherId day period) entries) = m →
  1 < m →
  let offenders := repeats [] entries in
  List.filter isDoubleBooking (Grid.validateConstraints reg periodDuration entries)
  = map (Grid.doubleBookingConflict reg) offenders
  ∧ sublist offenders entries
  ∧ List.filter (atSlot teacherId day period) offenders
    = tail (List.filter (atSlot teacherId day period) entries)
  ∧ length (List.filter (atSlot teacherId day period) offenders) = m - 1
  ∧ ∀ e, c_type (Grid.doubleBookingConflict reg e) = teacher_double_booking
         ∧ c_severity (Grid.doubleBookingConflict reg e) = sev_error
         ∧ c_affectedEntries (Grid.doubleBookingConflict reg e) = [te_id e].
Proof.
  intros Hm _ offenders.
  split; [apply doubleBookings_of_validate|].
  split; [apply repeats_sublist|].
  pose proof (repeats_atSlot teacherId day period [] entries) as Hrep. simpl in Hrep.
  split; [done|]. split; [|done].
  unfold offenders. rewrite Hrep. rewrite <- Hm.
  destruct (List.filter _ entries); simpl; lia.
Qed.

Lemma validateConstraints_double_booking_witness :
  length (List.filter (atSlot "1" "Monday" 3) (repeats [] Examples.doubleBooked)) = 2 - 1.
Proof.
  apply (validateConstraints_double_booking Examples.school 45 Examples.doubleBooked
           "1" "Monday" 3 2); [reflexivity | lia].
Defined.

(** The scenario of the specification: two lessons of one teacher on Monday
    in period 3 yield one error, for the second lesson. *)
Example double_booked_scenario :
  Grid.validateConstraints Examples.school 45 Examples.doubleBooked
  = [ {| c_type := teacher_double_booking;
         c_message := "Teacher Dr. Sarah Johnson is double-booked on Monday period 3";
         c_severity := sev_error;
         c_affectedEntries := ["b"] |} ].
Proof. vm_compute. reflexivity. Qed.

(* ================================================================== *)
(** * Constraint validation: teacher overload *)
(* ================================================================== *)

Section js_map.
Context {V : Type}.
Implicit Types (m : JsMap.t V) (k : string) (v : V).

Lemma JsMap_get_None m k : JsMap.get m k = None ↔ k ∉ m.*1.
Proof.
  induction m as [|[k' v'] m IH].
  - simpl. split; [intros _; apply not_elem_of_nil|done].
  - rewrite fmap_cons, not_elem_of_cons. simpl.
    destruct (String.eqb_spec k' k) as [->|Hne].
    + split; [done|]. by intros [? _].
    + rewrite IH. split; [by split|by intros [_ ?]].
Qed.

Lemma JsMap_get_Some m k v : JsMap.get m k = Some v → (k, v) ∈ m.
Proof.
  induction m as [|[k' v'] m IH]; simpl; [done|].
  destruct (String.eqb_spec k' k) as [->|Hne].
  - intros [= ->]. by left.
  - intros H. right. by apply IH.
Qed.

Lemma JsMap_set_fresh m k v : JsMap.get m k = None → JsMap.set m k v = m ++ [(k, v)].
Proof.
  induction m as [|[k' v'] m IH]; simpl; [done|].
  destruct (String.eqb_spec k' k) as [->|Hne]; [done|].
  intros H. by rewrite IH.
Qed.

Lemma JsMap_set_keys m k v v0 :
  JsMap.get m k = Some v0 → (JsMap.set m k v).*1 = m.*1.
Proof.
  induction m as [|[k' v'] m IH]; simpl; [done|].
  destruct (String.eqb_spec k' k) as [->|Hne]; [done|].
  intros H. rewrite !fmap_cons. by rewrite IH.
Qed.

Lemma JsMap_set_Forall (P : string * V → Prop) m k v :
  NoDup m.*1 →
  Forall (λ kv, kv.1 ≠ k → P kv) m → P (k, v) → Forall P (JsMap.set m k v).
Proof.
  intros Hnd Hall Hk.
  induction m as [|[k' v'] m IH]; simpl.
  - by constructor.
  - apply Forall_cons in Hall as [Hhd Htl]. rewrite fmap_cons in Hnd.
    apply NoDup_cons in Hnd as [Hnotin Hnd].
    destruct (String.eqb_spec k' k) as [->|Hne].
    + constructor; [done|].
      rewrite Forall_forall in Htl |- *. intros [k1 v1] Hin. apply Htl; [done|].
      simpl. intros ->. apply Hnotin. apply list_elem_of_fmap. by exists (k, v1).
    + constructor; [by apply Hhd|]. by apply IH.
Qed.
End js_map.

Lemma Qgtb_lt x y : Qgtb x y = true ↔ (y < x)%Q.
Proof.
  unfold Qgtb. rewrite negb_true_iff, <- not_true_iff_false, Qle_bool_iff.
  split; [apply Qnot_le_lt|apply Qlt_not_le].
Qed.

Lemma entriesOf_app t l1 l2 : entriesOf t (l1 ++ l2) = entriesOf t l1 ++ entriesOf t l2.
Proof. apply List.filter_app. Qed.

Section overload.
Context (reg : Grid.Registry) (periodDuration : N).

Lemma scheduledHoursOf_snoc_same seen e :
  (scheduledHoursOf periodDuration (te_teacherId e) (seen ++ [e])
   == scheduledHoursOf periodDuration (te_teacherId e) seen
      + Grid.periodHours periodDuration)%Q.
Proof.
  unfold scheduledHoursOf, Grid.periodHours. rewrite entriesOf_app, length_app. simpl.
  rewrite String.eqb_refl. simpl.
  rewrite Nat2Z.inj_add, inject_Z_plus. simpl. ring.
Qed.

Lemma entriesOf_snoc_other t seen e :
  te_teacherId e ≠ t → entriesOf t (seen ++ [e]) = entriesOf t seen.
Proof.
  intros Hne. rewrite entriesOf_app. simpl.
  apply String.eqb_neq in Hne. rewrite Hne. apply app_nil_r.
Qed.

Lemma entriesOf_snoc_same seen e :
  entriesOf (te_teacherId e) (seen ++ [e]) ≠ [].
Proof.
  rewrite entriesOf_app. simpl. rewrite String.eqb_refl.
  intros H. by apply app_eq_nil in H as [_ ?].
Qed.

Lemma teacherHours_step m seen e :
  hoursRecord periodDuration m seen →
  hoursRecord periodDuration
    (JsMap.set m (te_teacherId e)
       (default 0%Q (JsMap.get m (te_teacherId e)) + Grid.periodHours periodDuration)%Q)
    (seen ++ [e]).
Proof.
  intros (Hnd & Hkeys & Hall).
  assert (Forall (λ kv, kv.1 ≠ te_teacherId e →
                   (kv.2 == scheduledHoursOf periodDuration kv.1 (seen ++ [e]))%Q) m)
    as Hothers.
  { eapply Forall_impl; [exact Hall|]. intros [k v] Hkv Hne. simpl in *.
    unfold scheduledHoursOf in *. rewrite entriesOf_snoc_other; done. }
  destruct (JsMap.get m (te_teacherId e)) as [h|] eqn:Hget.
  - pose proof (JsMap_get_Some _ _ _ Hget) as Hin.
    rewrite Forall_forall in Hall. pose proof (Hall _ Hin) as Hh. simpl in Hh.
    split; [by erewrite JsMap_set_keys|]. split.
    + intros t. erewrite JsMap_set_keys by done. rewrite Hkeys.
      destruct (decide (te_teacherId e = t)) as [<-|Hne].
      * split; [intros _; apply entriesOf_snoc_same|intros _].
        apply Hkeys. apply list_elem_of_fmap. by exists (te_teacherId e, h).
      * by rewrite entriesOf_snoc_other.
    + apply JsMap_set_Forall; [done|done|]. simpl.
      rewrite scheduledHoursOf_snoc_same, Hh. reflexivity.
  - pose proof Hget as Hnone. apply JsMap_get_None in Hnone.
    assert (entriesOf (te_teacherId e) seen = []) as Hempty.
    { destruct (entriesOf (te_teacherId e) seen) eqn:He; [done|].
      exfalso. apply Hnone, Hkeys. by rewrite He. }
    rewrite JsMap_set_fresh by done. split; [|split].
    + rewrite fmap_app. apply NoDup_app. split; [done|]. split.
      * intros k Hk Hk'. simpl in Hk'. apply list_elem_of_singleton in Hk' as ->. done.
      * simpl. apply NoDup_singleton.
    + intros t. rewrite fmap_app, elem_of_app. simpl. rewrite list_elem_of_singleton.
      destruct (decide (te_teacherId e = t)) as [<-|Hne].
      * split; [intros _; apply entriesOf_snoc_same|by right].
      * rewrite entriesOf_snoc_other by done. rewrite Hkeys.
        split; [by intros [?|?]|by left].
    + apply Forall_app. split.
      * rewrite Forall_forall in Hothers |- *. intros [k v] Hin.
        apply (Hothers _ Hin). simpl. intros ->.
        apply Hnone, list_elem_of_fmap. by exists (te_teacherId e, v).
      * repeat constructor. simpl. rewrite scheduledHoursOf_snoc_same.
        unfold scheduledHoursOf at 1. rewrite Hempty. unfold Grid.periodHours. simpl. ring.
Qed.


Lemma teacherHours_fold entries m seen :
  hoursRecord periodDuration m seen →
  hoursRecord periodDuration
    (fold_left
       (λ teacherHours entry,
          let hours := Grid.periodHours periodDuration in
          JsMap.set teacherHours (te_teacherId entry)
            (default 0%Q (JsMap.get teacherHours (te_teacherId entry)) + hours)%Q)
       entries m)
    (seen ++ entries).
Proof.
  revert m seen. induction entries as [|e entries IH]; intros m seen Hrec; simpl.
  - by rewrite app_nil_r.
  - replace (seen ++ e :: entries) with ((seen ++ [e]) ++ entries)
      by (by rewrite <- app_assoc).
    apply IH. by apply teacherHours_step.
Qed.

Lemma teacherHours_record entries :
  hoursRecord periodDuration (Grid.teacherHours periodDuration entries) entries.
Proof.
  apply (teacherHours_fold entries [] []).
  split; [constructor|]. split; [|constructor].
  intros t. split; [by intros ?%elem_of_nil|done].
Qed.

Lemma exceedsLimit_spec entries kv teacher :
  Grid.findTeacher reg kv.1 = Some teacher →
  (kv.2 == scheduledHoursOf periodDuration kv.1 entries)%Q →
  exceedsLimit reg kv = true
  ↔ (inject_Z (Z.of_N (t_weeklyHourLimit teacher))
     < scheduledHoursOf periodDuration kv.1 entries)%Q.
Proof.
  intros Hfind Heq. unfold exceedsLimit. rewrite Hfind, Qgtb_lt. by rewrite Heq.
Qed.

Lemma overloadConflicts_filter entries (m : JsMap.t Q) :
  Forall2
    (λ t c, c_type c = teacher_overload ∧ c_severity c = sev_warning
            ∧ c_affectedEntries c = map te_id (entriesOf t entries))
    (List.filter (exceedsLimit reg) m).*1
    (flat_map (Grid.overloadFor reg entries) m).
Proof.
  induction m as [|[k v] m IH]; simpl; [constructor|].
  unfold exceedsLimit, Grid.overloadFor at 1. simpl.
  destruct (Grid.findTeacher reg k) as [teacher|]; [|done].
  destruct (Qgtb v _); [|done].
  rewrite fmap_cons. simpl. by constructor.
Qed.

Lemma overloads_of_validate entries :
  List.filter isOverload (Grid.validateConstraints reg periodDuration entries)
  = Grid.overloadConflicts reg periodDuration entries.
Proof.
  unfold Grid.validateConstraints. rewrite !List.filter_app.
  rewrite (filter_type_other _ (Grid.doubleBookingConflicts _ _)),
          (filter_type_other _ (Grid.roomClashConflicts _ _)).
  - rewrite app_nil_r. simpl.
    pose proof (overloadConflicts_type reg periodDuration entries) as Hty.
    induction Hty as [|c l Hc _ IH]; simpl; [done|].
    unfold isOverload at 1. by rewrite Hc, IH.
  - eapply Forall_impl; [apply roomClashConflicts_type|].
    intros c Hc. unfold isOverload. by rewrite Hc.
  - rewrite doubleBookingConflicts_repeats. apply Forall_forall.
    intros c Hc. apply list_elem_of_fmap in Hc as (e & -> & _). done.
Qed.

(** C3.  The overload conflicts of [validateConstraints] correspond one
    to one, in order, to a duplicate-free list of teacher ids, all
    registered; a registered teacher is on that list exactly when the
    number of the teacher's entries times [periodDuration / 60] hours
    strictly exceeds the weekly limit, so that a teacher limited to 20
    hours with 30 entries of 45 minutes is on it; and each conflict is a
    warning that lists the ids of all entries of its teacher. *)
Theorem validateConstraints_overload entries :
  ∃ overloaded : list string,
    NoDup overloaded
    ∧ (∀ t, t ∈ overloaded → ∃ teacher, registeredTeacher reg t teacher)
    ∧ (∀ t teacher, registeredTeacher reg t teacher →
         (t ∈ overloaded
          ↔ (inject_Z (Z.of_N (t_weeklyHourLimit teacher))
             < inject_Z (Z.of_nat (length (entriesOf t entries)))
               * (Z.of_N periodDuration # 60))%Q))
    ∧ (∀ t teacher, registeredTeacher reg t teacher →
         periodDuration = 45%N → t_weeklyHourLimit teacher = 20%N →
         length (entriesOf t entries) = 30 → t ∈ overloaded)
    ∧ Forall2
        (λ t c, c_type c = teacher_overload ∧ c_severity c = sev_warning
                ∧ c_affectedEntries c = map te_id (entriesOf t entries))
        overloaded
        (List.filter isOverload (Grid.validateConstraints reg periodDuration entries)).
Proof.
  pose proof (teacherHours_record entries) as (Hnd & Hkeys & Hall).
  exists (List.filter (exceedsLimit reg) (Grid.teacherHours periodDuration entries)).*1.
  rewrite Forall_forall in Hall.
  assert (∀ t teacher, registeredTeacher reg t teacher →
            (t ∈ (List.filter (exceedsLimit reg)
                    (Grid.teacherHours periodDuration entries)).*1
             ↔ (inject_Z (Z.of_N (t_weeklyHourLimit teacher))
                < inject_Z (Z.of_nat (length (entriesOf t entries)))
                  * (Z.of_N periodDuration # 60))%Q)) as Hiff.
  { intros t teacher Hfind. apply findTeacher_registered in Hfind.
    change (inject_Z (Z.of_nat (length (entriesOf t entries)))
            * (Z.of_N periodDuration # 60))%Q
      with (scheduledHoursOf periodDuration t entries).
    split.
    + intros Hin. apply list_elem_of_fmap in Hin as ([k v] & -> & Hin).
      apply list_elem_of_In, filter_In in Hin as [Hin Hex].
      apply list_elem_of_In in Hin.
      eapply (exceedsLimit_spec entries (k, v)); eauto.
    + intros Hlt.
      assert (t ∈ (Grid.teacherHours periodDuration entries).*1) as Hin.
      { apply Hkeys. intros Hempty. unfold scheduledHoursOf in Hlt.
        rewrite Hempty in Hlt. simpl in Hlt.
        revert Hlt. unfold Qlt. simpl. lia. }
      apply list_elem_of_fmap in Hin as ([k v] & -> & Hin).
      apply list_elem_of_fmap. exists (k, v). split; [done|].
      apply list_elem_of_In, filter_In. split; [by apply list_elem_of_In|].
      eapply (exceedsLimit_spec entries (k, v)); eauto. }
  split; [|split; [|split; [|split]]].
  - revert Hnd. generalize (Grid.teacherHours periodDuration entries). intros m.
    induction m as [|[k v] m IH]; [done|].
    rewrite fmap_cons. intros [Hk Hnd]%NoDup_cons. specialize (IH Hnd).
    cbn [List.filter]. destruct (exceedsLimit reg (k, v)); [|done].
    rewrite fmap_cons. apply NoDup_cons. split; [|done]. simpl in Hk |- *.
    intros Hin. apply Hk. apply list_elem_of_fmap in Hin as ([k' v'] & -> & Hin).
    apply list_elem_of_In, filter_In in Hin as [Hin _].
    apply list_elem_of_fmap. exists (k', v'). split; [done|]. by apply list_elem_of_In.
  - intros t Hin. apply list_elem_of_fmap in Hin as ([k v] & -> & Hin).
    apply list_elem_of_In, filter_In in Hin as [_ Hex]. unfold exceedsLimit in Hex.
    simpl in *. destruct (Grid.findTeacher reg k) as [teacher|] eqn:Hfind; [|done].
    exists teacher. by apply findTeacher_registered.
  - exact Hiff.
  - intros t teacher Hreg -> Hlimit Hcount. apply (Hiff t teacher Hreg).
    rewrite Hlimit, Hcount. reflexivity.
  - rewrite overloads_of_validate. apply overloadConflicts_filter.
Qed.
End overload.

(** The scenario of the specification: thirty lessons of 45 minutes for a
    teacher limited to 20 hours yield one overload warning that lists all
    thirty ids. *)
Example thirty_lessons_overload :
  List.filter isOverload
    (Grid.validateConstraints Examples.school 45 Examples.thirtyLessons)
  = [ {| c_type := teacher_overload;
         c_message := "Prof. Michael Brown exceeds weekly limit: 22.5/20 hours";
         c_severity := sev_warning;
         c_affectedEntries := map te_id Examples.thirtyLessons |} ].
Proof. vm_compute. reflexivity. Qed.

(* ================================================================== *)
(** * Valid slots *)
(* ================================================================== *)

(** C6, as stated, fails.  English has no allocation for grade 9, so class 1
    has no progress record for it: its percentage is not at least 100, the
    timetable is empty and all 25 cells are free, yet no cell is valid. *)
Lemma validSlots_without_record :
  let progress :=
    Grid.subjectProgress Examples.school Examples.oneHourOfMaths [] [] 45 class_mode "1" in
  progress !! "2" = None
  ∧ Grid.validSlots progress [] class_mode "1" (Some "2") = []
  ∧ length (freeSlots [] class_mode "1") = 25
  ∧ ¬ validSlotsAsWorded progress [] class_mode "1" "2".
Proof.
  intros progress.
  split; [by vm_compute|]. split; [by vm_compute|]. split; [by vm_compute|].
  intros [_ Hfree].
  assert (length (Grid.validSlots progress [] class_mode "1" (Some "2"))
          = length (freeSlots [] class_mode "1")) as Hlen.
  { f_equal. apply Hfree. intros (p & Hp & _). vm_compute in Hp. discriminate. }
  vm_compute in Hlen. discriminate.
Qed.

Lemma flat_map_filter_prod {A B} (f : A * B → bool) (l1 : list A) (l2 : list B) :
  flat_map (λ a, flat_map (λ b, if f (a, b) then [] else [(a, b)]) l2) l1
  = List.filter (λ ab, negb (f ab)) (list_prod l1 l2).
Proof.
  induction l1 as [|a l1 IH]; simpl; [done|].
  rewrite List.filter_app, IH. f_equal.
  clear. induction l2 as [|b l2 IH]; simpl; [done|].
  destruct (f (a, b)); simpl; by rewrite IH.
Qed.

Lemma isOccupied_spec timetableEntries viewMode selectedEntity day period :
  Grid.isOccupied timetableEntries viewMode selectedEntity day period = true
  ↔ ∃ e, In e timetableEntries ∧ entryOf viewMode selectedEntity e
         ∧ te_day e = day ∧ te_period e = period.
Proof.
  unfold Grid.isOccupied, entryOf. rewrite existsb_exists.
  split; intros (e & Hin & He); exists e; (split; [done|]); destruct viewMode;
    rewrite ?andb_true_iff, ?String.eqb_eq, ?N.eqb_eq in *; tauto.
Qed.

Lemma freeSlots_spec timetableEntries viewMode selectedEntity day period :
  In (day, period) (freeSlots timetableEntries viewMode selectedEntity)
  ↔ In day Grid.DAYS ∧ In period Grid.PERIODS
    ∧ ¬ ∃ e, In e timetableEntries ∧ entryOf viewMode selectedEntity e
             ∧ te_day e = day ∧ te_period e = period.
Proof.
  unfold freeSlots. rewrite filter_In, in_prod_iff. simpl.
  rewrite negb_true_iff, <- not_true_iff_false, isOccupied_spec. tauto.
Qed.

Section progress_map.
Context {A : Type} (key : A → string) (val : A → Progress).

Lemma fold_insert_None l (m0 : gmap string Progress) k :
  fold_left (λ m x, <[key x := val x]> m) l m0 !! k = None
  ↔ m0 !! k = None ∧ ∀ x, In x l → key x ≠ k.
Proof.
  revert m0. induction l as [|x l IH]; intros m0; simpl.
  - split; [by intros ?|by intros [? _]].
  - rewrite IH. destruct (decide (key x = k)) as [<-|Hne].
    + rewrite lookup_insert_eq. split; [by intros [? _]|].
      intros [_ H]. exfalso. by apply (H x); [left|].
    + rewrite lookup_insert_ne by done. split.
      * intros [? H]. split; [done|]. intros y [<-|Hy]; [done|]. by apply H.
      * intros [? H]. split; [done|]. intros y Hy. apply H. by right.
Qed.

Lemma fold_insert_Some l (m0 : gmap string Progress) k p :
  fold_left (λ m x, <[key x := val x]> m) l m0 !! k = Some p →
  m0 !! k = Some p ∨ ∃ x, In x l ∧ key x = k ∧ p = val x.
Proof.
  revert m0. induction l as [|x l IH]; intros m0; simpl; [by left|].
  intros H. apply IH in H as [H|(y & Hy & Hk & ->)].
  - destruct (decide (key x = k)) as [<-|Hne].
    + rewrite lookup_insert_eq in H. injection H as <-. right. exists x. by split; [left|].
    + rewrite lookup_insert_ne in H by done. by left.
  - right. exists y. by split; [right|].
Qed.
End progress_map.

Lemma Math_round_ge_100 (scheduled : Q) (total : N) :
  (0 < total)%N → (inject_Z (Z.of_N total) <= scheduled)%Q →
  (100 ≤ Grid.percentageOf scheduled total)%Z.
Proof.
  intros Hpos Hle. unfold Grid.percentageOf.
  destruct (N.ltb_spec 0 total) as [_|?]; [|lia].
  unfold Math_round.
  assert (inject_Z 100 <= scheduled / inject_Z (Z.of_N total) * 100 + (1 # 2))%Q as H.
  { assert (0 < inject_Z (Z.of_N total))%Q as Hq.
    { change 0%Q with (inject_Z 0). rewrite <- Zlt_Qlt. lia. }
    assert (1 <= scheduled / inject_Z (Z.of_N total))%Q as H1.
    { apply Qle_shift_div_l; [done|]. by rewrite Qmult_1_l. }
    apply Qle_trans with (scheduled / inject_Z (Z.of_N total) * 100)%Q.
    - change (inject_Z 100) with (1 * 100)%Q at 1.
      apply Qmult_le_compat_r; [done|]. done.
    - rewrite <- (Qplus_0_r (scheduled / inject_Z (Z.of_N total) * 100)) at 1.
      apply Qplus_le_r. done. }
  apply Qfloor_resp_le in H. by rewrite Qfloor_Z in H.
Qed.

Lemma Modal_subjectProgress_eq reg allocations assignments timetableEntries viewMode
    selectedEntity :
  Modal.subjectProgress reg allocations assignments timetableEntries viewMode selectedEntity
  = Grid.subjectProgress reg allocations assignments timetableEntries Modal.PERIOD_DURATION
      viewMode selectedEntity.
Proof.
  unfold Modal.subjectProgress, Grid.subjectProgress, Grid.availableSubjects.
  by destruct (String.eqb selectedEntity "").
Qed.

(** C6, amended.  For a selected subject, the valid slots are empty when the
    subject has no progress record for the entity (its id is not the id of
    one of the entity's available subjects) and when its percentage is at
    least 100, which is the case whenever the scheduled hours reach a
    positive requirement, whatever the grid holds; otherwise they are
    exactly the cells of the day by period grid in which the entity has no
    entry. *)
Theorem validSlots_spec reg allocations assignments timetableEntries periodDuration
    viewMode selectedEntity selectedSubject :
  selectedSubject ≠ "" →
  let progress :=
    Grid.subjectProgress reg allocations assignments timetableEntries periodDuration
      viewMode selectedEntity in
  let valid :=
    Grid.validSlots progress timetableEntries viewMode selectedEntity (Some selectedSubject) in
  (progress !! selectedSubject = None
   ↔ ∀ subject, In subject (Grid.availableSubjects reg allocations viewMode selectedEntity) →
                sub_id subject ≠ selectedSubject)
  ∧ (progress !! selectedSubject = None → valid = [])
  ∧ ∀ p, progress !! selectedSubject = Some p →
      ((100 ≤ p_percentage p)%Z → valid = [])
      ∧ ((0 < p_total p)%N → (inject_Z (Z.of_N (p_total p)) <= p_scheduled p)%Q →
         (100 ≤ p_percentage p)%Z)
      ∧ ((p_percentage p < 100)%Z →
         valid = freeSlots timetableEntries viewMode selectedEntity
         ∧ ∀ day period,
             In (day, period) valid
             ↔ In day Grid.DAYS ∧ In period Grid.PERIODS
               ∧ ¬ ∃ e, In e timetableEntries ∧ entryOf viewMode selectedEntity e
                        ∧ te_day e = day ∧ te_period e = period).
Proof.
  intros Hsel progress valid. apply String.eqb_neq in Hsel.
  split; [|split].
  - unfold progress, Grid.subjectProgress, Grid.availableSubjects.
    destruct (String.eqb selectedEntity ""); [by rewrite lookup_empty|].
    rewrite (fold_insert_None sub_id), lookup_empty. split; [by intros [_ ?]|done].
  - intros Hnone. unfold valid, Grid.validSlots. by rewrite Hsel, Hnone.
  - intros p Hp. split; [|split].
    + intros Hfull. unfold valid, Grid.validSlots. rewrite Hsel, Hp.
      by destruct (Z.leb_spec 100 (p_percentage p)); [|lia].
    + assert (p_percentage p = Grid.percentageOf (p_scheduled p) (p_total p)) as ->.
      { unfold progress, Grid.subjectProgress in Hp.
        destruct (String.eqb selectedEntity ""); [by rewrite lookup_empty in Hp|].
        apply (fold_insert_Some sub_id) in Hp as [Hp|(x & _ & _ & ->)]; [|done].
        by rewrite lookup_empty in Hp. }
      apply Math_round_ge_100.
    + intros Hlt.
      assert (valid = freeSlots timetableEntries viewMode selectedEntity) as ->.
      { unfold valid, Grid.validSlots. rewrite Hsel, Hp.
        destruct (Z.leb_spec 100 (p_percentage p)); [lia|].
        apply (flat_map_filter_prod
                 (λ slot, Grid.isOccupied timetableEntries viewMode selectedEntity
                            slot.1 slot.2)). }
      split; [done|]. intros day period. apply freeSlots_spec.
Qed.

Lemma validSlots_spec_witness :
  "2" ≠ ""
  ∧ Grid.validSlots
      (Grid.subjectProgress Examples.school Examples.oneHourOfMaths [] [] 45
         class_mode "1")
      [] class_mode "1" (Some "2") = [].
Proof.
  split; [discriminate|].
  apply (validSlots_spec Examples.school Examples.oneHourOfMaths [] [] 45 class_mode
           "1" "2"); [discriminate | reflexivity].
Defined.
(* ================================================================== *)
(** * Slot clicks *)
(* ================================================================== *)

(** C7, as stated, fails.  In teacher mode a click succeeds, but the entry
    it adds carries the empty class id, which names no class: no class is
    resolved for the lesson. *)
Lemma handleSlotClick_not_as_stated :
  ∃ e conflicts,
    Grid.handleSlotClick Examples.school 45 ∅ [] Examples.mondayThird []
      1700000000000 teacher_mode "1" (Some "1") "Monday" 3
    = ClickAdded [e] conflicts
    ∧ te_teacherId e = "1" ∧ te_classId e = ""
    ∧ ¬ classCarriedAsWorded Examples.school e.
Proof.
  eexists _, _. split; [by vm_compute|]. split; [done|]. split; [done|].
  intros (c & Hin & Hid). simpl in Hin, Hid.
  destruct Hin as [<-|[<-|[]]]; discriminate.
Qed.

Section slot_click.
Context (reg : Grid.Registry) (periodDuration : N).
Context (assignments : list ClassSubjectTeacher) (timeSlots : list TimeSlot).
Context (timetableEntries : list TimetableEntry) (now : N).

Lemma activeBinding_test selectedEntity selectedSubject (a : ClassSubjectTeacher) :
  String.eqb (cst_classId a) selectedEntity && String.eqb (cst_subjectId a) selectedSubject
  && cst_isActive a = true
  ↔ activeBinding selectedEntity selectedSubject a.
Proof.
  unfold activeBinding. rewrite !andb_true_iff, !String.eqb_eq. tauto.
Qed.

Lemma resolveTeacher_resolvesTo viewMode selectedEntity selectedSubject :
  resolvesTo assignments viewMode selectedEntity selectedSubject
    (Grid.resolveTeacher assignments viewMode selectedEntity selectedSubject).
Proof.
  unfold resolvesTo, Grid.resolveTeacher. destruct viewMode; [|done].
  destruct (List.find _ assignments) as [a|] eqn:Hfind.
  - left. exists a. split; [|done].
    apply (find_firstSuch _ _ _ _ (activeBinding_test selectedEntity selectedSubject)).
    exact Hfind.
  - right. split; [|done]. intros a Hin Ha.
    apply (find_none _ _ Hfind) in Hin.
    apply activeBinding_test in Ha. simpl in Hin. congruence.
Qed.

Lemma resolvesTo_empty viewMode selectedEntity selectedSubject teacherId :
  selectedEntity ≠ "" →
  Forall (λ a, cst_teacherId a ≠ "") assignments →
  resolvesTo assignments viewMode selectedEntity selectedSubject teacherId →
  teacherId = ""
  ↔ ¬ teacherResolvable assignments viewMode selectedEntity selectedSubject.
Proof.
  intros Hent Hnamed. unfold resolvesTo, teacherResolvable.
  destruct viewMode.
  - intros [(a & Hfirst & ->)|[Hnone ->]].
    + apply firstSuch_In in Hfirst as [Hin Ha].
      rewrite Forall_forall in Hnamed.
      pose proof (Hnamed a (proj2 (list_elem_of_In _ _) Hin)) as Hne.
      split; [done|]. intros Hno. exfalso. apply Hno. by exists a.
    + split; [|done]. intros _ (a & Hin & Ha). by apply (Hnone a).
  - intros ->. split; [done|]. intros Hno. exfalso. by apply Hno.
Qed.

(** C7, amended.  With a subject and an entity selected, the teacher of
    the click is resolved: in class mode it is the teacher of the first
    active row of the class and subject, and none when the pair has no
    active row; in teacher mode it is the entity.  The grid refuses a
    fully scheduled subject first; otherwise, and in the modal always, the
    click fails for the missing teacher exactly when the resolved id is
    empty, which, when every row names a teacher, is exactly when the pair
    has no active row in class mode, and never in teacher mode.  With a
    teacher the click appends exactly one entry and recomputes the
    conflicts: the entry's id is the clock reading, fresh when the ids
    present are readings of an earlier clock; its class is the entity in
    class mode and empty in teacher mode; it carries the resolved teacher,
    the subject, the id of the first time slot matching the day and period
    (empty when there is none), the day and the period. *)
Theorem handleSlotClick_spec subjectProgress viewMode selectedEntity selectedSubject
    day period :
  selectedSubject ≠ "" → selectedEntity ≠ "" →
  let grid :=
    Grid.handleSlotClick reg periodDuration subjectProgress assignments timeSlots
      timetableEntries now viewMode selectedEntity (Some selectedSubject) day period in
  let modal :=
    Modal.handleSlotClick reg periodDuration assignments timeSlots
      timetableEntries now viewMode selectedEntity (Some selectedSubject) day period in
  let added e :=
    ClickAdded (timetableEntries ++ [e])
      (Grid.validateConstraints reg periodDuration (timetableEntries ++ [e])) in
  ∃ teacherId,
    resolvesTo assignments viewMode selectedEntity selectedSubject teacherId
    ∧ (fullyScheduled subjectProgress selectedSubject → grid = ClickFullyScheduled)
    ∧ (grid = ClickNoTeacher
       ↔ ¬ fullyScheduled subjectProgress selectedSubject ∧ teacherId = "")
    ∧ (modal = ClickNoTeacher ↔ teacherId = "")
    ∧ (Forall (λ a, cst_teacherId a ≠ "") assignments →
       (teacherId = ""
        ↔ ¬ teacherResolvable assignments viewMode selectedEntity selectedSubject))
    ∧ (teacherId ≠ "" →
       ∃ e,
         modal = added e
         ∧ (¬ fullyScheduled subjectProgress selectedSubject → grid = added e)
         ∧ te_id e = pretty now
         ∧ (Forall (λ old, ∃ t, te_id old = pretty t ∧ (t < now)%N) timetableEntries →
            Forall (λ old, te_id old ≠ te_id e) timetableEntries)
         ∧ te_classId e = match viewMode with
                          | class_mode => selectedEntity
                          | teacher_mode => ""
                          end
         ∧ te_teacherId e = teacherId
         ∧ te_subjectId e = selectedSubject
         ∧ te_roomId e = None
         ∧ te_timeSlotId e
           = match List.find (λ ts, String.eqb (ts_day ts) day
                                    && (ts_period ts =? period)%N) timeSlots with
             | Some ts => ts_id ts
             | None => ""
             end
         ∧ te_day e = day ∧ te_period e = period).
Proof.
  intros Hsub Hent grid modal added.
  set (teacherId := Grid.resolveTeacher assignments viewMode selectedEntity
                      selectedSubject).
  exists teacherId.
  pose proof (resolveTeacher_resolvesTo viewMode selectedEntity selectedSubject)
    as Hresolved. fold teacherId in Hresolved.
  pose proof Hent as Hentity.
  apply String.eqb_neq in Hsub, Hent.
  assert ((match subjectProgress !! selectedSubject with
           | Some progress => (100 <=? p_percentage progress)%Z
           | None => false
           end) = true ↔ fullyScheduled subjectProgress selectedSubject) as Hfull.
  { unfold fullyScheduled. destruct (subjectProgress !! selectedSubject) as [p|].
    - rewrite Z.leb_le. split; [by exists p|]. by intros (? & [= <-] & ?).
    - split; [done|]. by intros (? & [=] & _). }
  set (full := match subjectProgress !! selectedSubject with
               | Some progress => (100 <=? p_percentage progress)%Z
               | None => false
               end) in *.
  set (e := Grid.newEntry timeSlots now viewMode selectedEntity selectedSubject
              teacherId day period).
  assert (modal = if String.eqb teacherId "" then ClickNoTeacher else added e)
    as Hmodal.
  { unfold modal, Modal.handleSlotClick, Grid.selected, Grid.handleAddEntry.
    by rewrite Hsub, Hent. }
  assert (grid = if full then ClickFullyScheduled
                 else if String.eqb teacherId "" then ClickNoTeacher else added e)
    as Hgrid.
  { unfold grid, Grid.handleSlotClick, Grid.selected. by rewrite Hsub, Hent. }
  clearbody grid modal. subst grid modal.
  split; [done|]. split; [|split; [|split; [|split]]].
  - intros Hf. apply Hfull in Hf. by rewrite Hf.
  - destruct full.
    + split; [done|]. intros [Hnf _]. exfalso. by apply Hnf, Hfull.
    + assert (¬ fullyScheduled subjectProgress selectedSubject) as Hnf.
      { intros Hf. by apply Hfull in Hf. }
      destruct (String.eqb_spec teacherId "") as [Ht|Ht]; [done|].
      split; [done|]. by intros [_ ?].
  - by destruct (String.eqb_spec teacherId "").
  - intros Hnamed. by apply resolvesTo_empty.
  - intros Ht. apply String.eqb_neq in Ht. rewrite Ht. exists e.
    split; [done|]. split.
    { intros Hnf. destruct full; [|done]. exfalso. by apply Hnf, Hfull. }
    split; [done|]. split; [|done].
    intros Hearlier. eapply Forall_impl; [exact Hearlier|].
    intros old (t & Hid & Hlt) Heq. simpl in Heq. rewrite Hid in Heq.
    apply (inj pretty) in Heq. lia.
Qed.
End slot_click.

Lemma handleSlotClick_spec_witness :
  ∃ teacherId,
    resolvesTo [TeacherAssignments.mkRow "1" "1" "1" "1"] class_mode "1" "1" teacherId
    ∧ (Grid.handleSlotClick Examples.school 45 ∅
         [TeacherAssignments.mkRow "1" "1" "1" "1"] Examples.mondayThird
         Examples.twoMathsLessons 1700000000000 class_mode "1" (Some "1") "Monday" 3
       = ClickNoTeacher
       ↔ ¬ fullyScheduled ∅ "1" ∧ teacherId = "").
Proof.
  destruct (handleSlotClick_spec Examples.school 45
              [TeacherAssignments.mkRow "1" "1" "1" "1"] Examples.mondayThird
              Examples.twoMathsLessons 1700000000000 ∅ class_mode "1" "1" "Monday" 3)
    as (teacherId & Hresolved & _ & Hfail & _); [discriminate|discriminate|].
  exists teacherId. split; [exact Hresolved|exact Hfail].
Defined.

(* ================================================================== *)
(** * Teaching assignments *)
(* ================================================================== *)

(** C9, as stated, fails.  Giving mathematics in class 1 to teacher 2
    overwrites the teacher of row 1 in place: the table keeps its eight
    rows, all active, and no row remembers teacher 1 for that pair. *)
Lemma addAssignment_overwrites :
  map (λ a, (cst_id a, cst_classId a, cst_subjectId a, cst_teacherId a, cst_isActive a))
    (TeacherAssignments.addAssignment 1700000000000 "2024-06-01T00:00:00.000Z"
       "1" "1" "2" TeacherAssignments.defaultClassSubjectTeachers).1
  = [ ("1", "1", "1", "2", true); ("2", "1", "2", "2", true);
      ("3", "1", "3", "1", true); ("4", "1", "4", "3", true);
      ("5", "1", "5", "5", true); ("6", "2", "1", "1", true);
      ("7", "2", "2", "2", true); ("8", "2", "8", "4", true) ]
  ∧ ¬ reassignedAsWorded
        (TeacherAssignments.addAssignment 1700000000000 "2024-06-01T00:00:00.000Z"
           "1" "1" "2" TeacherAssignments.defaultClassSubjectTeachers).1
        "1" "1" "1" "2".
Proof.
  split; [by vm_compute|].
  intros [(old & Hin & _ & _ & _ & Hinactive) _].
  assert (Forall (λ a, cst_isActive a = true)
            (TeacherAssignments.addAssignment 1700000000000 "2024-06-01T00:00:00.000Z"
               "1" "1" "2" TeacherAssignments.defaultClassSubjectTeachers).1) as Hall.
  { vm_compute. repeat constructor. }
  rewrite Forall_forall in Hall. apply list_elem_of_In, Hall in Hin. congruence.
Qed.

Section teaching_assignments.
Import TeacherAssignments.

Lemma activeRows_map_same g c s l :
  (∀ a, cst_classId (g a) = cst_classId a ∧ cst_subjectId (g a) = cst_subjectId a
        ∧ cst_isActive (g a) = cst_isActive a) →
  activeRows c s (map g l) = map g (activeRows c s l).
Proof.
  intros Hg. unfold activeRows. induction l as [|a l IH]; simpl; [done|].
  destruct (Hg a) as (-> & -> & ->). rewrite IH. by case_match.
Qed.

Lemma activeRows_map_le g c s l :
  (∀ a, cst_classId (g a) = cst_classId a ∧ cst_subjectId (g a) = cst_subjectId a
        ∧ (cst_isActive (g a) = true → cst_isActive a = true)) →
  length (activeRows c s (map g l)) ≤ length (activeRows c s l).
Proof.
  intros Hg. unfold activeRows. induction l as [|a l IH]; simpl; [done|].
  destruct (Hg a) as (-> & -> & Hact).
  destruct (cst_isActive (g a)) eqn:Hga.
  - rewrite (Hact eq_refl). case_match; simpl; lia.
  - rewrite andb_false_r. case_match; simpl; lia.
Qed.

Lemma find_active_None c s l :
  List.find (λ a, String.eqb (cst_classId a) c && String.eqb (cst_subjectId a) s
                  && cst_isActive a) l = None →
  activeRows c s l = [].
Proof.
  intros Hfind. unfold activeRows.
  induction l as [|a l IH]; simpl in *; [done|].
  destruct (_ && _ && cst_isActive a); [done|]. by apply IH.
Qed.

Lemma addAssignment_invariant nowMs nowIso c s t l :
  atMostOneActive l → atMostOneActive (addAssignment nowMs nowIso c s t l).1.
Proof.
  intros Hinv c' s'. unfold addAssignment.
  destruct (_ || _ || _); [apply Hinv|].
  destruct (List.find _ l) as [existing|] eqn:Hfind; simpl.
  - rewrite activeRows_map_same, length_map; [apply Hinv|].
    intros a. by case_match.
  - unfold activeRows. rewrite List.filter_app, length_app. simpl.
    destruct (String.eqb_spec c c') as [<-|Hc]; simpl;
      [|specialize (Hinv c' s'); unfold activeRows in Hinv; lia].
    destruct (String.eqb_spec s s') as [<-|Hs]; simpl;
      [|specialize (Hinv c s'); unfold activeRows in Hinv; lia].
    apply find_active_None in Hfind. unfold activeRows in Hfind.
    rewrite Hfind. simpl. lia.
Qed.

Lemma removeAssignment_invariant nowIso id l :
  atMostOneActive l → atMostOneActive (removeAssignment nowIso id l).
Proof.
  intros Hinv c s. unfold removeAssignment.
  etrans; [apply activeRows_map_le|apply Hinv].
  intros a. by case_match.
Qed.

Lemma run_invariant ops l : atMostOneActive l → atMostOneActive (run ops l).
Proof.
  revert l. induction ops as [|op ops IH]; intros l Hinv; simpl; [done|].
  apply IH. destruct op; simpl.
  - by apply addAssignment_invariant.
  - by apply removeAssignment_invariant.
Qed.

Lemma atMostOneActive_NoDup l :
  NoDup (map (λ a, (cst_classId a, cst_subjectId a)) (List.filter cst_isActive l)) →
  atMostOneActive l.
Proof.
  intros Hnd c s. unfold activeRows.
  induction l as [|a l IH]; simpl in *; [lia|].
  destruct (cst_isActive a) eqn:Hact; simpl in Hnd.
  - apply NoDup_cons in Hnd as [Hnotin Hnd]. specialize (IH Hnd).
    rewrite andb_true_r.
    destruct (String.eqb_spec (cst_classId a) c) as [Hc|Hc]; simpl; [|done].
    destruct (String.eqb_spec (cst_subjectId a) s) as [Hs|Hs]; simpl; [|done].
    remember (List.filter
                (λ a, String.eqb (cst_classId a) c
                      && String.eqb (cst_subjectId a) s && cst_isActive a) l)
      as rows eqn:Hrows.
    destruct rows as [|b rest]; simpl; [lia|].
    exfalso. apply Hnotin.
    assert (In b (List.filter
                    (λ a, String.eqb (cst_classId a) c
                          && String.eqb (cst_subjectId a) s && cst_isActive a) l))
      as Hb by (rewrite <- Hrows; by left).
    apply filter_In in Hb as [Hbin Hb].
    rewrite !andb_true_iff, !String.eqb_eq in Hb. destruct Hb as [[Hbc Hbs] Hba].
    apply list_elem_of_In, in_map_iff. exists b. split; [congruence|].
    apply filter_In. done.
  - rewrite andb_false_r. by apply IH.
Qed.

Lemma default_invariant : atMostOneActive defaultClassSubjectTeachers.
Proof.
  apply atMostOneActive_NoDup. apply (bool_decide_unpack _). vm_compute. exact I.
Qed.

(** C9, amended.  Every sequence of additions and removals keeps at most
    one active row per (class, subject), from the initial table and from
    any table that has the property.  A removal deletes nothing: it keeps
    every row in place, and the rows of the given id become inactive, with
    a new update time and nothing else changed.  An addition for a pair
    that has an active row reports an update and neither adds nor
    deactivates a row: the rows that share the id of the pair's first
    active row, that row among them, get the new teacher and a new update
    time, in place, and every other row is unchanged; with distinct ids
    the pair's row is the only one rewritten.  The former teacher is kept
    nowhere.  An addition for a pair without an active row appends one new
    active row. *)
Theorem assignments_table ops assignments :
  atMostOneActive assignments →
  atMostOneActive (run ops assignments)
  ∧ atMostOneActive (run ops defaultClassSubjectTeachers)
  ∧ (∀ nowIso id,
       let after := removeAssignment nowIso id assignments in
       length after = length assignments
       ∧ ∀ i a, assignments !! i = Some a →
           ∃ a', after !! i = Some a'
                 ∧ if decide (cst_id a = id) then deactivated nowIso a a' else a' = a)
  ∧ (∀ nowMs nowIso c s t existing,
       c ≠ "" → s ≠ "" → t ≠ "" →
       firstSuch (activeBinding c s) assignments existing →
       let result := addAssignment nowMs nowIso c s t assignments in
       result.2 = toast_success "Assignment updated successfully"
       ∧ length result.1 = length assignments
       ∧ (∀ i a, assignments !! i = Some a →
            ∃ a', result.1 !! i = Some a'
                  ∧ if decide (cst_id a = cst_id existing)
                    then reassigned t nowIso a a' else a' = a)
       ∧ (NoDup (map cst_id assignments) →
          ∀ i a, assignments !! i = Some a → a ≠ existing → result.1 !! i = Some a)
       ∧ ∃ i a', assignments !! i = Some existing ∧ result.1 !! i = Some a'
                 ∧ reassigned t nowIso existing a')
  ∧ ∀ nowMs nowIso c s t,
      c ≠ "" → s ≠ "" → t ≠ "" →
      noActiveBinding assignments c s →
      addAssignment nowMs nowIso c s t assignments
      = (assignments
         ++ [ {| cst_id := pretty nowMs; cst_classId := c; cst_subjectId := s;
                 cst_teacherId := t; cst_isActive := true;
                 cst_createdAt := nowIso; cst_updatedAt := nowIso |} ],
         toast_success "Assignment added successfully").
Proof.
  intros Hinv.
  split; [by apply run_invariant|].
  split; [apply run_invariant, default_invariant|].
  assert (∀ c s a,
            String.eqb (cst_classId a) c && String.eqb (cst_subjectId a) s
            && cst_isActive a = true ↔ activeBinding c s a) as Htest.
  { intros c s a. unfold activeBinding. rewrite !andb_true_iff, !String.eqb_eq. tauto. }
  split; [|split].
  - intros nowIso id after. unfold after, removeAssignment. split.
    + apply length_map.
    + intros i a Hi. rewrite list_lookup_fmap, Hi. simpl.
      eexists. split; [done|].
      destruct (String.eqb_spec (cst_id a) id) as [Heq|Hne].
      * rewrite decide_True by done. by repeat split.
      * by rewrite decide_False.
  - intros nowMs nowIso c s t existing Hc Hs Ht Hfirst result.
    pose proof Hfirst as Hfind.
    apply (find_firstSuch _ _ _ _ (Htest c s)) in Hfind.
    assert (result
            = (map (λ a, if String.eqb (cst_id a) (cst_id existing)
                         then {| cst_id := cst_id a; cst_classId := cst_classId a;
                                 cst_subjectId := cst_subjectId a;
                                 cst_teacherId := t;
                                 cst_isActive := cst_isActive a;
                                 cst_createdAt := cst_createdAt a;
                                 cst_updatedAt := nowIso |}
                         else a) assignments,
               toast_success "Assignment updated successfully")) as ->.
    { unfold result, addAssignment.
      apply String.eqb_neq in Hc, Hs, Ht. rewrite Hc, Hs, Ht. simpl.
      by rewrite Hfind. }
    cbn [fst snd].
    assert (∀ i a, assignments !! i = Some a →
              ∃ a', map (λ a, if String.eqb (cst_id a) (cst_id existing)
                              then {| cst_id := cst_id a; cst_classId := cst_classId a;
                                      cst_subjectId := cst_subjectId a;
                                      cst_teacherId := t;
                                      cst_isActive := cst_isActive a;
                                      cst_createdAt := cst_createdAt a;
                                      cst_updatedAt := nowIso |}
                              else a) assignments !! i = Some a'
                    ∧ if decide (cst_id a = cst_id existing)
                      then reassigned t nowIso a a' else a' = a) as Hrows.
    { intros i a Hi. rewrite list_lookup_fmap, Hi. simpl.
      eexists. split; [done|].
      destruct (String.eqb_spec (cst_id a) (cst_id existing)) as [Heq|Hne].
      * rewrite decide_True by done. by repeat split.
      * by rewrite decide_False. }
    split; [done|]. split; [apply length_map|]. split; [exact Hrows|]. split.
    + intros Hnd i a Hi Hne.
      destruct (Hrows i a Hi) as (a' & Ha' & Hcase). rewrite Ha'.
      destruct (decide (cst_id a = cst_id existing)) as [Heq|_]; [|by subst].
      exfalso. apply Hne.
      apply firstSuch_In in Hfirst as [Hin _].
      apply list_elem_of_In, list_elem_of_lookup in Hin as [j Hj].
      assert (i = j) as ->; [|congruence].
      eapply (NoDup_lookup _ i j (cst_id a) Hnd).
      * change (map cst_id assignments) with (cst_id <$> assignments).
        by rewrite list_lookup_fmap, Hi.
      * change (map cst_id assignments) with (cst_id <$> assignments).
        by rewrite list_lookup_fmap, Hj, Heq.
    + apply firstSuch_In in Hfirst as [Hin _].
      apply list_elem_of_In, list_elem_of_lookup in Hin as [i Hi].
      destruct (Hrows i existing Hi) as (a' & Ha' & Hcase).
      rewrite decide_True in Hcase by done. by exists i, a'.
  - intros nowMs nowIso c s t Hc Hs Ht Hnone. unfold addAssignment.
    apply String.eqb_neq in Hc, Hs, Ht. rewrite Hc, Hs, Ht. simpl.
    destruct (List.find _ assignments) as [found|] eqn:Hfind; [|done].
    exfalso. apply find_some in Hfind as [Hin Hf].
    apply (Htest c s) in Hf. by apply (Hnone found).
Qed.
End teaching_assignments.

Lemma assignments_table_witness :
  atMostOneActive
    (TeacherAssignments.run
       [ TeacherAssignments.op_add 1700000000000 "2024-06-01T00:00:00.000Z" "1" "1" "2";
         TeacherAssignments.op_remove "2024-06-02T00:00:00.000Z" "1" ]
       [ TeacherAssignments.mkRow "1" "1" "1" "1" ]).
Proof.
  apply (assignments_table
           [ TeacherAssignments.op_add 1700000000000 "2024-06-01T00:00:00.000Z" "1" "1" "2";
             TeacherAssignments.op_remove "2024-06-02T00:00:00.000Z" "1" ]
           [ TeacherAssignments.mkRow "1" "1" "1" "1" ]).
  apply atMostOneActive_NoDup. apply (bool_decide_unpack _). vm_compute. exact I.
Defined.

(* ================================================================== *)
(** * Constraint validation: room clashes and the publish gate *)
(* ================================================================== *)

Lemma atRoomSlot_spec r d p e :
  atRoomSlot r d p e = true ↔ roomOf e = Some r ∧ te_day e = d ∧ te_period e = p.
Proof.
  unfold atRoomSlot. destruct (roomOf e) as [r'|]; [|by split; [|intros [? _]]].
  rewrite !andb_true_iff, !String.eqb_eq, N.eqb_eq.
  split.
  - intros [[-> Hd] Hp]. done.
  - intros ([= ->] & Hd & Hp). done.
Qed.

Section room_clash.
Context (reg : Grid.Registry).

Lemma roomSlotsRecord_seen m seen e r :
  roomSlotsRecord m seen →
  Grid.slotKey (te_day e) (te_period e) ∈ default ∅ (m !! r)
  ↔ existsb (atRoomSlot r (te_day e) (te_period e)) seen = true.
Proof.
  intros Hrec. rewrite (Hrec _ _), existsb_exists. split.
  - intros (e' & Hin & Hr & Hk). exists e'. split; [done|].
    apply slotKey_inj in Hk as [Hd Hp]. by apply atRoomSlot_spec.
  - intros (e' & Hin & Hat). apply atRoomSlot_spec in Hat as (Hr & Hd & Hp).
    exists e'. by rewrite Hd, Hp.
Qed.

Lemma roomClashStep_spec m acc seen e :
  roomSlotsRecord m seen →
  roomSlotsRecord (Grid.roomClashStep reg (m, acc) e).1 (seen ++ [e])
  ∧ (Grid.roomClashStep reg (m, acc) e).2
    = acc ++ map (roomClashConflict reg)
               match roomOf e with
               | Some r =>
                   if existsb (atRoomSlot r (te_day e) (te_period e)) seen
                   then [e] else []
               | None => []
               end.
Proof.
  intros Hrec.
  assert (roomOf e = None → roomSlotsRecord m (seen ++ [e])) as Hskip.
  { intros Hnone r k. rewrite (Hrec _ _). split.
    - intros (e' & Hin & ?). exists e'. rewrite in_app_iff. auto.
    - intros (e' & Hin & Hr & Hk). apply in_app_iff in Hin as [Hin|[<-|[]]].
      + by exists e'.
      + congruence. }
  unfold Grid.roomClashStep, roomOf in *.
  destruct (te_roomId e) as [room|] eqn:Hroom; simpl;
    [|split; [by apply Hskip|by rewrite app_nil_r]].
  destruct (String.eqb_spec room "") as [->|Hne]; simpl;
    [split; [by apply Hskip|by rewrite app_nil_r]|].
  set (m' := match m !! room with
             | Some _ => m
             | None => <[room:=∅]> m
             end).
  assert (∀ r', default ∅ (m' !! r') = default ∅ (m !! r')) as Hm'.
  { intros r'. unfold m'. destruct (m !! room) eqn:Hl; [done|].
    destruct (decide (room = r')) as [<-|Hr].
    - by rewrite lookup_insert_eq, Hl.
    - by rewrite lookup_insert_ne. }
  assert (roomOf e = Some room) as Hof.
  { unfold roomOf. rewrite Hroom. apply String.eqb_neq in Hne. by rewrite Hne. }
  split.
  - intros r k. destruct (decide (room = r)) as [<-|Hr].
    + rewrite lookup_insert_eq. simpl. rewrite elem_of_union, elem_of_singleton, Hm'.
      rewrite (Hrec _ _). split.
      * intros [(e' & Hin & Ht & Hk)| ->].
        -- exists e'. rewrite in_app_iff. auto.
        -- exists e. rewrite in_app_iff. simpl. auto.
      * intros (e' & Hin & Ht & Hk). apply in_app_iff in Hin as [Hin|[<-|[]]].
        -- left. by exists e'.
        -- by right.
    + rewrite lookup_insert_ne by done. rewrite Hm', (Hrec _ _). split.
      * intros (e' & Hin & Ht & Hk). exists e'. rewrite in_app_iff. auto.
      * intros (e' & Hin & Ht & Hk). apply in_app_iff in Hin as [Hin|[<-|[]]].
        -- by exists e'.
        -- congruence.
  - rewrite Hm'. pose proof (roomSlotsRecord_seen m seen e room Hrec) as Hseen.
    destruct (existsb _ seen).
    + rewrite bool_decide_eq_true_2 by (by apply Hseen). simpl.
      unfold roomClashConflict. by rewrite Hroom.
    + rewrite bool_decide_eq_false_2; [by rewrite app_nil_r|].
      intros Hin. apply Hseen in Hin. done.
Qed.

Lemma roomClash_fold entries m acc seen :
  roomSlotsRecord m seen →
  (fold_left (Grid.roomClashStep reg) entries (m, acc)).2
  = acc ++ map (roomClashConflict reg) (roomRepeats seen entries).
Proof.
  revert m acc seen.
  induction entries as [|e entries IH]; intros m acc seen Hrec; simpl.
  { by rewrite app_nil_r. }
  destruct (roomClashStep_spec m acc seen e Hrec) as [Hrec' Hacc].
  destruct (Grid.roomClashStep reg (m, acc) e) as [m' acc'] eqn:Hstep.
  simpl in *. rewrite (IH m' acc' (seen ++ [e]) Hrec'), Hacc.
  by rewrite map_app, app_assoc.
Qed.

Lemma roomClashConflicts_repeats entries :
  Grid.roomClashConflicts reg entries
  = map (roomClashConflict reg) (roomRepeats [] entries).
Proof.
  unfold Grid.roomClashConflicts.
  rewrite (roomClash_fold entries ∅ [] []); [done|].
  intros r k. rewrite lookup_empty. simpl. split; [by intros ?%not_elem_of_empty|].
  intros (e & [] & _).
Qed.
End room_clash.

Lemma roomRepeats_sublist seen entries : sublist (roomRepeats seen entries) entries.
Proof.
  revert seen. induction entries as [|e entries IH]; intros seen; simpl; [done|].
  destruct (roomOf e); [destruct (existsb _ seen)|]; simpl.
  - by apply sublist_skip.
  - by apply sublist_cons.
  - by apply sublist_cons.
Qed.

Lemma roomRepeats_atRoomSlot r d p seen entries :
  List.filter (atRoomSlot r d p) (roomRepeats seen entries)
  = if existsb (atRoomSlot r d p) seen
    then List.filter (atRoomSlot r d p) entries
    else tail (List.filter (atRoomSlot r d p) entries).
Proof.
  revert seen. induction entries as [|e entries IH]; intros seen; simpl.
  { by destruct (existsb _ seen). }
  rewrite List.filter_app, IH, existsb_app. simpl. rewrite orb_false_r.
  destruct (atRoomSlot r d p e) eqn:He.
  - apply atRoomSlot_spec in He as (Hr & <- & <-). rewrite Hr.
    assert (atRoomSlot r (te_day e) (te_period e) e = true) as Hself
        by (by apply atRoomSlot_spec).
    destruct (existsb _ seen); simpl; [|done]. by rewrite Hself.
  - rewrite orb_false_r.
    assert (List.filter (atRoomSlot r d p)
              match roomOf e with
              | Some r0 =>
                  if existsb (atRoomSlot r0 (te_day e) (te_period e)) seen
                  then [e] else []
              | None => []
              end = []) as ->; [|done].
    destruct (roomOf e); [destruct (existsb _ seen)|]; simpl; [|done|done].
    by rewrite He.
Qed.

Lemma roomRepeats_roomOf seen entries e :
  In e (roomRepeats seen entries) → ∃ r, te_roomId e = Some r ∧ r ≠ "".
Proof.
  revert seen. induction entries as [|e' l IH]; intros seen He; simpl in He; [done|].
  apply in_app_iff in He as [He|He]; [|by eapply IH].
  unfold roomOf in He. destruct (te_roomId e') as [r|] eqn:Hr; [|done].
  destruct (String.eqb_spec r "") as [|Hne]; [done|].
  destruct (existsb _ seen); [|done]. destruct He as [<-|[]]. by exists r.
Qed.

Lemma roomClashes_of_validate reg pd entries :
  List.filter isRoomClash (Grid.validateConstraints reg pd entries)
  = map (roomClashConflict reg) (roomRepeats [] entries).
Proof.
  unfold Grid.validateConstraints. rewrite !List.filter_app.
  rewrite (filter_type_other _ (Grid.doubleBookingConflicts _ _)),
          (filter_type_other _ (Grid.overloadConflicts _ _ _)).
  - simpl. rewrite roomClashConflicts_repeats.
    generalize (roomRepeats [] entries). intros l.
    induction l as [|e l IH]; simpl; [done|]. by rewrite IH.
  - eapply Forall_impl; [apply overloadConflicts_type|].
    intros c Hc. unfold isRoomClash. by rewrite Hc.
  - rewrite doubleBookingConflicts_repeats. apply Forall_forall.
    intros c Hc. apply list_elem_of_fmap in Hc as (e & -> & _). done.
Qed.

(** X1.  The room-clash conflicts of [validateConstraints] are, in order,
    one error per entry that has a room and repeats a (room, day, period)
    already met, each listing just that entry's id; for every room the
    repeating entries of a slot are its entries after the first; an entry
    without a room, or with an empty room id, never causes one. *)
Theorem validateConstraints_room_clash reg periodDuration entries :
  let offenders := roomRepeats [] entries in
  List.filter isRoomClash (Grid.validateConstraints reg periodDuration entries)
  = map (roomClashConflict reg) offenders
  ∧ sublist offenders entries
  ∧ (∀ e, In e offenders → ∃ r, te_roomId e = Some r ∧ r ≠ "")
  ∧ (∀ roomId day period,
       List.filter (atRoomSlot roomId day period) offenders
       = tail (List.filter (atRoomSlot roomId day period) entries))
  ∧ ∀ e, c_type (roomClashConflict reg e) = room_clash
         ∧ c_severity (roomClashConflict reg e) = sev_error
         ∧ c_affectedEntries (roomClashConflict reg e) = [te_id e].
Proof.
  intros offenders.
  split; [apply roomClashes_of_validate|].
  split; [apply roomRepeats_sublist|].
  split; [|split; [|done]].
  - intros e He. by eapply roomRepeats_roomOf.
  - intros r d p. unfold offenders. by rewrite (roomRepeats_atRoomSlot r d p [] entries).
Qed.

Lemma repeats_nil_iff entries :
  repeats [] entries = []
  ↔ ∀ t d p, length (List.filter (atSlot t d p) entries) ≤ 1.
Proof.
  split.
  - intros Hnil t d p. pose proof (repeats_atSlot t d p [] entries) as H.
    rewrite Hnil in H. simpl in H.
    destruct (List.filter (atSlot t d p) entries) as [|? [|]]; simpl in *; done || lia.
  - intros Hle. destruct (repeats [] entries) as [|e l] eqn:Hrep; [done|].
    exfalso.
    pose proof (repeats_atSlot (te_teacherId e) (te_day e) (te_period e) [] entries) as H.
    rewrite Hrep in H. simpl in H. rewrite atSlot_self in H.
    specialize (Hle (te_teacherId e) (te_day e) (te_period e)).
    destruct (List.filter _ entries) as [|? [|]]; simpl in *; done || lia.
Qed.

Lemma roomRepeats_nil_iff entries :
  roomRepeats [] entries = []
  ↔ ∀ r d p, length (List.filter (atRoomSlot r d p) entries) ≤ 1.
Proof.
  split.
  - intros Hnil r d p. pose proof (roomRepeats_atRoomSlot r d p [] entries) as H.
    rewrite Hnil in H. simpl in H.
    destruct (List.filter (atRoomSlot r d p) entries) as [|? [|]]; simpl in *; done || lia.
  - intros Hle. destruct (roomRepeats [] entries) as [|e l] eqn:Hrep; [done|].
    exfalso.
    assert (In e (roomRepeats [] entries)) as Hin by (rewrite Hrep; by left).
    apply roomRepeats_roomOf in Hin as (r & Hr & Hne).
    assert (atRoomSlot r (te_day e) (te_period e) e = true) as Hself.
    { apply atRoomSlot_spec. unfold roomOf. rewrite Hr.
      apply String.eqb_neq in Hne. by rewrite Hne. }
    pose proof (roomRepeats_atRoomSlot r (te_day e) (te_period e) [] entries) as H.
    rewrite Hrep in H. simpl in H. rewrite Hself in H.
    specialize (Hle r (te_day e) (te_period e)).
    destruct (List.filter _ entries) as [|? [|]]; simpl in *; done || lia.
Qed.

Lemma publishDisabled_app l1 l2 :
  publishDisabled (l1 ++ l2) = publishDisabled l1 || publishDisabled l2.
Proof. apply existsb_app. Qed.

Lemma publishDisabled_errors (f : TimetableEntry → Conflict) l :
  (∀ e, c_severity (f e) = sev_error) →
  publishDisabled (map f l) = false ↔ l = [].
Proof.
  intros Hf. destruct l as [|e l]; simpl; [done|].
  unfold publishDisabled. simpl. by rewrite Hf.
Qed.

Lemma publishDisabled_overload reg pd entries :
  publishDisabled (Grid.overloadConflicts reg pd entries) = false.
Proof.
  unfold Grid.overloadConflicts, publishDisabled.
  apply not_true_iff_false. rewrite existsb_exists.
  intros (c & Hc & Hsev). apply in_flat_map in Hc as (kv & _ & Hc).
  unfold Grid.overloadFor in Hc. repeat case_match; simpl in Hc; try done.
  destruct Hc as [<-|[]]. done.
Qed.

Lemma publishDisabled_validate reg pd entries :
  publishDisabled (Grid.validateConstraints reg pd entries) = false
  ↔ repeats [] entries = [] ∧ roomRepeats [] entries = [].
Proof.
  unfold Grid.validateConstraints.
  rewrite !publishDisabled_app, publishDisabled_overload, orb_false_l, orb_false_iff.
  rewrite doubleBookingConflicts_repeats, roomClashConflicts_repeats.
  by rewrite !publishDisabled_errors.
Qed.

(** X2.  The Publish button is enabled exactly when no teacher has two
    entries in one slot and no room has two entries in one slot: overload
    warnings never disable it. *)
Theorem publish_gate reg periodDuration entries :
  publishDisabled (Grid.validateConstraints reg periodDuration entries) = false
  ↔ (∀ teacherId day period,
       length (List.filter (atSlot teacherId day period) entries) ≤ 1)
    ∧ (∀ roomId day period,
         length (List.filter (atRoomSlot roomId day period) entries) ≤ 1).
Proof.
  by rewrite publishDisabled_validate, repeats_nil_iff, roomRepeats_nil_iff.
Qed.

Lemma filter_removeEntry_length (f : TimetableEntry → bool) entries entryId :
  length (List.filter f (Grid.removeEntry entries entryId))
  ≤ length (List.filter f entries).
Proof.
  unfold Grid.removeEntry. induction entries as [|e l IH]; simpl; [done|].
  destruct (negb _); simpl; destruct (f e); simpl; lia.
Qed.

(** X3.  Removing an entry never disables publishing: if the entries raise
    no error, the entries left by [removeEntry] raise none. *)
Theorem removeEntry_keeps_publishable reg periodDuration entries entryId :
  publishDisabled (Grid.validateConstraints reg periodDuration entries) = false →
  publishDisabled (handleRemoveEntry reg periodDuration entries entryId).2 = false.
Proof.
  unfold handleRemoveEntry. simpl.
  rewrite !publishDisabled_validate, !repeats_nil_iff, !roomRepeats_nil_iff.
  intros [Ht Hr]. split; intros a d p.
  - etrans; [apply filter_removeEntry_length|apply Ht].
  - etrans; [apply filter_removeEntry_length|apply Hr].
Qed.

Lemma removeEntry_keeps_publishable_witness :
  publishDisabled (handleRemoveEntry Examples.school 45 Examples.twoMathsLessons "m1").2
  = false.
Proof.
  apply (removeEntry_keeps_publishable Examples.school 45 Examples.twoMathsLessons "m1").
  vm_compute. reflexivity.
Defined.

Lemma removeEntry_snoc entries e :
  Forall (λ old, te_id old ≠ te_id e) entries →
  Grid.removeEntry (entries ++ [e]) (te_id e) = entries.
Proof.
  intros Hfresh. unfold Grid.removeEntry. rewrite List.filter_app. simpl.
  rewrite String.eqb_refl. simpl. rewrite app_nil_r.
  induction Hfresh as [|old l Hold _ IH]; simpl; [done|].
  apply String.eqb_neq in Hold. rewrite Hold. simpl. by rewrite IH.
Qed.

(** X4.  Adding then removing is a round trip: when the ids present are
    readings of an earlier clock, removing the entry that a click has just
    added restores the entries and the conflicts of before the click. *)
Theorem click_then_remove reg periodDuration subjectProgress assignments timeSlots
    timetableEntries now viewMode selectedEntity selectedSubject day period
    updatedEntries conflicts :
  Forall (λ old, ∃ t, te_id old = pretty t ∧ (t < now)%N) timetableEntries →
  Grid.handleSlotClick reg periodDuration subjectProgress assignments timeSlots
    timetableEntries now viewMode selectedEntity selectedSubject day period
  = ClickAdded updatedEntries conflicts →
  handleRemoveEntry reg periodDuration updatedEntries (pretty now)
  = (timetableEntries, Grid.validateConstraints reg periodDuration timetableEntries).
Proof.
  intros Hearlier Hclick. unfold Grid.handleSlotClick in Hclick.
  assert (∀ e, te_id e = pretty now →
            handleRemoveEntry reg periodDuration (timetableEntries ++ [e]) (pretty now)
            = (timetableEntries,
               Grid.validateConstraints reg periodDuration timetableEntries)) as Hremove.
  { intros e He. unfold handleRemoveEntry. rewrite <- He.
    rewrite removeEntry_snoc; [done|].
    eapply Forall_impl; [exact Hearlier|].
    intros old (t & Hid & Hlt) Heq. rewrite Hid, He in Heq.
    apply (inj pretty) in Heq. lia. }
  repeat case_match; try discriminate.
  all: injection Hclick as <- _; by apply Hremove.
Qed.

Lemma click_then_remove_witness :
  ∃ updatedEntries conflicts,
    Grid.handleSlotClick Examples.school 45 ∅ [] Examples.mondayThird []
      1700000000000 teacher_mode "1" (Some "1") "Monday" 3
    = ClickAdded updatedEntries conflicts
    ∧ handleRemoveEntry Examples.school 45 updatedEntries (pretty 1700000000000%N)
      = ([], Grid.validateConstraints Examples.school 45 []).
Proof.
  eexists _, _. split; [reflexivity|].
  eapply (click_then_remove Examples.school 45 ∅ [] Examples.mondayThird []
            1700000000000 teacher_mode "1" (Some "1") "Monday" 3);
    [constructor | reflexivity].
Defined.

(* ================================================================== *)
(** * Progress, grid cells and display helpers *)
(* ================================================================== *)

Section progress.
Context (reg : Grid.Registry) (allocations : list GradeSubjectAllocation).
Context (assignments : list ClassSubjectTeacher) (periodDuration : N).
Context (viewMode : ViewMode) (selectedEntity : string).

Lemma progressOf_same_id entries x y :
  sub_id x = sub_id y →
  Grid.progressOf reg allocations assignments entries periodDuration viewMode
    selectedEntity x
  = Grid.progressOf reg allocations assignments entries periodDuration viewMode
      selectedEntity y.
Proof.
  intros Hid. unfold Grid.progressOf, Grid.totalHours, Grid.scheduledEntries.
  by rewrite Hid.
Qed.

Lemma subjectProgress_lookup entries k :
  match Grid.subjectProgress reg allocations assignments entries periodDuration
          viewMode selectedEntity !! k with
  | Some p =>
      ∃ x, In x (Grid.availableSubjects reg allocations viewMode selectedEntity)
           ∧ sub_id x = k
           ∧ p = Grid.progressOf reg allocations assignments entries periodDuration
                   viewMode selectedEntity x
  | None =>
      ∀ x, In x (Grid.availableSubjects reg allocations viewMode selectedEntity) →
           sub_id x ≠ k
  end.
Proof.
  unfold Grid.subjectProgress.
  destruct (String.eqb selectedEntity "") eqn:Hent.
  { rewrite lookup_empty. unfold Grid.availableSubjects. by rewrite Hent. }
  destruct (fold_left _ _ _ !! k) as [p|] eqn:Hl.
  - apply (fold_insert_Some sub_id) in Hl as [Hl|Hl]; [by rewrite lookup_empty in Hl|].
    done.
  - apply (fold_insert_None sub_id) in Hl as [_ Hl]. done.
Qed.

Lemma scheduledEntries_snoc entries e x :
  entryOf viewMode selectedEntity e →
  Grid.scheduledEntries (entries ++ [e]) viewMode selectedEntity x
  = Grid.scheduledEntries entries viewMode selectedEntity x
    ++ (if String.eqb (te_subjectId e) (sub_id x) then [e] else []).
Proof.
  intros He. unfold Grid.scheduledEntries. rewrite List.filter_app. f_equal.
  simpl. unfold entryOf in He. destruct viewMode; rewrite He, String.eqb_refl; simpl;
    by destruct (String.eqb _ _).
Qed.

Lemma percentageOf_mono (s s' : Q) (total : N) :
  (s <= s')%Q → (Grid.percentageOf s total ≤ Grid.percentageOf s' total)%Z.
Proof.
  intros Hle. unfold Grid.percentageOf. destruct (N.ltb_spec 0 total); [|done].
  unfold Math_round. apply Qfloor_resp_le.
  apply Qplus_le_l. apply Qmult_le_compat_r; [|done].
  apply Qmult_le_compat_r; [done|].
  apply Qinv_le_0_compat. change 0%Q with (inject_Z 0). rewrite <- Zle_Qle. lia.
Qed.

(** X5.  Appending an entry of the entity leaves the set of subjects with a
    progress record and every other subject's record unchanged, and in the
    record of the entry's subject keeps the required hours, raises the
    scheduled hours by exactly one period and does not lower the
    percentage. *)
Theorem progress_after_add entries e :
  entryOf viewMode selectedEntity e →
  let before :=
    Grid.subjectProgress reg allocations assignments entries periodDuration
      viewMode selectedEntity in
  let after :=
    Grid.subjectProgress reg allocations assignments (entries ++ [e]) periodDuration
      viewMode selectedEntity in
  (∀ k, after !! k = None ↔ before !! k = None)
  ∧ (∀ k, k ≠ te_subjectId e → after !! k = before !! k)
  ∧ ∀ p, before !! te_subjectId e = Some p →
      ∃ p', after !! te_subjectId e = Some p'
            ∧ p_total p' = p_total p
            ∧ (p_scheduled p' == p_scheduled p + Grid.periodHours periodDuration)%Q
            ∧ (p_percentage p ≤ p_percentage p')%Z.
Proof.
  intros He before after.
  assert (∀ k, match after !! k with
               | Some p' =>
                   ∃ p x, before !! k = Some p ∧ sub_id x = k
                     ∧ p = Grid.progressOf reg allocations assignments entries
                             periodDuration viewMode selectedEntity x
                     ∧ p' = Grid.progressOf reg allocations assignments (entries ++ [e])
                              periodDuration viewMode selectedEntity x
               | None => before !! k = None
               end) as Hboth.
  { intros k. pose proof (subjectProgress_lookup entries k) as Hb.
    pose proof (subjectProgress_lookup (entries ++ [e]) k) as Ha.
    fold before in Hb. fold after in Ha.
    destruct (after !! k) as [p'|], (before !! k) as [p|]; try done.
    - destruct Ha as (x & Hx & Hk & ->), Hb as (y & Hy & Hk' & ->).
      exists (Grid.progressOf reg allocations assignments entries periodDuration
                viewMode selectedEntity x), x.
      split; [|done]. f_equal. apply progressOf_same_id. congruence.
    - destruct Ha as (x & Hx & Hk & _). by destruct (Hb x Hx).
    - destruct Hb as (x & Hx & Hk & _). by destruct (Ha x Hx). }
  split; [|split].
  - intros k. specialize (Hboth k). destruct (after !! k); [|done].
    destruct Hboth as (p0 & x & -> & _). done.
  - intros k Hk. specialize (Hboth k). destruct (after !! k) as [p'|]; [|done].
    destruct Hboth as (p0 & x & -> & Hx & -> & ->). f_equal.
    unfold Grid.progressOf. rewrite scheduledEntries_snoc by done.
    destruct (String.eqb_spec (te_subjectId e) (sub_id x)); [congruence|].
    by rewrite app_nil_r.
  - intros p Hp. specialize (Hboth (te_subjectId e)).
    destruct (after !! te_subjectId e) as [p'|]; [|congruence].
    destruct Hboth as (p0 & x & Hp0 & Hx & Hp0' & ->). rewrite Hp in Hp0.
    injection Hp0 as <-. subst p. eexists. split; [done|].
    assert (p_scheduled
              (Grid.progressOf reg allocations assignments (entries ++ [e])
                 periodDuration viewMode selectedEntity x)
            == p_scheduled
                 (Grid.progressOf reg allocations assignments entries
                    periodDuration viewMode selectedEntity x)
               + Grid.periodHours periodDuration)%Q as Hsched.
    { unfold Grid.progressOf. simpl. rewrite scheduledEntries_snoc by done.
      rewrite Hx, String.eqb_refl, length_app. simpl.
      rewrite Nat2Z.inj_add, inject_Z_plus. simpl. ring. }
    split; [done|]. split; [done|].
    unfold Grid.progressOf in *. simpl in *. apply percentageOf_mono.
    rewrite Hsched. rewrite <- (Qplus_0_r (inject_Z _ * _)) at 1.
    apply Qplus_le_r. unfold Grid.periodHours, Qle. simpl. lia.
Qed.
End progress.

Lemma progress_after_add_witness :
  Grid.subjectProgress Examples.school Examples.oneHourOfMaths []
    ([] ++ [Examples.mondayFirst]) 45 class_mode "1" !! "2"
  = Grid.subjectProgress Examples.school Examples.oneHourOfMaths [] [] 45 class_mode "1"
      !! "2".
Proof.
  apply (progress_after_add Examples.school Examples.oneHourOfMaths [] 45 class_mode "1"
           [] Examples.mondayFirst); [reflexivity | discriminate].
Defined.

(** X6.  A cell that [isSlotValid] accepts is a cell of the configured grid
    for which [getEntryForSlot] finds no entry: a cell is never both a valid
    target and occupied. *)
Theorem valid_slot_is_empty subjectProgress timetableEntries viewMode selectedEntity
    selectedSubject day period :
  isSlotValid
    (Grid.validSlots subjectProgress timetableEntries viewMode selectedEntity
       selectedSubject) day period = true →
  getEntryForSlot timetableEntries viewMode selectedEntity day period = None
  ∧ In day Grid.DAYS ∧ In period Grid.PERIODS.
Proof.
  unfold isSlotValid. rewrite existsb_exists. intros ([d p] & Hin & Heq). simpl in Heq.
  apply andb_true_iff in Heq as [Hd Hp]. apply String.eqb_eq in Hd. apply N.eqb_eq in Hp.
  subst d p.
  assert (In (day, period) (freeSlots timetableEntries viewMode selectedEntity)) as Hfree.
  { unfold Grid.validSlots in Hin. repeat case_match; try done.
    unfold freeSlots.
    by rewrite <- (flat_map_filter_prod
                     (λ slot, Grid.isOccupied timetableEntries viewMode selectedEntity
                                slot.1 slot.2)). }
  apply freeSlots_spec in Hfree as (Hday & Hperiod & Hno).
  split; [|done].
  destruct (getEntryForSlot _ _ _ _ _) as [e|] eqn:Hfind; [|done].
  exfalso. apply Hno. unfold getEntryForSlot in Hfind.
  apply find_some in Hfind as [Hine He]. exists e. split; [done|].
  unfold entryOf. destruct viewMode;
    rewrite !andb_true_iff, !String.eqb_eq, N.eqb_eq in He; tauto.
Qed.

Lemma valid_slot_is_empty_witness :
  getEntryForSlot Examples.twoMathsLessons class_mode "1" "Monday" 3 = None
  ∧ In "Monday" Grid.DAYS ∧ In 3%N Grid.PERIODS.
Proof.
  apply (valid_slot_is_empty
           (Grid.subjectProgress Examples.school
              [ {| gsa_id := "1"; gsa_gradeId := "9"; gsa_subjectId := "1";
                   gsa_weeklyHours := 5; gsa_semesterWeeks := 18;
                   gsa_totalHours := 90 |} ]
              [] Examples.twoMathsLessons 45 class_mode "1")
           Examples.twoMathsLessons class_mode "1" (Some "1") "Monday" 3).
  vm_compute. reflexivity.
Defined.

Lemma Math_round_inject (z : Z) : Math_round (inject_Z z) = z.
Proof.
  unfold Math_round, Qfloor, inject_Z, Qplus. simpl.
  symmetry. apply Z.div_unique with (r := 1%Z); lia.
Qed.

Lemma Math_round_comp x y : (x == y)%Q → Math_round x = Math_round y.
Proof. intros H. unfold Math_round. apply Qfloor_comp. by rewrite H. Qed.

(** X7.  For a whole number of quarter hours, [formatTime] prints the whole
    hours, a colon, and 00, 15, 30 or 45. *)
Theorem formatTime_quarters (n : N) :
  formatTime (Z.of_N n # 4)
  = pretty (Z.of_N (n `div` 4)) +:+ ":"
    +:+ nth (N.to_nat (n `mod` 4)) ["00"; "15"; "30"; "45"] "".
Proof.
  unfold formatTime.
  assert (Qfloor (Z.of_N n # 4) = Z.of_N (n `div` 4)) as ->.
  { unfold Qfloor. by rewrite N2Z.inj_div. }
  assert (Math_round (((Z.of_N n # 4) - inject_Z (Z.of_N (n `div` 4))) * 60)%Q
          = (15 * Z.of_N (n `mod` 4))%Z) as ->.
  { rewrite <- (Math_round_inject (15 * Z.of_N (n `mod` 4))).
    apply Math_round_comp. unfold Qeq, Qminus, Qplus, Qmult, Qopp, inject_Z. simpl.
    pose proof (N.div_mod n 4 ltac:(done)) as Hdm. lia. }
  pose proof (N.mod_lt n 4 ltac:(done)) as Hlt.
  destruct (n `mod` 4)%N as [|[[|[]|]|[|[]|]|]] eqn:Hr; try lia; reflexivity.
Qed.

(* ================================================================== *)
(** * Colour parsing *)
(* ================================================================== *)

Lemma hexDigit_lt c n : hexDigit c = Some n → (n < 16)%N.
Proof.
  unfold hexDigit. intros H.
  repeat match type of H with
         | context [(?a <=? ?b)%N] => destruct (N.leb_spec a b); simpl in H
         end; simplify_eq; lia.
Qed.

Lemma parseHexPair_lt a b n : parseHexPair a b = Some n → (n < 256)%N.
Proof.
  unfold parseHexPair.
  destruct (hexDigit a) as [h|] eqn:Ha; [|done].
  destruct (hexDigit b) as [l|] eqn:Hb; [|done].
  intros [= <-]. apply hexDigit_lt in Ha, Hb. lia.
Qed.

Lemma hexDigit_hexChar d : (d < 16)%N → hexDigit (hexChar d) = Some d.
Proof.
  intros Hd.
  assert (d ∈ [0; 1; 2; 3; 4; 5; 6; 7; 8; 9; 10; 11; 12; 13; 14; 15]%N) as Hin.
  { apply list_elem_of_In. rewrite !elem_of_cons || idtac.
    assert (d = 0 ∨ d = 1 ∨ d = 2 ∨ d = 3 ∨ d = 4 ∨ d = 5 ∨ d = 6 ∨ d = 7 ∨ d = 8
            ∨ d = 9 ∨ d = 10 ∨ d = 11 ∨ d = 12 ∨ d = 13 ∨ d = 14 ∨ d = 15)%N
      as H by lia.
    simpl. intuition. }
  repeat (apply elem_of_cons in Hin as [->|Hin]; [reflexivity|]).
  by apply elem_of_nil in Hin.
Qed.

Lemma parseHexPair_hexPair n :
  (n < 256)%N →
  parseHexPair (hexChar (n `div` 16)) (hexChar (n `mod` 16)) = Some n.
Proof.
  intros Hn. unfold parseHexPair.
  rewrite !hexDigit_hexChar.
  - f_equal. pose proof (N.div_mod n 16 ltac:(done)). lia.
  - by apply N.mod_lt.
  - apply N.Div0.div_lt_upper_bound. lia.
Qed.

Lemma hexToRgb_hash c rest :
  c ≠ "#"%char → hexToRgb (String c rest) = hexToRgb (String "#" (String c rest)).
Proof.
  intros Hc. destruct c as [[] [] [] [] [] [] [] []]; try done.
Qed.

(** X8.  [hexToRgb] decodes every colour: for components below 256, the six
    hexadecimal digits of the three components, with or without a leading
    [#], are parsed back to those components. *)
Theorem hexToRgb_round_trip (r g b : N) :
  (r < 256)%N → (g < 256)%N → (b < 256)%N →
  hexToRgb ("#" +:+ hexPair r +:+ hexPair g +:+ hexPair b) = Some (r, g, b)
  ∧ hexToRgb (hexPair r +:+ hexPair g +:+ hexPair b) = Some (r, g, b).
Proof.
  intros Hr Hg Hb.
  assert (hexChar (r `div` 16) ≠ "#"%char) as Hfirst.
  { intros Heq.
    assert (r `div` 16 < 16)%N as Hlt by (apply N.Div0.div_lt_upper_bound; lia).
    pose proof (hexDigit_hexChar (r `div` 16) Hlt) as H.
    rewrite Heq in H. vm_compute in H. discriminate. }
  split.
  - unfold hexToRgb, hexPair. simpl. by rewrite !parseHexPair_hexPair.
  - unfold hexPair.
    replace (String (hexChar (r `div` 16)) (String (hexChar (r `mod` 16)) "")
             +:+ String (hexChar (g `div` 16)) (String (hexChar (g `mod` 16)) "")
             +:+ String (hexChar (b `div` 16)) (String (hexChar (b `mod` 16)) ""))
      with (String (hexChar (r `div` 16))
              (String (hexChar (r `mod` 16))
                 (String (hexChar (g `div` 16))
                    (String (hexChar (g `mod` 16))
                       (String (hexChar (b `div` 16))
                          (String (hexChar (b `mod` 16)) ""))))))
      by reflexivity.
    rewrite hexToRgb_hash by done.
    unfold hexToRgb. by rewrite !parseHexPair_hexPair.
Qed.

Lemma hexToRgb_round_trip_witness :
  hexToRgb "#3b82f6" = Some (59, 130, 246)%N.
Proof.
  apply (hexToRgb_round_trip 59 130 246); reflexivity.
Defined.

(** X9.  [hexToRgb] accepts only six characters, or seven with a leading
    [#], and every component it returns is below 256. *)
Theorem hexToRgb_accepts hex r g b :
  hexToRgb hex = Some (r, g, b) →
  (r < 256)%N ∧ (g < 256)%N ∧ (b < 256)%N
  ∧ (String.length hex = 6
     ∨ String.length hex = 7 ∧ ∃ rest, hex = String "#" rest).
Proof.
  unfold hexToRgb. intros H.
  set (body := match hex with String "#" rest => rest | _ => hex end) in *.
  assert (String.length hex = String.length body
          ∨ String.length hex = S (String.length body) ∧ ∃ rest, hex = String "#" rest)
    as Hlen.
  { unfold body. destruct hex as [|c rest]; [by left|].
    destruct (Ascii.ascii_dec c "#") as [->|Hne].
    - right. split; [done|]. by exists rest.
    - left. destruct c as [[] [] [] [] [] [] [] []]; try done. }
  clearbody body.
  destruct body as [|c1 [|c2 [|c3 [|c4 [|c5 [|c6 [|]]]]]]]; try done.
  destruct (parseHexPair c1 c2) eqn:H1; [|done].
  destruct (parseHexPair c3 c4) eqn:H2; [|done].
  destruct (parseHexPair c5 c6) eqn:H3; [|done].
  injection H as <- <- <-.
  apply parseHexPair_lt in H1, H2, H3. simpl in Hlen.
  repeat split; try done.
  all: destruct Hlen as [?|[? ?]]; [by left|by right].
Qed.

Lemma hexToRgb_accepts_witness :
  (59 < 256)%N ∧ (130 < 256)%N ∧ (246 < 256)%N
  ∧ (String.length "#3b82f6" = 6
     ∨ String.length "#3b82f6" = 7 ∧ ∃ rest, "#3b82f6" = String "#" rest).
Proof.
  apply (hexToRgb_accepts "#3b82f6" 59 130 246). reflexivity.
Defined.

(* ================================================================== *)
(** * Automatic assignment: the rooms chosen, and a second run *)
(* ================================================================== *)

Lemma filter_type_other_gen {A} (f : A → bool) (l : list A) :
  Forall (λ x, f x = false) l → List.filter f l = [].
Proof.
  induction 1 as [|x l Hx _ IH]; simpl; [done|]. by rewrite Hx.
Qed.

Section auto_assign_more.
Import RoomEngine.
Context (cat : Catalog).

Lemma generateRoomSuggestions_In roomAssignments timetableEntries entry s :
  In s (generateRoomSuggestions cat roomAssignments timetableEntries entry) →
  ∃ subject classSection room,
    List.find (λ s, String.eqb (sub_id s) (te_subjectId entry)) (subjects cat)
      = Some subject
    ∧ List.find (λ c, String.eqb (cs_id c) (te_classId entry)) (classSections cat)
      = Some classSection
    ∧ In room (classrooms cat) ∧ cr_isActive room = true
    ∧ ¬ In (cr_id room) (occupiedRooms roomAssignments timetableEntries entry)
    ∧ s = scoreRoom (subjectRoomPreferences cat entry) classSection room.
Proof.
  unfold generateRoomSuggestions.
  destruct (List.find _ (subjects cat)) as [subject|]; [|done].
  destruct (List.find _ (classSections cat)) as [classSection|]; [|done].
  rewrite sortBy_In, in_map_iff. intros (room & <- & Hroom).
  unfold availableRooms in Hroom. apply filter_In in Hroom as [Hin Hok].
  apply andb_true_iff in Hok as [Hact Hfree].
  exists subject, classSection, room. repeat split; try done.
  rewrite <- includes_In. by destruct (includes _ _).
Qed.

(** X10.  Every assignment that [autoAssignRooms] creates is for an entry of
    the timetable whose subject and class are registered, and puts it in an
    active room of the catalog that no assignment given to the call holds
    at the entry's day and period: no given assignment of that room
    belongs to a timetable entry scheduled at that day and period. *)
Theorem autoAssign_room_available clock roomAssignments timetableEntries :
  Forall
    (λ ra, ∃ entry room subject classSection,
       In entry timetableEntries ∧ ra_timetableEntryId ra = te_id entry
       ∧ firstSuch (λ s, sub_id s = te_subjectId entry) (subjects cat) subject
       ∧ firstSuch (λ c, cs_id c = te_classId entry) (classSections cat) classSection
       ∧ In room (classrooms cat) ∧ cr_isActive room = true
       ∧ ra_roomId ra = cr_id room
       ∧ ∀ given holder,
           In given roomAssignments → ra_roomId given = cr_id room →
           entryWithId timetableEntries (ra_timetableEntryId given) holder →
           ¬ (te_day holder = te_day entry ∧ te_period holder = te_period entry))
    (autoAssignNew cat clock roomAssignments timetableEntries).
Proof.
  eapply Forall_impl; [apply autoAssignNew_spec|].
  intros ra (entry & Hin & _ & best & rest & Hgen & _ & _ & Hid & Hroom & _).
  assert (In best (generateRoomSuggestions cat roomAssignments timetableEntries entry))
    as Hbest by (rewrite Hgen; by left).
  apply generateRoomSuggestions_In in Hbest
    as (subject & classSection & room & Hs & Hc & Hr & Hact & Hfree & ->).
  exists entry, room, subject, classSection.
  split; [done|]. split; [done|]. split.
  { eapply find_firstSuch; [|exact Hs]. intros; apply String.eqb_eq. }
  split.
  { eapply find_firstSuch; [|exact Hc]. intros; apply String.eqb_eq. }
  split; [done|]. split; [done|]. split; [done|].
  intros given holder Hgiven Hgroom Hholder [Hd Hp].
  apply Hfree, occupiedRooms_heldAt. by exists given, holder.
Qed.

Lemma autoAssignStep_wouldAssign clock roomAssignments timetableEntries acc entry :
  ∃ ra, ra_timetableEntryId ra = te_id entry
        ∧ autoAssignStep cat clock roomAssignments timetableEntries acc entry
          = if wouldAssign cat roomAssignments timetableEntries entry
            then acc ++ [ra] else acc.
Proof.
  unfold autoAssignStep, wouldAssign.
  destruct (existsb _ roomAssignments); simpl.
  { exists {| ra_id := ""; ra_timetableEntryId := te_id entry; ra_roomId := "";
              ra_isAutoAssigned := true; ra_assignedAt := ""; ra_assignedBy := "";
              ra_conflictStatus := cs_none |}. done. }
  destruct (generateRoomSuggestions _ _ _ entry) as [|best rest].
  { exists {| ra_id := ""; ra_timetableEntryId := te_id entry; ra_roomId := "";
              ra_isAutoAssigned := true; ra_assignedAt := ""; ra_assignedBy := "";
              ra_conflictStatus := cs_none |}. done. }
  destruct (0 <? rs_suitabilityScore best)%Z;
    [eexists; split; [|reflexivity]; reflexivity|].
  exists {| ra_id := ""; ra_timetableEntryId := te_id entry; ra_roomId := "";
            ra_isAutoAssigned := true; ra_assignedAt := ""; ra_assignedBy := "";
            ra_conflictStatus := cs_none |}. done.
Qed.

Lemma autoAssign_fold_ids clock roomAssignments timetableEntries l acc :
  map ra_timetableEntryId
    (fold_left (autoAssignStep cat clock roomAssignments timetableEntries) l acc)
  = map ra_timetableEntryId acc
    ++ map te_id (List.filter (wouldAssign cat roomAssignments timetableEntries) l).
Proof.
  revert acc. induction l as [|e l IH]; intros acc; simpl; [by rewrite app_nil_r|].
  rewrite IH.
  destruct (autoAssignStep_wouldAssign clock roomAssignments timetableEntries acc e)
    as (ra & Hid & ->).
  destruct (wouldAssign _ _ _ e); simpl; [|done].
  rewrite map_app. simpl. by rewrite Hid, <- app_assoc.
Qed.

Lemma occupiedRooms_app ra1 ra2 timetableEntries entry :
  occupiedRooms (ra1 ++ ra2) timetableEntries entry
  = occupiedRooms ra1 timetableEntries entry ++ occupiedRooms ra2 timetableEntries entry.
Proof. unfold occupiedRooms. by rewrite List.filter_app, map_app. Qed.

Lemma generateRoomSuggestions_more_assignments ra1 ra2 timetableEntries entry s :
  In s (generateRoomSuggestions cat (ra1 ++ ra2) timetableEntries entry) →
  In s (generateRoomSuggestions cat ra1 timetableEntries entry).
Proof.
  unfold generateRoomSuggestions.
  destruct (List.find _ (subjects cat)) as [subject|]; [|done].
  destruct (List.find _ (classSections cat)) as [classSection|]; [|done].
  rewrite !sortBy_In, !in_map_iff. intros (room & <- & Hroom).
  exists room. split; [done|].
  unfold availableRooms in *. rewrite filter_In in *.
  destruct Hroom as [Hin Hok]. split; [done|].
  apply andb_true_iff in Hok as [Hact Hfree]. rewrite Hact. simpl.
  rewrite negb_true_iff in *. apply not_true_iff_false. intros Hocc.
  apply not_true_iff_false in Hfree. apply Hfree.
  apply includes_In. rewrite occupiedRooms_app, in_app_iff. left. by apply includes_In.
Qed.

Lemma wouldAssign_more_assignments ra1 ra2 timetableEntries entry :
  wouldAssign cat ra1 timetableEntries entry = false →
  existsb (λ ra, String.eqb (ra_timetableEntryId ra) (te_id entry)) ra1 = false →
  wouldAssign cat (ra1 ++ ra2) timetableEntries entry = false.
Proof.
  unfold wouldAssign. intros Hno Hfree. rewrite Hfree in Hno. simpl in Hno.
  destruct (existsb _ (ra1 ++ ra2)); [done|]. simpl.
  destruct (generateRoomSuggestions cat (ra1 ++ ra2) timetableEntries entry)
    as [|b1 rest1] eqn:H1; [done|].
  assert (In b1 (generateRoomSuggestions cat ra1 timetableEntries entry)) as Hin.
  { apply (generateRoomSuggestions_more_assignments ra1 ra2). rewrite H1. by left. }
  destruct (generateRoomSuggestions cat ra1 timetableEntries entry)
    as [|b0 rest0] eqn:H0; [done|].
  apply Z.ltb_ge in Hno. apply Z.ltb_ge.
  assert (rs_suitabilityScore b1 ≤ rs_suitabilityScore b0)%Z; [|lia].
  unfold generateRoomSuggestions in H0.
  destruct (List.find _ (subjects cat)) as [subject|]; [|done].
  destruct (List.find _ (classSections cat)) as [classSection|]; [|done].
  assert (∀ a b : RoomSuggestion,
            (rs_suitabilityScore b - rs_suitabilityScore a ≤ 0
             ↔ - rs_suitabilityScore a ≤ - rs_suitabilityScore b)%Z) as Hcmp
    by (intros; lia).
  rewrite <- H0 in Hin. apply sortBy_In in Hin.
  pose proof (sortBy_head (λ a, (- rs_suitabilityScore a)%Z) _ Hcmp _ _ _ H0 b1 Hin).
  simpl in *. lia.
Qed.

(** X11.  A second run of [autoAssignRooms] changes nothing: every entry
    that the first run left without a room is left without one again, since
    its candidates can only have become fewer. *)
Theorem autoAssignRooms_twice clock1 clock2 roomAssignments timetableEntries :
  autoAssignRooms cat clock2
    (autoAssignRooms cat clock1 roomAssignments timetableEntries) timetableEntries
  = autoAssignRooms cat clock1 roomAssignments timetableEntries.
Proof.
  unfold autoAssignRooms at 1.
  set (after := autoAssignRooms cat clock1 roomAssignments timetableEntries).
  assert (autoAssignNew cat clock2 after timetableEntries = []) as ->;
    [|by rewrite app_nil_r].
  assert (List.filter (wouldAssign cat after timetableEntries) timetableEntries = [])
    as Hnone.
  { apply filter_type_other_gen. apply Forall_forall. intros e He.
    apply list_elem_of_In in He.
    destruct (existsb (λ ra, String.eqb (ra_timetableEntryId ra) (te_id e)) after)
      eqn:Hassigned.
    { unfold wouldAssign. by rewrite Hassigned. }
    unfold after, autoAssignRooms in *. rewrite existsb_app in Hassigned.
    apply orb_false_iff in Hassigned as [Hold Hnew].
    apply wouldAssign_more_assignments; [|done].
    destruct (wouldAssign cat roomAssignments timetableEntries e) eqn:Hw; [|done].
    exfalso. apply not_true_iff_false in Hnew. apply Hnew.
    apply existsb_exists.
    assert (In (te_id e)
              (map ra_timetableEntryId
                 (autoAssignNew cat clock1 roomAssignments timetableEntries))) as Hid.
    { unfold autoAssignNew. rewrite autoAssign_fold_ids. simpl.
      apply in_map. apply filter_In. done. }
    apply in_map_iff in Hid as (ra & Hra & Hin). exists ra. split; [done|].
    by apply String.eqb_eq. }
  pose proof (autoAssign_fold_ids clock2 after timetableEntries timetableEntries [])
    as Hids.
  rewrite Hnone in Hids. simpl in Hids. unfold autoAssignNew.
  by destruct (fold_left _ _ _).
Qed.
End auto_assign_more.

(* ================================================================== *)
(** * Room assignment engine: conflict detection *)
(* ================================================================== *)

Section js_map_more.
Context {V : Type}.
Implicit Types (m : JsMap.t V) (k : string) (v : V).

Lemma JsMap_get_snoc m k v : JsMap.get m k = None → JsMap.get (m ++ [(k, v)]) k = Some v.
Proof.
  induction m as [|[k' v'] m IH]; simpl.
  - by rewrite String.eqb_refl.
  - by destruct (String.eqb k' k).
Qed.

Lemma JsMap_set_snoc m k v v' :
  JsMap.get m k = None → JsMap.set (m ++ [(k, v)]) k v' = m ++ [(k, v')].
Proof.
  induction m as [|[k0 v0] m IH]; simpl.
  - by rewrite String.eqb_refl.
  - destruct (String.eqb k0 k); [done|]. intros H. by rewrite IH.
Qed.
End js_map_more.

Lemma split_on_dashFree s : dashFree s = true → split_on "-" s = [s].
Proof.
  induction s as [|c s IH]; simpl; [done|].
  intros [Hc Hs]%andb_true_iff. apply negb_true_iff in Hc. rewrite Hc.
  by rewrite IH.
Qed.

Lemma split_on_dash s rest :
  dashFree s = true → split_on "-" (s +:+ String "-" rest) = s :: split_on "-" rest.
Proof.
  induction s as [|c s IH]; simpl; [done|].
  intros [Hc Hs]%andb_true_iff. apply negb_true_iff in Hc. rewrite Hc.
  by rewrite IH.
Qed.

Lemma split_conflictKey roomId day period :
  dashFree roomId = true → dashFree day = true →
  split_on "-" (conflictKey roomId day period) = [roomId; day; pretty period].
Proof.
  intros Hr Hd. unfold conflictKey.
  change (roomId +:+ "-" +:+ day +:+ "-" +:+ pretty period)
    with (roomId +:+ String "-" (day +:+ String "-" (pretty period))).
  rewrite split_on_dash by done. rewrite split_on_dash by done.
  by rewrite split_on_dashFree by apply dashFree_pretty.
Qed.

Lemma conflictKey_inj r1 d1 p1 r2 d2 p2 :
  dashFree r1 = true → dashFree d1 = true →
  dashFree r2 = true → dashFree d2 = true →
  conflictKey r1 d1 p1 = conflictKey r2 d2 p2 → r1 = r2 ∧ d1 = d2 ∧ p1 = p2.
Proof.
  intros Hr1 Hd1 Hr2 Hd2 Heq. apply (f_equal (split_on "-")) in Heq.
  rewrite !split_conflictKey in Heq by done.
  injection Heq as -> -> Hp. repeat split. by apply (inj pretty).
Qed.

Section detect.
Context (cat : RoomEngine.Catalog) (timetableEntries : list TimetableEntry).

Lemma conflictMapStep_keyOf m ra :
  conflictMapStep timetableEntries m ra
  = match keyOf timetableEntries ra with
    | Some key =>
        JsMap.set m key (default [] (JsMap.get m key) ++ [ra_timetableEntryId ra])
    | None => m
    end.
Proof.
  unfold conflictMapStep, keyOf.
  destruct (RoomEngine.findEntry _ _) as [entry|]; [|done].
  set (key := conflictKey _ _ _).
  destruct (JsMap.get m key) as [ids|] eqn:Hget; simpl.
  - by rewrite Hget.
  - rewrite (JsMap_set_fresh m key []) by done.
    rewrite JsMap_get_snoc by done. simpl.
    rewrite JsMap_set_snoc by done. by rewrite JsMap_set_fresh.
Qed.

Lemma idsWithKey_app k l1 l2 :
  idsWithKey timetableEntries k (l1 ++ l2)
  = idsWithKey timetableEntries k l1 ++ idsWithKey timetableEntries k l2.
Proof. unfold idsWithKey. by rewrite List.filter_app, map_app. Qed.

Lemma idsWithKey_snoc_same k seen ra :
  keyOf timetableEntries ra = Some k →
  idsWithKey timetableEntries k (seen ++ [ra])
  = idsWithKey timetableEntries k seen ++ [ra_timetableEntryId ra].
Proof.
  intros Hk. rewrite idsWithKey_app. unfold idsWithKey at 2. simpl.
  by rewrite bool_decide_eq_true_2.
Qed.

Lemma idsWithKey_snoc_other k seen ra :
  keyOf timetableEntries ra ≠ Some k →
  idsWithKey timetableEntries k (seen ++ [ra]) = idsWithKey timetableEntries k seen.
Proof.
  intros Hk. rewrite idsWithKey_app. unfold idsWithKey at 2. simpl.
  rewrite bool_decide_eq_false_2 by done. apply app_nil_r.
Qed.

Lemma conflictMap_step m seen ra :
  groupsRecord timetableEntries m seen →
  groupsRecord timetableEntries (conflictMapStep timetableEntries m ra) (seen ++ [ra]).
Proof.
  intros (Hnd & Hkeys & Hall). rewrite conflictMapStep_keyOf.
  destruct (keyOf timetableEntries ra) as [key|] eqn:Hkey.
  2:{ split; [done|]. split.
      - intros k. rewrite idsWithKey_snoc_other; [done|]. by rewrite Hkey.
      - eapply Forall_impl; [exact Hall|]. intros kv ->.
        rewrite idsWithKey_snoc_other; [done|]. by rewrite Hkey. }
  assert (∀ k, k ≠ key → keyOf timetableEntries ra ≠ Some k) as Hother.
  { intros k Hne. rewrite Hkey. by intros [= ->]. }
  assert (Forall (λ kv, kv.1 ≠ key →
                   kv.2 = idsWithKey timetableEntries kv.1 (seen ++ [ra])) m)
    as Hothers.
  { eapply Forall_impl; [exact Hall|]. intros [k v] Hkv Hne. simpl in *.
    rewrite idsWithKey_snoc_other; [done|]. by apply Hother. }
  assert (idsWithKey timetableEntries key (seen ++ [ra]) ≠ []) as Hsame.
  { rewrite idsWithKey_snoc_same by done. intros H. by apply app_eq_nil in H as [_ ?]. }
  destruct (JsMap.get m key) as [ids|] eqn:Hget.
  - pose proof (JsMap_get_Some _ _ _ Hget) as Hin.
    rewrite Forall_forall in Hall. pose proof (Hall _ Hin) as Hids. simpl in Hids.
    split; [by erewrite JsMap_set_keys|]. split.
    + intros k. erewrite JsMap_set_keys by done. rewrite Hkeys.
      destruct (decide (key = k)) as [<-|Hne].
      * split; [done|intros _]. apply Hkeys, list_elem_of_fmap. by exists (key, ids).
      * rewrite idsWithKey_snoc_other; [done|]. by apply Hother.
    + apply JsMap_set_Forall; [done|done|]. simpl.
      by rewrite idsWithKey_snoc_same, Hids.
  - pose proof Hget as Hnone. apply JsMap_get_None in Hnone.
    assert (idsWithKey timetableEntries key seen = []) as Hempty.
    { destruct (idsWithKey timetableEntries key seen) eqn:He; [done|].
      exfalso. apply Hnone, Hkeys. by rewrite He. }
    rewrite JsMap_set_fresh by done. split; [|split].
    + rewrite fmap_app. apply NoDup_app. split; [done|]. split.
      * intros k Hk Hk'. simpl in Hk'. apply list_elem_of_singleton in Hk' as ->. done.
      * simpl. apply NoDup_singleton.
    + intros k. rewrite fmap_app, elem_of_app. simpl. rewrite list_elem_of_singleton.
      destruct (decide (key = k)) as [<-|Hne].
      * split; [done|by right].
      * rewrite idsWithKey_snoc_other by (by apply Hother). rewrite Hkeys.
        split; [by intros [?|?]|by left].
    + apply Forall_app. split.
      * rewrite Forall_forall in Hothers |- *. intros [k v] Hin.
        apply (Hothers _ Hin). simpl. intros ->.
        apply Hnone, list_elem_of_fmap. by exists (key, v).
      * repeat constructor. simpl. by rewrite idsWithKey_snoc_same, Hempty.
Qed.

Lemma conflictMap_fold assignments m seen :
  groupsRecord timetableEntries m seen →
  groupsRecord timetableEntries
    (fold_left (conflictMapStep timetableEntries) assignments m) (seen ++ assignments).
Proof.
  revert m seen. induction assignments as [|ra l IH]; intros m seen Hrec; simpl.
  - by rewrite app_nil_r.
  - replace (seen ++ ra :: l) with ((seen ++ [ra]) ++ l) by (by rewrite <- app_assoc).
    apply IH. by apply conflictMap_step.
Qed.

Lemma conflictMap_record assignments :
  groupsRecord timetableEntries
    (fold_left (conflictMapStep timetableEntries) assignments []) assignments.
Proof.
  apply (conflictMap_fold assignments [] []).
  split; [constructor|]. split; [|constructor].
  intros k. split; [by intros ?%elem_of_nil|done].
Qed.

Lemma roomConflictFor_In c kv :
  In c (roomConflictFor cat kv) ↔
  (1 < length kv.2)%nat ∧ roomConflictFor cat kv = [c].
Proof.
  unfold roomConflictFor. destruct (1 <? length kv.2)%nat eqn:Hlen.
  - apply Nat.ltb_lt in Hlen. simpl. split.
    + intros [<-|[]]. done.
    + intros [_ [= <-]]. by left.
  - apply Nat.ltb_ge in Hlen. simpl. split; [done|]. intros [? _]. lia.
Qed.

Lemma detectConflicts_nil assignments :
  detectConflicts cat timetableEntries assignments = []
  ↔ ∀ k, (length (idsWithKey timetableEntries k assignments) ≤ 1)%nat.
Proof.
  unfold detectConflicts.
  destruct (conflictMap_record assignments) as (Hnd & Hkeys & Hall).
  set (m := fold_left _ _ _) in *. clearbody m.
  rewrite Forall_forall in Hall. split.
  - intros Hnil k.
    destruct (decide (k ∈ m.*1)) as [Hin|Hout].
    + apply list_elem_of_fmap in Hin as ([k' ids] & -> & Hin). simpl.
      pose proof (Hall _ Hin) as Hids. simpl in Hids. rewrite <- Hids.
      destruct (decide (length ids ≤ 1)%nat) as [|Hlong]; [done|]. exfalso.
      apply list_elem_of_In in Hin.
      assert (In {| rc_id := "conflict-" +:+ k';
                    rc_roomId := nth 0 (split_on "-" k') "undefined";
                    rc_timeSlotId := nth 1 (split_on "-" k') "undefined" +:+ "-"
                                     +:+ nth 2 (split_on "-" k') "undefined";
                    rc_conflictingEntries := ids; rc_severity := sev_error;
                    rc_message :=
                      match List.find
                              (λ r, String.eqb (cr_id r)
                                      (nth 0 (split_on "-" k') "undefined"))
                              (RoomEngine.classrooms cat) with
                      | Some r => if String.eqb (cr_name r) "" then "Room" else cr_name r
                      | None => "Room"
                      end +:+ " is double-booked on "
                      +:+ nth 1 (split_on "-" k') "undefined" +:+ " period "
                      +:+ nth 2 (split_on "-" k') "undefined";
                    rc_suggestedResolutions := standardResolutions |}
                (flat_map (roomConflictFor cat) m)) as Hc.
      { apply in_flat_map. exists (k', ids). split; [done|].
        unfold roomConflictFor. simpl.
        assert ((1 <? length ids)%nat = true) as -> by (apply Nat.ltb_lt; lia).
        by left. }
      by rewrite Hnil in Hc.
    + assert (idsWithKey timetableEntries k assignments = []) as ->; [|simpl; lia].
      destruct (idsWithKey timetableEntries k assignments) eqn:He; [done|].
      exfalso. apply Hout, Hkeys. by rewrite He.
  - intros Hshort.
    assert (Forall (λ kv, roomConflictFor cat kv = []) m) as Hnone.
    { apply Forall_forall. intros [k ids] Hin. pose proof (Hall _ Hin) as Hids.
      simpl in Hids. unfold roomConflictFor. simpl.
      assert ((1 <? length ids)%nat = false) as ->; [|done].
      apply Nat.ltb_ge. rewrite Hids. apply Hshort. }
    clear -Hnone. induction Hnone as [|kv l Hkv _ IH]; simpl; [done|].
    by rewrite Hkv, IH.
Qed.

Lemma keyOf_Some ra k :
  keyOf timetableEntries ra = Some k →
  ∃ entry, In entry timetableEntries
           ∧ RoomEngine.findEntry timetableEntries (ra_timetableEntryId ra) = Some entry
           ∧ k = conflictKey (ra_roomId ra) (te_day entry) (te_period entry).
Proof.
  unfold keyOf. destruct (RoomEngine.findEntry _ _) as [entry|] eqn:Hfind; [|done].
  intros [= <-]. exists entry. split; [|done].
  unfold RoomEngine.findEntry in Hfind. by apply find_some in Hfind as [? _].
Qed.

Lemma idsWithKey_holders roomId day period assignments :
  Forall (λ ra, dashFree (ra_roomId ra) = true) assignments →
  Forall (λ e, dashFree (te_day e) = true) timetableEntries →
  dashFree roomId = true → dashFree day = true →
  idsWithKey timetableEntries (conflictKey roomId day period) assignments
  = holders timetableEntries roomId day period assignments.
Proof.
  intros Hrooms Hdays Hr Hd. unfold idsWithKey, holders. f_equal.
  induction Hrooms as [|ra l Hra _ IH]; simpl; [done|]. rewrite IH.
  replace (bool_decide (keyOf timetableEntries ra = Some (conflictKey roomId day period)))
    with (String.eqb (ra_roomId ra) roomId
          && RoomEngine.assignedAt timetableEntries day period ra); [done|].
  unfold keyOf, RoomEngine.assignedAt.
  destruct (RoomEngine.findEntry _ _) as [entry|] eqn:Hfind.
  2:{ rewrite andb_false_r. symmetry. by apply bool_decide_eq_false_2. }
  assert (dashFree (te_day entry) = true) as Hday.
  { unfold RoomEngine.findEntry in Hfind. apply find_some in Hfind as [Hin _].
    rewrite Forall_forall in Hdays. by apply Hdays, list_elem_of_In. }
  destruct (String.eqb_spec (ra_roomId ra) roomId) as [Heq|Hne];
    [destruct (String.eqb_spec (te_day entry) day) as [Heqd|Hned];
     [destruct (N.eqb_spec (te_period entry) period) as [Heqp|Hnep]|]|]; simpl; symmetry.
  - apply bool_decide_eq_true_2. by rewrite Heq, Heqd, Heqp.
  - apply bool_decide_eq_false_2. intros [= H].
    apply conflictKey_inj in H as (_ & _ & ?); done.
  - apply bool_decide_eq_false_2. intros [= H].
    apply conflictKey_inj in H as (_ & ? & _); done.
  - apply bool_decide_eq_false_2. intros [= H].
    apply conflictKey_inj in H as (? & _ & _); done.
Qed.

Lemma holders_nonempty roomId day period assignments :
  Forall (λ ra, dashFree (ra_roomId ra) = true) assignments →
  Forall (λ e, dashFree (te_day e) = true) timetableEntries →
  holders timetableEntries roomId day period assignments ≠ [] →
  dashFree roomId = true ∧ dashFree day = true.
Proof.
  intros Hrooms Hdays Hne. unfold holders in Hne.
  destruct (List.filter _ assignments) as [|ra l] eqn:Hf; [done|].
  assert (In ra (List.filter
                   (λ ra, String.eqb (ra_roomId ra) roomId
                          && RoomEngine.assignedAt timetableEntries day period ra)
                   assignments)) as Hin by (rewrite Hf; by left).
  apply filter_In in Hin as [Hin [Hroom Hat]%andb_true_iff].
  apply String.eqb_eq in Hroom as <-.
  rewrite Forall_forall in Hrooms. split; [by apply Hrooms, list_elem_of_In|].
  unfold RoomEngine.assignedAt in Hat.
  destruct (RoomEngine.findEntry _ _) as [entry|] eqn:Hfind; [|done].
  apply andb_true_iff in Hat as [Hday _]. apply String.eqb_eq in Hday as <-.
  unfold RoomEngine.findEntry in Hfind. apply find_some in Hfind as [He _].
  rewrite Forall_forall in Hdays. by apply Hdays, list_elem_of_In.
Qed.

(** X12.  When no room id and no day contains the separator "-",
    [detectConflicts] reports exactly the (room, day, period) triples that
    two or more assignments hold: one error per such triple, under distinct
    ids, naming the room, the slot as "day-period" and the entry ids of all
    the assignments holding it, in assignment order, with the two standard
    resolutions. *)
Theorem detectConflicts_spec assignments :
  Forall (λ ra, dashFree (ra_roomId ra) = true) assignments →
  Forall (λ e, dashFree (te_day e) = true) timetableEntries →
  NoDup (map rc_id (detectConflicts cat timetableEntries assignments))
  ∧ (∀ c, In c (detectConflicts cat timetableEntries assignments) →
       ∃ roomId day period,
         rc_roomId c = roomId
         ∧ rc_timeSlotId c = Grid.slotKey day period
         ∧ rc_conflictingEntries c
           = holders timetableEntries roomId day period assignments
         ∧ (1 < length (holders timetableEntries roomId day period assignments))%nat
         ∧ rc_severity c = sev_error
         ∧ rc_suggestedResolutions c = standardResolutions)
  ∧ (∀ roomId day period,
       (1 < length (holders timetableEntries roomId day period assignments))%nat →
       ∃ c, In c (detectConflicts cat timetableEntries assignments)
            ∧ rc_roomId c = roomId
            ∧ rc_timeSlotId c = Grid.slotKey day period
            ∧ rc_conflictingEntries c
              = holders timetableEntries roomId day period assignments).
Proof.
  intros Hrooms Hdays. unfold detectConflicts.
  destruct (conflictMap_record assignments) as (Hnd & Hkeys & Hall).
  set (m := fold_left _ _ _) in *. clearbody m.
  split; [|split].
  - clear Hkeys Hall. induction m as [|[k ids] m IH]; simpl; [constructor|].
    rewrite fmap_cons in Hnd. apply NoDup_cons in Hnd as [Hk Hnd].
    rewrite map_app. unfold roomConflictFor at 1.
    destruct (1 <? length _)%nat; simpl; [|by apply IH].
    apply NoDup_cons. split; [|by apply IH].
    rewrite list_elem_of_In, in_map_iff. intros (c & Hid & Hc).
    apply in_flat_map in Hc as ([k' ids'] & Hin & Hc).
    apply roomConflictFor_In in Hc as [_ Hc]. unfold roomConflictFor in Hc.
    destruct (1 <? length _)%nat; [|done]. injection Hc as <-. simpl in Hid.
    injection Hid as Hid. apply Hk, list_elem_of_fmap. exists (k', ids').
    split; [by simplify_eq/=|by apply list_elem_of_In].
  - intros c Hc. apply in_flat_map in Hc as ([k ids] & Hin & Hc).
    apply list_elem_of_In in Hin. rewrite Forall_forall in Hall.
    pose proof (Hall _ Hin) as Hids. simpl in Hids.
    assert (k ∈ m.*1) as Hk by (apply list_elem_of_fmap; by exists (k, ids)).
    apply Hkeys in Hk. unfold idsWithKey in Hk.
    destruct (List.filter _ assignments) as [|ra l] eqn:Hf; [done|].
    assert (In ra (List.filter
                     (λ ra, bool_decide (keyOf timetableEntries ra = Some k)) assignments))
      as Hra by (rewrite Hf; by left).
    apply filter_In in Hra as [Hra Hkey]. apply bool_decide_eq_true_1 in Hkey.
    apply keyOf_Some in Hkey as (entry & He & _ & ->).
    assert (dashFree (ra_roomId ra) = true) as Hr.
    { rewrite Forall_forall in Hrooms. by apply Hrooms, list_elem_of_In. }
    assert (dashFree (te_day entry) = true) as Hd.
    { rewrite Forall_forall in Hdays. by apply Hdays, list_elem_of_In. }
    rewrite idsWithKey_holders in Hids by done.
    apply roomConflictFor_In in Hc as [Hlen Hc]. unfold roomConflictFor in Hc.
    simpl in Hlen, Hc. rewrite split_conflictKey in Hc by done.
    destruct (1 <? length ids)%nat; [|done]. injection Hc as <-. simpl.
    exists (ra_roomId ra), (te_day entry), (te_period entry).
    rewrite <- Hids. done.
  - intros roomId day period Hlen.
    destruct (holders_nonempty roomId day period assignments Hrooms Hdays) as [Hr Hd].
    { intros H. rewrite H in Hlen. simpl in Hlen. lia. }
    rewrite <- (idsWithKey_holders roomId day period assignments) in * by done.
    assert (conflictKey roomId day period ∈ m.*1) as Hk.
    { apply Hkeys. intros H. rewrite H in Hlen. simpl in Hlen. lia. }
    apply list_elem_of_fmap in Hk as ([k ids] & Hk & Hin). simpl in Hk. subst k.
    rewrite Forall_forall in Hall. pose proof (Hall _ Hin) as Hids. simpl in Hids.
    rewrite <- Hids in *.
    eexists. split.
    + apply in_flat_map. exists (conflictKey roomId day period, ids).
      split; [by apply list_elem_of_In|].
      unfold roomConflictFor. simpl.
      assert ((1 <? length ids)%nat = true) as -> by (by apply Nat.ltb_lt).
      left. reflexivity.
    + simpl. by rewrite split_conflictKey.
Qed.
End detect.

Lemma detectConflicts_spec_witness :
  ∃ c, In c (detectConflicts Examples.threeRooms Examples.fiveAtOnce
               (RoomEngine.autoAssignRooms Examples.threeRooms Examples.clock0 []
                  Examples.fiveAtOnce))
       ∧ rc_roomId c = "R1"
       ∧ rc_timeSlotId c = Grid.slotKey "Monday" 1
       ∧ rc_conflictingEntries c = ["e1"; "e2"; "e3"; "e4"; "e5"].
Proof.
  apply (detectConflicts_spec Examples.threeRooms Examples.fiveAtOnce
           (RoomEngine.autoAssignRooms Examples.threeRooms Examples.clock0 []
              Examples.fiveAtOnce)).
  - vm_compute. repeat constructor.
  - vm_compute. repeat constructor.
  - vm_compute. lia.
Defined.

(* ================================================================== *)
(** * Manual assignment and conflict detection *)
(* ================================================================== *)

Lemma idsWithKey_filter_length timetableEntries k (f : RoomAssignment → bool) l :
  (length (idsWithKey timetableEntries k (List.filter f l))
   ≤ length (idsWithKey timetableEntries k l))%nat.
Proof.
  unfold idsWithKey. rewrite !length_map.
  induction l as [|ra l IH]; simpl; [done|].
  destruct (f ra); simpl; destruct (bool_decide _); simpl; lia.
Qed.

Lemma holders_find_None timetableEntries roomId day period l :
  List.find
    (λ ra, match RoomEngine.findEntry timetableEntries (ra_timetableEntryId ra) with
           | Some entry =>
               String.eqb (ra_roomId ra) roomId && String.eqb (te_day entry) day
               && (te_period entry =? period)%N
           | None => false
           end) l = None →
  holders timetableEntries roomId day period l = [].
Proof.
  unfold holders. induction l as [|ra l IH]; simpl; [done|].
  unfold RoomEngine.assignedAt at 1.
  destruct (RoomEngine.findEntry _ _) as [entry|].
  - rewrite <- andb_assoc. destruct (_ && _); [done|]. apply IH.
  - rewrite andb_false_r. apply IH.
Qed.

(** X13.  A manual assignment that is accepted keeps the assignments free
    of room conflicts: if [detectConflicts] reports nothing before, it
    reports nothing for the assignments that [saveManualAssignment] stores
    (the selected entry being the timetable's entry of that id, and no room
    id or day containing the separator "-"). *)
Theorem manual_keeps_conflict_free cat now roomAssignments timetableEntries
    entry roomId updatedAssignments :
  Forall (λ ra, dashFree (ra_roomId ra) = true) roomAssignments →
  Forall (λ e, dashFree (te_day e) = true) timetableEntries →
  dashFree roomId = true →
  RoomEngine.findEntry timetableEntries (te_id entry) = Some entry →
  detectConflicts cat timetableEntries roomAssignments = [] →
  RoomEngine.saveManualAssignment now roomAssignments timetableEntries (Some entry) roomId
  = RoomEngine.ManualSaved updatedAssignments →
  detectConflicts cat timetableEntries updatedAssignments = [].
Proof.
  intros Hrooms Hdays Hroom Hentry Hbefore Hsave.
  rewrite detectConflicts_nil in Hbefore |- *. intros k.
  unfold RoomEngine.saveManualAssignment in Hsave.
  destruct (String.eqb roomId ""); [done|].
  destruct (List.find _ roomAssignments) eqn:Hfind; [done|].
  injection Hsave as <-. rewrite idsWithKey_app.
  set (new := {| ra_id := _ |}).
  assert (keyOf timetableEntries new
          = Some (conflictKey roomId (te_day entry) (te_period entry))) as Hnew.
  { unfold keyOf, new. simpl. by rewrite Hentry. }
  rewrite length_app. unfold idsWithKey at 2. simpl. rewrite Hnew.
  destruct (decide (conflictKey roomId (te_day entry) (te_period entry) = k)) as [<-|Hne].
  - rewrite bool_decide_eq_true_2 by done. simpl.
    assert (length (idsWithKey timetableEntries
                      (conflictKey roomId (te_day entry) (te_period entry))
                      roomAssignments) = 0)%nat as Hfree.
    { rewrite idsWithKey_holders; try done.
      - by rewrite holders_find_None.
      - unfold RoomEngine.findEntry in Hentry. apply find_some in Hentry as [Hin _].
        rewrite Forall_forall in Hdays. by apply Hdays, list_elem_of_In. }
    pose proof (idsWithKey_filter_length timetableEntries
                  (conflictKey roomId (te_day entry) (te_period entry))
                  (λ ra, negb (String.eqb (ra_timetableEntryId ra) (te_id entry)))
                  roomAssignments).
    lia.
  - rewrite bool_decide_eq_false_2 by (by intros [= ?]). simpl.
    pose proof (idsWithKey_filter_length timetableEntries k
                  (λ ra, negb (String.eqb (ra_timetableEntryId ra) (te_id entry)))
                  roomAssignments).
    specialize (Hbefore k). lia.
Qed.

Lemma manual_keeps_conflict_free_witness :
  ∃ updatedAssignments,
    RoomEngine.saveManualAssignment "2024-01-02T00:00:00.000Z"
      [Examples.inRoom101] Examples.fiveAtOnce
      (Some (Examples.mkEntry "e2" "1" "2" "1" "Monday" 1)) "R2"
    = RoomEngine.ManualSaved updatedAssignments
    ∧ detectConflicts Examples.threeRooms Examples.fiveAtOnce updatedAssignments = [].
Proof.
  eexists. split; [reflexivity|].
  eapply (manual_keeps_conflict_free Examples.threeRooms "2024-01-02T00:00:00.000Z"
            [Examples.inRoom101] Examples.fiveAtOnce
            (Examples.mkEntry "e2" "1" "2" "1" "Monday" 1) "R2");
    [repeat constructor | repeat constructor | reflexivity | reflexivity
    | reflexivity | reflexivity].
Defined.

(* ================================================================== *)
(** * Teacher assignment manager: validation and the selection lists *)
(* ================================================================== *)

Section manager.
Import TeacherAssignments Manager.
Context (reg : Grid.Registry).

Lemma mismatches_removeAssignment nowIso assignmentId assignments :
  flat_map (mismatchFor reg) (removeAssignment nowIso assignmentId assignments)
  = flat_map (mismatchFor reg) assignments.
Proof.
  unfold removeAssignment. induction assignments as [|a l IH]; simpl; [done|].
  rewrite IH. f_equal. by destruct (String.eqb (cst_id a) assignmentId).
Qed.

Lemma rowsOf_removeAssignment nowIso assignmentId teacherId assignments :
  map cst_id
    (List.filter (λ a, String.eqb (cst_teacherId a) teacherId)
       (removeAssignment nowIso assignmentId assignments))
  = map cst_id (List.filter (λ a, String.eqb (cst_teacherId a) teacherId) assignments).
Proof.
  unfold removeAssignment. induction assignments as [|a l IH]; simpl; [done|].
  destruct (String.eqb (cst_id a) assignmentId); simpl;
    destruct (String.eqb (cst_teacherId a) teacherId); simpl; by rewrite IH.
Qed.

Lemma validateAssignments_removeAssignment workloads nowIso assignmentId assignments :
  validateAssignments reg workloads (removeAssignment nowIso assignmentId assignments)
  = validateAssignments reg workloads assignments.
Proof.
  unfold validateAssignments. rewrite mismatches_removeAssignment. f_equal.
  induction workloads as [|w ws IH]; simpl; [done|]. rewrite IH. f_equal.
  unfold overcommittedFor. by rewrite rowsOf_removeAssignment.
Qed.

(** X14.  Removing an assignment clears no conflict: the conflicts that
    [removeAssignment] stores are those of the table before the removal,
    and the same holds against any workloads.  A deactivated row keeps its
    qualification error and stays listed among the rows of an overcommitted
    teacher. *)
Theorem removeAssignment_keeps_conflicts allocations nowIso assignmentId assignments :
  removeAssignmentConflicts reg allocations nowIso assignmentId assignments
  = validateAssignments reg (teacherWorkloads reg allocations assignments) assignments
  ∧ ∀ workloads,
      validateAssignments reg workloads (removeAssignment nowIso assignmentId assignments)
      = validateAssignments reg workloads assignments.
Proof.
  split; [apply validateAssignments_removeAssignment|].
  intros workloads. apply validateAssignments_removeAssignment.
Qed.

Lemma getAvailableSubjects_In allocations assignments selectedClass subject :
  In subject (getAvailableSubjects reg allocations assignments selectedClass) →
  selectedClass ≠ ""
  ∧ In subject (Grid.subjects reg)
  ∧ (∃ classSection,
       Grid.findClass reg selectedClass = Some classSection
       ∧ is_Some (Grid.findAllocation allocations (cs_gradeId classSection)
                    (sub_id subject)))
  ∧ noActiveBinding assignments selectedClass (sub_id subject).
Proof.
  unfold getAvailableSubjects.
  destruct (String.eqb_spec selectedClass "") as [|Hcls]; [done|].
  destruct (Grid.findClass reg selectedClass) as [classSection|]; [|done].
  intros [[Hin Halloc]%filter_In Hfree]%filter_In.
  split; [done|]. split; [done|]. split.
  - exists classSection. split; [done|]. unfold Grid.findAllocation.
    apply existsb_exists in Halloc as (a & Ha & Hok).
    destruct (List.find _ allocations) eqn:Hfind; [by eexists|].
    by rewrite (find_none _ _ Hfind a Ha) in Hok.
  - intros a Ha (Hc & Hs & Hact). rewrite negb_true_iff in Hfree.
    apply not_true_iff_false in Hfree. apply Hfree, includes_In, in_map_iff.
    exists a. split; [done|]. apply filter_In. split; [done|].
    rewrite Hc, Hact, String.eqb_refl. done.
Qed.

(** X15.  A subject offered by [getAvailableSubjects] for the selected
    class has no active row for that class, so [addAssignment] with it
    (and some teacher) never overwrites: it appends one new active row and
    reports an added assignment, after which the subject is no longer
    offered for the class. *)
Theorem available_subject_is_added allocations assignments nowMs nowIso
    selectedClass subject selectedTeacher :
  In subject (getAvailableSubjects reg allocations assignments selectedClass) →
  sub_id subject ≠ "" → selectedTeacher ≠ "" →
  let row := {| cst_id := pretty nowMs; cst_classId := selectedClass;
                cst_subjectId := sub_id subject; cst_teacherId := selectedTeacher;
                cst_isActive := true; cst_createdAt := nowIso;
                cst_updatedAt := nowIso |} in
  addAssignment nowMs nowIso selectedClass (sub_id subject) selectedTeacher assignments
  = (assignments ++ [row], toast_success "Assignment added successfully")
  ∧ ¬ In subject (getAvailableSubjects reg allocations (assignments ++ [row]) selectedClass).
Proof.
  intros Hin Hsub Hteacher row.
  destruct (getAvailableSubjects_In _ _ _ _ Hin) as (Hcls & _ & _ & Hfree).
  split.
  - unfold addAssignment.
    apply String.eqb_neq in Hcls, Hsub, Hteacher. rewrite Hcls, Hsub, Hteacher. simpl.
    destruct (List.find _ assignments) as [a|] eqn:Hfind; [|done].
    exfalso. apply find_some in Hfind as [Ha Hok].
    apply andb_true_iff in Hok as [[Hc Hs]%andb_true_iff Hact].
    apply String.eqb_eq in Hc, Hs. by apply (Hfree a Ha).
  - intros Hagain. apply getAvailableSubjects_In in Hagain as (_ & _ & _ & Hfree').
    apply (Hfree' row); [apply in_app_iff; right; by left|]. done.
Qed.

Lemma mismatches_of_validate workloads assignments :
  List.filter isMismatch (validateAssignments reg workloads assignments)
  = flat_map (mismatchFor reg) assignments.
Proof.
  unfold validateAssignments. rewrite List.filter_app.
  assert (List.filter isMismatch (flat_map (overcommittedFor assignments) workloads) = [])
    as ->.
  { induction workloads as [|w ws IH]; simpl; [done|]. rewrite List.filter_app, IH.
    unfold overcommittedFor. by destruct (over100 _). }
  rewrite app_nil_r.
  induction assignments as [|a l IH]; simpl; [done|]. rewrite List.filter_app, IH.
  f_equal. unfold mismatchFor. destruct (Grid.findTeacher _ _); [|done].
  by destruct (negb _).
Qed.

(** X16.  A teacher offered by [getQualifiedTeachers] for the selected
    subject raises no qualification error: a row for that subject held by
    that teacher (the registry's teacher of that id) adds nothing to the
    mismatches that [validateAssignments] reports. *)
Theorem qualified_teacher_no_mismatch workloads assignments selectedSubject teacher row :
  In teacher (getQualifiedTeachers reg selectedSubject) →
  Grid.findTeacher reg (t_id teacher) = Some teacher →
  cst_subjectId row = selectedSubject → cst_teacherId row = t_id teacher →
  List.filter isMismatch (validateAssignments reg workloads (assignments ++ [row]))
  = List.filter isMismatch (validateAssignments reg workloads assignments).
Proof.
  intros Hin Hfind Hs Ht. rewrite !mismatches_of_validate, flat_map_app. simpl.
  unfold getQualifiedTeachers in Hin.
  destruct (String.eqb selectedSubject ""); [done|].
  apply filter_In in Hin as [_ Hq].
  unfold mismatchFor at 2. rewrite Ht, Hfind, Hs, Hq. simpl. by rewrite app_nil_r.
Qed.
End manager.

Lemma available_subject_is_added_witness :
  TeacherAssignments.addAssignment 1700000000000 "2024-01-02T00:00:00.000Z" "1" "1" "1" []
  = ([ {| cst_id := "1700000000000"; cst_classId := "1"; cst_subjectId := "1";
          cst_teacherId := "1"; cst_isActive := true;
          cst_createdAt := "2024-01-02T00:00:00.000Z";
          cst_updatedAt := "2024-01-02T00:00:00.000Z" |} ],
     TeacherAssignments.toast_success "Assignment added successfully").
Proof.
  apply (available_subject_is_added Examples.school Examples.oneHourOfMaths []
           1700000000000 "2024-01-02T00:00:00.000Z" "1" Examples.mathematics "1");
    [by left | discriminate | discriminate].
Defined.

Lemma qualified_teacher_no_mismatch_witness :
  List.filter isMismatch
    (Manager.validateAssignments Examples.school []
       (TeacherAssignments.defaultClassSubjectTeachers
        ++ [TeacherAssignments.mkRow "9" "2" "3" "1"]))
  = List.filter isMismatch
      (Manager.validateAssignments Examples.school []
         TeacherAssignments.defaultClassSubjectTeachers).
Proof.
  apply (qualified_teacher_no_mismatch Examples.school []
           TeacherAssignments.defaultClassSubjectTeachers "3"
           (Examples.mkTeacher "1" "Dr. Sarah Johnson" ["1"; "3"] 25)
           (TeacherAssignments.mkRow "9" "2" "3" "1"));
    [by left | reflexivity | reflexivity | reflexivity].
Defined.

(* ================================================================== *)
(** * Teacher assignment manager: workloads *)
(* ================================================================== *)

Lemma sumN_app l1 l2 : sumN (l1 ++ l2) = (sumN l1 + sumN l2)%N.
Proof. induction l1 as [|x l1 IH]; simpl; [done|]. rewrite IH. lia. Qed.

Lemma JsMap_set_sum {V} (f : V → N) (m : JsMap.t V) k v :
  (sumN (map (λ kv, f kv.2) (JsMap.set m k v))
   + match JsMap.get m k with Some old => f old | None => 0 end
   = sumN (map (λ kv, f kv.2) m) + f v)%N.
Proof.
  induction m as [|[k' v'] m IH]; simpl; [lia|].
  destruct (String.eqb k' k); simpl; lia.
Qed.

Lemma over100_utilization total limit :
  (limit < 200)%N →
  Manager.over100 (Manager.utilization total limit) = (limit <? total)%N.
Proof.
  intros Hlimit. unfold Manager.utilization.
  destruct (N.eqb_spec limit 0) as [->|Hpos].
  { destruct (N.eqb_spec total 0) as [->|Ht]; simpl; [done|].
    symmetry. apply N.ltb_lt. lia. }
  simpl. destruct limit as [|p]; [done|].
  assert (Math_round (inject_Z (Z.of_N total) / inject_Z (Z.of_N (N.pos p)) * 100)
          = ((200 * Z.of_N total + Z.pos p) `div` (2 * Z.pos p))%Z) as ->.
  { unfold Math_round.
    transitivity (Qfloor ((200 * Z.of_N total + Z.pos p) # (2 * p))); [|done].
    apply Qfloor_comp. unfold Qeq, Qplus, Qmult, Qdiv, Qinv, inject_Z. simpl.
    lia. }
  destruct (N.ltb_spec (N.pos p) total) as [Hlt|Hge].
  - apply Z.ltb_lt.
    assert (101 ≤ (200 * Z.of_N total + Z.pos p) `div` (2 * Z.pos p))%Z; [|lia].
    apply Z.div_le_lower_bound; lia.
  - apply Z.ltb_ge.
    assert ((200 * Z.of_N total + Z.pos p) `div` (2 * Z.pos p) < 101)%Z; [|lia].
    apply Z.div_lt_upper_bound; lia.
Qed.

Section workloads.
Import Manager.
Context (reg : Grid.Registry) (allocations : list GradeSubjectAllocation).

Lemma countedRows_app k l1 l2 :
  countedRows reg allocations k (l1 ++ l2)
  = countedRows reg allocations k l1 ++ countedRows reg allocations k l2.
Proof. apply List.filter_app. Qed.

Lemma workloadStep_skip st a :
  (∀ k, countedRows reg allocations k [a] = []) →
  workloadStep reg allocations st a = st ∧ hoursOfRow reg allocations a = 0%N.
Proof.
  intros Hskip. specialize (Hskip (cst_subjectId a)).
  unfold countedRows in Hskip. simpl in Hskip. rewrite String.eqb_refl in Hskip.
  unfold workloadStep, hoursOfRow.
  destruct (Grid.findClass reg (cst_classId a)) as [classSection|]; [|done].
  destruct (Grid.findAllocation _ _ _) as [allocation|]; [|done].
  simpl in Hskip. try rewrite bool_decide_eq_true_2 in Hskip by (by eexists). done.
Qed.

Lemma workloadStep_count a classSection allocation :
  Grid.findClass reg (cst_classId a) = Some classSection →
  Grid.findAllocation allocations (cs_gradeId classSection) (cst_subjectId a)
  = Some allocation →
  hoursOfRow reg allocations a = gsa_weeklyHours allocation
  ∧ (∀ k, countedRows reg allocations k [a]
          = if String.eqb (cst_subjectId a) k then [a] else []).
Proof.
  intros Hc Ha. unfold hoursOfRow, countedRows. rewrite Hc, Ha. split; [done|].
  intros k. simpl. rewrite Hc, Ha.
  rewrite bool_decide_eq_true_2 by (by eexists). by rewrite andb_true_r.
Qed.

Lemma workload_step st seen a :
  loadsRecord reg allocations st seen →
  loadsRecord reg allocations (workloadStep reg allocations st a) (seen ++ [a]).
Proof.
  intros (Hnd & Hkeys & Hall & Htotal).
  destruct (Grid.findClass reg (cst_classId a)) as [classSection|] eqn:Hc.
  2:{ destruct (workloadStep_skip st a) as [-> Hzero].
      { intros k. unfold countedRows. simpl. rewrite Hc. by rewrite andb_false_r. }
      split; [done|]. split; [|split].
      - intros k. rewrite countedRows_app.
        unfold countedRows at 2. simpl. rewrite Hc, andb_false_r, app_nil_r. apply Hkeys.
      - eapply Forall_impl; [exact Hall|]. intros kv Hkv. rewrite countedRows_app.
        unfold countedRows at 2 4. simpl. by rewrite Hc, andb_false_r, app_nil_r.
      - rewrite map_app, sumN_app. simpl. rewrite Hzero, Htotal. lia. }
  destruct (Grid.findAllocation allocations (cs_gradeId classSection) (cst_subjectId a))
    as [allocation|] eqn:Ha.
  2:{ assert (∀ k, countedRows reg allocations k [a] = []) as Hnone.
      { intros k. unfold countedRows. simpl. rewrite Hc, Ha.
        rewrite bool_decide_eq_false_2 by (by intros [? ?]). by rewrite andb_false_r. }
      destruct (workloadStep_skip st a Hnone) as [-> Hzero].
      split; [done|]. split; [|split].
      - intros k. rewrite countedRows_app, Hnone, app_nil_r. apply Hkeys.
      - eapply Forall_impl; [exact Hall|]. intros kv Hkv.
        by rewrite countedRows_app, Hnone, app_nil_r.
      - rewrite map_app, sumN_app. simpl. rewrite Hzero, Htotal. lia. }
  destruct (workloadStep_count a _ _ Hc Ha) as [Hhours Hcount].
  set (key := cst_subjectId a) in *.
  assert (∀ k, k ≠ key →
            countedRows reg allocations k (seen ++ [a]) = countedRows reg allocations k seen)
    as Hother.
  { intros k Hne. rewrite countedRows_app, Hcount.
    destruct (String.eqb_spec key k) as [<-|_]; [done|]. apply app_nil_r. }
  assert (countedRows reg allocations key (seen ++ [a])
          = countedRows reg allocations key seen ++ [a]) as Hsame.
  { by rewrite countedRows_app, Hcount, String.eqb_refl. }
  assert (Forall (λ kv : string * SubjectLoad, kv.1 ≠ key →
                   sl_count kv.2
                   = N.of_nat (length (countedRows reg allocations kv.1 (seen ++ [a])))
                   ∧ sl_hours kv.2
                     = sumN (map (hoursOfRow reg allocations)
                               (countedRows reg allocations kv.1 (seen ++ [a])))) st.1)
    as Hothers.
  { eapply Forall_impl; [exact Hall|]. intros [k v] Hkv Hne. simpl in *.
    by rewrite Hother. }
  unfold workloadStep. rewrite Hc. fold key. rewrite Ha.
  unfold loadsRecord.
  destruct (JsMap.get st.1 key) as [cur|] eqn:Hget; cbn [fst snd from_option id].
  - pose proof (JsMap_get_Some _ _ _ Hget) as Hin.
    rewrite Forall_forall in Hall. pose proof (Hall _ Hin) as [Hcnt Hhrs]. simpl in *.
    split; [by erewrite JsMap_set_keys|]. split; [|split].
    + intros k. erewrite JsMap_set_keys by done. rewrite Hkeys.
      destruct (decide (key = k)) as [<-|Hne].
      * rewrite Hsame. split; [intros _ H; by apply app_eq_nil in H as [_ ?]|intros _].
        apply Hkeys, list_elem_of_fmap. by exists (key, cur).
      * by rewrite Hother.
    + apply JsMap_set_Forall; [done|done|]. simpl. rewrite Hsame.
      rewrite length_app, map_app, sumN_app. simpl. rewrite Hcnt, Hhrs, Hhours.
      split; lia.
    + rewrite map_app, sumN_app. simpl. rewrite Hhours, Htotal. lia.
  - pose proof Hget as Hnone. apply JsMap_get_None in Hnone.
    assert (countedRows reg allocations key seen = []) as Hempty.
    { destruct (countedRows reg allocations key seen) eqn:He; [done|].
      exfalso. apply Hnone, Hkeys. by rewrite He. }
    rewrite JsMap_set_fresh by done. split; [|split; [|split]].
    + rewrite fmap_app. apply NoDup_app. split; [done|]. split.
      * intros k Hk Hk'. simpl in Hk'. apply list_elem_of_singleton in Hk' as ->. done.
      * simpl. apply NoDup_singleton.
    + intros k. rewrite fmap_app, elem_of_app. simpl. rewrite list_elem_of_singleton.
      destruct (decide (key = k)) as [<-|Hne].
      * rewrite Hsame. split; [intros _ H; by apply app_eq_nil in H as [_ ?]|by right].
      * rewrite Hother by done. rewrite Hkeys. split; [by intros [?|?]|by left].
    + apply Forall_app. split.
      * rewrite Forall_forall in Hothers |- *. intros [k v] Hin.
        apply (Hothers _ Hin). simpl. intros ->.
        apply Hnone, list_elem_of_fmap. by exists (key, v).
      * repeat constructor; simpl; rewrite Hsame, Hempty; simpl; [done|].
        rewrite Hhours. lia.
    + rewrite map_app, sumN_app. simpl. rewrite Hhours, Htotal. lia.
Qed.

Lemma workload_fold rows st seen :
  loadsRecord reg allocations st seen →
  loadsRecord reg allocations (fold_left (workloadStep reg allocations) rows st)
    (seen ++ rows).
Proof.
  revert st seen. induction rows as [|a l IH]; intros st seen Hrec; simpl.
  - by rewrite app_nil_r.
  - replace (seen ++ a :: l) with ((seen ++ [a]) ++ l) by (by rewrite <- app_assoc).
    apply IH. by apply workload_step.
Qed.

Lemma workload_record rows :
  loadsRecord reg allocations (fold_left (workloadStep reg allocations) rows ([], 0%N)) rows.
Proof.
  apply (workload_fold rows ([], 0%N) []).
  split; [constructor|]. split; [|split; [constructor|done]].
  intros k. split; [by intros ?%elem_of_nil|done].
Qed.

Lemma workload_sums rows st :
  sumN (map (λ kv, sl_hours kv.2) st.1) = st.2 →
  let st' := fold_left (workloadStep reg allocations) rows st in
  sumN (map (λ kv, sl_hours kv.2) st'.1) = st'.2
  ∧ (sumN (map (λ kv, sl_count kv.2) st'.1)
     ≤ sumN (map (λ kv, sl_count kv.2) st.1) + N.of_nat (length rows))%N.
Proof.
  revert st. induction rows as [|a l IH]; intros st Hst; simpl; [split; [done|(unfold JsMap.t in *; lia)]|].
  assert (sumN (map (λ kv, sl_hours kv.2) (workloadStep reg allocations st a).1)
          = (workloadStep reg allocations st a).2
          ∧ (sumN (map (λ kv, sl_count kv.2) (workloadStep reg allocations st a).1)
             ≤ sumN (map (λ kv, sl_count kv.2) st.1) + 1)%N) as [Hh Hc].
  { unfold workloadStep. unfold JsMap.t in *.
    destruct (Grid.findClass _ _); [|split; [done|(unfold JsMap.t in *; lia)]].
    destruct (Grid.findAllocation _ _ _) as [allocation|]; [|split; [done|(unfold JsMap.t in *; lia)]].
    simpl. unfold JsMap.t in *.
    pose proof (JsMap_set_sum sl_hours st.1 (cst_subjectId a)
                  {| sl_count := sl_count (default {| sl_count := 0; sl_hours := 0 |}
                                             (JsMap.get st.1 (cst_subjectId a))) + 1;
                     sl_hours := sl_hours (default {| sl_count := 0; sl_hours := 0 |}
                                             (JsMap.get st.1 (cst_subjectId a)))
                                 + gsa_weeklyHours allocation |}) as Hsh.
    pose proof (JsMap_set_sum sl_count st.1 (cst_subjectId a)
                  {| sl_count := sl_count (default {| sl_count := 0; sl_hours := 0 |}
                                             (JsMap.get st.1 (cst_subjectId a))) + 1;
                     sl_hours := sl_hours (default {| sl_count := 0; sl_hours := 0 |}
                                             (JsMap.get st.1 (cst_subjectId a)))
                                 + gsa_weeklyHours allocation |}) as Hsc.
    unfold JsMap.t in *.
    destruct (JsMap.get st.1 (cst_subjectId a)); simpl in *; split; lia. }
  destruct (IH _ Hh) as [Hh' Hc']. split; [done|]. (unfold JsMap.t in *; lia).
Qed.

(** X17.  When every teacher's weekly hour limit is below 200, the
    overcommitment warnings of [validateAssignments] are, in registry order,
    one per teacher whose active rows carry more weekly hours than the
    limit (a limit of zero included): the rounded percentage adds no slack.
    Each warning lists every row of the validated table held by the teacher,
    active or not. *)
Theorem overcommitted_threshold assignments currentAssignments :
  Forall (λ t, (t_weeklyHourLimit t < 200)%N) (Grid.teachers reg) →
  Forall2
    (λ teacher c,
       tac_type c = teacher_overcommitted ∧ tac_severity c = as_warning
       ∧ tac_affectedAssignments c
         = map cst_id
             (List.filter (λ a, String.eqb (cst_teacherId a) (t_id teacher))
                currentAssignments))
    (List.filter
       (λ t, (t_weeklyHourLimit t <? plannedHours reg allocations assignments t)%N)
       (Grid.teachers reg))
    (List.filter isOvercommitted
       (validateAssignments reg (teacherWorkloads reg allocations assignments)
          currentAssignments)).
Proof.
  intros Hlimits. unfold validateAssignments. rewrite List.filter_app.
  assert (List.filter isOvercommitted (flat_map (mismatchFor reg) currentAssignments) = [])
    as ->.
  { induction currentAssignments as [|a l IH]; simpl; [done|].
    rewrite List.filter_app, IH. unfold mismatchFor.
    destruct (Grid.findTeacher _ _); [|done]. by destruct (negb _). }
  simpl. unfold teacherWorkloads.
  induction Hlimits as [|teacher ts Hlimit _ IH]; simpl; [constructor|].
  rewrite List.filter_app.
  assert (tw_totalWeeklyHours (teacherWorkload reg allocations assignments teacher)
          = plannedHours reg allocations assignments teacher) as Htotal.
  { unfold teacherWorkload, plannedHours. simpl.
    by destruct (workload_record (teacherAssignmentsOf assignments teacher))
      as (_ & _ & _ & ->). }
  unfold overcommittedFor at 1.
  replace (tw_utilizationPercentage (teacherWorkload reg allocations assignments teacher))
    with (utilization (tw_totalWeeklyHours
                         (teacherWorkload reg allocations assignments teacher))
            (t_weeklyHourLimit teacher)) by done.
  rewrite over100_utilization by done. rewrite Htotal.
  destruct (_ <? _)%N; simpl; [|done].
  constructor; [done|]. apply IH.
Qed.

(** X18.  The breakdown of a teacher's workload agrees with its totals: the
    subjects listed are distinct, each with the number and the weekly hours
    of the teacher's active rows of that subject whose class and allocation
    are found; the hours of the subjects add up to [totalWeeklyHours], which
    is the sum over the active rows, and the class counts add up to at most
    [totalClasses]. *)
Theorem workload_breakdown assignments teacher :
  let w := teacherWorkload reg allocations assignments teacher in
  let rows := teacherAssignmentsOf assignments teacher in
  tw_totalWeeklyHours w = plannedHours reg allocations assignments teacher
  ∧ NoDup (map sw_subjectId (tw_subjects w))
  ∧ Forall
      (λ s, (0 < sw_classCount s)%N
            ∧ sw_classCount s
              = N.of_nat (length (countedRows reg allocations (sw_subjectId s) rows))
            ∧ sw_estimatedWeeklyHours s
              = sumN (map (hoursOfRow reg allocations)
                        (countedRows reg allocations (sw_subjectId s) rows)))
      (tw_subjects w)
  ∧ sumN (map sw_estimatedWeeklyHours (tw_subjects w)) = tw_totalWeeklyHours w
  ∧ (sumN (map sw_classCount (tw_subjects w)) ≤ N.of_nat (tw_totalClasses w))%N.
Proof.
  intros w rows. unfold w, teacherWorkload. simpl. fold rows.
  destruct (workload_record rows) as (Hnd & Hkeys & Hall & Htotal).
  destruct (workload_sums rows ([], 0%N) eq_refl) as [Hhours Hcount].
  simpl in Hhours, Hcount.
  set (st := fold_left (workloadStep reg allocations) rows ([], 0%N)) in *.
  split; [done|]. split; [|split; [|split]].
  - rewrite map_map. simpl. exact Hnd.
  - apply Forall_map. rewrite Forall_forall in Hall |- *. intros [k v] Hin. simpl.
    destruct (Hall _ Hin) as [Hc Hh]. simpl in *. split; [|done].
    assert (k ∈ st.1.*1) as Hk by (apply list_elem_of_fmap; by exists (k, v)).
    apply Hkeys in Hk. rewrite Hc.
    destruct (countedRows reg allocations k rows); [done|]. simpl. lia.
  - by rewrite map_map.
  - rewrite map_map. simpl. unfold JsMap.t in *. lia.
Qed.
End workloads.

Lemma overcommitted_threshold_witness :
  Forall2
    (λ teacher c,
       tac_type c = teacher_overcommitted ∧ tac_severity c = as_warning
       ∧ tac_affectedAssignments c
         = map cst_id
             (List.filter (λ a, String.eqb (cst_teacherId a) (t_id teacher))
                TeacherAssignments.defaultClassSubjectTeachers))
    (List.filter
       (λ t, (t_weeklyHourLimit t
              <? plannedHours Examples.school ManagerExamples.heavyMaths
                   TeacherAssignments.defaultClassSubjectTeachers t)%N)
       (Grid.teachers Examples.school))
    (List.filter isOvercommitted
       (Manager.validateAssignments Examples.school
          (Manager.teacherWorkloads Examples.school ManagerExamples.heavyMaths
             TeacherAssignments.defaultClassSubjectTeachers)
          TeacherAssignments.defaultClassSubjectTeachers)).
Proof.
  apply (overcommitted_threshold Examples.school ManagerExamples.heavyMaths
           TeacherAssignments.defaultClassSubjectTeachers
           TeacherAssignments.defaultClassSubjectTeachers).
  repeat constructor.
Defined.

(* ================================================================== *)
(** * Timetable grid: clicking a cell *)
(* ================================================================== *)

Lemma find_snoc {A} (f : A → bool) l x :
  List.find f (l ++ [x])
  = match List.find f l with
    | Some y => Some y
    | None => if f x then Some x else None
    end.
Proof. induction l as [|y l IH]; simpl; [done|]. by destruct (f y). Qed.

Lemma isSlotValid_In slots day period :
  isSlotValid slots day period = true ↔ In (day, period) slots.
Proof.
  unfold isSlotValid. rewrite existsb_exists. split.
  - intros ([d p] & Hin & Heq). simpl in Heq.
    apply andb_true_iff in Heq as [Hd Hp]. apply String.eqb_eq in Hd.
    apply N.eqb_eq in Hp. by subst.
  - intros Hin. exists (day, period). split; [done|]. simpl.
    by rewrite String.eqb_refl, N.eqb_refl.
Qed.

Lemma validSlots_In subjectProgress timetableEntries viewMode selectedEntity
    selectedSubject day period :
  In (day, period)
    (Grid.validSlots subjectProgress timetableEntries viewMode selectedEntity
       selectedSubject) →
  (∃ subject progress,
     Grid.selected selectedSubject = Some subject
     ∧ subjectProgress !! subject = Some progress
     ∧ (p_percentage progress < 100)%Z)
  ∧ In day Grid.DAYS ∧ In period Grid.PERIODS
  ∧ Grid.isOccupied timetableEntries viewMode selectedEntity day period = false.
Proof.
  unfold Grid.validSlots, Grid.selected.
  destruct selectedSubject as [subject|]; [|done].
  destruct (String.eqb subject ""); [done|].
  destruct (subjectProgress !! subject) as [progress|] eqn:Hp; [|done].
  destruct (100 <=? p_percentage progress)%Z eqn:Hfull; [done|].
  rewrite (flat_map_filter_prod
             (λ slot, Grid.isOccupied timetableEntries viewMode selectedEntity
                        slot.1 slot.2)).
  rewrite filter_In, in_prod_iff. simpl. intros [[Hd Hper] Hfree].
  apply negb_true_iff in Hfree. apply Z.leb_gt in Hfull.
  split; [by exists subject, progress|done].
Qed.

Lemma getEntryForSlot_isOccupied timetableEntries viewMode selectedEntity day period :
  Grid.isOccupied timetableEntries viewMode selectedEntity day period
  = bool_decide (is_Some (getEntryForSlot timetableEntries viewMode selectedEntity
                            day period)).
Proof.
  unfold Grid.isOccupied, getEntryForSlot.
  induction timetableEntries as [|e l IH]; simpl; [done|].
  destruct viewMode; (destruct (_ && _); simpl; [reflexivity|exact IH]).
Qed.

Lemma filter_inCell_isOccupied timetableEntries viewMode selectedEntity day period :
  Grid.isOccupied timetableEntries viewMode selectedEntity day period = false →
  List.filter (inCell viewMode selectedEntity day period) timetableEntries = [].
Proof.
  unfold Grid.isOccupied, inCell.
  induction timetableEntries as [|e l IH]; simpl; [done|].
  intros [He Hl]%orb_false_iff. by destruct viewMode; rewrite He; apply IH.
Qed.

(** X19.  A click on a cell runs the handler only for a valid cell, so it
    never ends in the "fully scheduled" alert, and when it adds an entry
    the cell was an empty cell of the configured grid: afterwards the cell
    holds exactly the new entry, [getEntryForSlot] finds it, and
    [isSlotValid] rejects the cell for every subject. *)
Theorem onCellClick_fills_empty_cell reg periodDuration subjectProgress assignments
    timeSlots timetableEntries now viewMode selectedEntity selectedSubject day period :
  match onCellClick reg periodDuration subjectProgress assignments timeSlots
          timetableEntries now viewMode selectedEntity selectedSubject day period with
  | ClickFullyScheduled => False
  | ClickAdded updatedEntries conflicts =>
      In day Grid.DAYS ∧ In period Grid.PERIODS
      ∧ getEntryForSlot timetableEntries viewMode selectedEntity day period = None
      ∧ ∃ entry,
          updatedEntries = timetableEntries ++ [entry]
          ∧ te_id entry = pretty now
          ∧ List.filter (inCell viewMode selectedEntity day period) updatedEntries
            = [entry]
          ∧ getEntryForSlot updatedEntries viewMode selectedEntity day period
            = Some entry
          ∧ ∀ progress' subject',
              isSlotValid
                (Grid.validSlots progress' updatedEntries viewMode selectedEntity
                   subject') day period = false
  | ClickIgnored | ClickNoTeacher => True
  end.
Proof.
  unfold onCellClick.
  destruct (Grid.selected selectedSubject) as [subject|] eqn:Hsel; [|done].
  destruct (isSlotValid _ day period) eqn:Hvalid; [|done].
  apply isSlotValid_In, validSlots_In
    in Hvalid as ((subject' & progress & Hsel' & Hp & Hlt) & Hday & Hperiod & Hfree).
  rewrite Hsel in Hsel'. injection Hsel' as <-.
  unfold Grid.handleSlotClick. rewrite Hsel.
  destruct (String.eqb_spec selectedEntity "") as [|Hentity]; [done|].
  rewrite Hp. destruct (Z.leb_spec 100 (p_percentage progress)) as [|_]; [lia|].
  simpl.
  destruct (String.eqb_spec
              (Grid.resolveTeacher assignments viewMode selectedEntity subject) "")
    as [|Hteacher]; [done|].
  set (entry := Grid.newEntry _ _ _ _ _ _ _ _).
  assert (inCell viewMode selectedEntity day period entry = true) as Hcell.
  { unfold inCell, entry, Grid.newEntry. destruct viewMode; simpl;
      by rewrite !String.eqb_refl, N.eqb_refl. }
  assert (getEntryForSlot (timetableEntries ++ [entry]) viewMode selectedEntity
            day period = Some entry) as Hfound.
  { rewrite getEntryForSlot_isOccupied in Hfree.
    apply bool_decide_eq_false_1 in Hfree.
    unfold getEntryForSlot in *. rewrite find_snoc.
    destruct (List.find _ timetableEntries) eqn:Hfind; [exfalso; apply Hfree; by eexists|].
    change ((if inCell viewMode selectedEntity day period entry
             then Some entry else None) = Some entry).
    by rewrite Hcell. }
  split; [done|]. split; [done|]. split.
  { rewrite getEntryForSlot_isOccupied in Hfree.
    apply bool_decide_eq_false_1 in Hfree.
    destruct (getEntryForSlot _ _ _ _ _); [exfalso; apply Hfree; by eexists|done]. }
  exists entry. split; [done|]. split; [done|]. split; [|split; [done|]].
  - rewrite List.filter_app, (filter_inCell_isOccupied _ _ _ _ _ Hfree). simpl.
    by rewrite Hcell.
  - intros progress' subject'.
    destruct (isSlotValid _ day period) eqn:Hagain; [|done].
    apply isSlotValid_In, validSlots_In in Hagain as (_ & _ & _ & Hfree').
    rewrite getEntryForSlot_isOccupied, Hfound in Hfree'.
    apply bool_decide_eq_false_1 in Hfree'. exfalso. apply Hfree'. by eexists.
Qed.
